(** * Himalayan Expedition Analytics: the tabular pipeline of [notepad.py]

    A shallow embedding of the loader, the filter stage and the five
    analytical outputs of [src/himalayan-analytics/notepad.py], and the
    properties of the specification checked against it.

    Modelling conventions.
    - A pandas [DataFrame] is a list of column names and a list of rows;
      a cell is a null (NaN), a string, a whole number or a boolean.  The
      type of a column is read off its cells as [pd.read_csv] infers it
      ([dtype_of]): a column of [VInt] only is int64, and a numeric column
      with a missing cell is float64.  [VInt z] is the integer [z] in an
      int64 column and the float [z.0] in every other column ([fillna]
      keeps the floats of a float64 column next to the strings it
      writes); floats with a fraction do not occur.  Cells of different
      kinds are different values; the first column of a given name is the
      one a name refers to.
    - [value_counts] keeps equal counts in order of first appearance.
    - The percentage is an exact rational; the source computes it as a
      float.
    - Strings are byte strings; [lower] and [strip] act on ASCII, as
      [str.lower] and [str.strip] do on ASCII text.
    - Exceptions are values of [exn]; a computation that may raise returns a
      [result].
    - The Streamlit script is a state-passing program over a heap of frames
      (variables hold addresses) and the list of widgets emitted so far; an
      exception stops the script and keeps what was emitted before it.
    - [pd.read_csv] and the widgets' user input are the environment: the raw
      frames and the two selections are parameters.  Calls that only
      decorate the page (titles, headers, previews, dimension metrics) are
      left out. *)

From Stdlib Require Import String Ascii List ZArith QArith Bool Arith Lia.
From Stdlib Require Import Permutation Sorted DecimalString.
Import ListNotations.
Open Scope string_scope.
Open Scope list_scope.

(** ** Errors *)

Inductive exn : Type :=
| KeyError (key : string)
| ZeroDivisionError
| ValueError
| AttributeError
| TypeError
| NameError.

Inductive result (A : Type) : Type :=
| Ok (a : A)
| Err (e : exn).
Arguments Ok {A} a.
Arguments Err {A} e.

Definition rbind {A B} (r : result A) (k : A -> result B) : result B :=
  match r with
  | Ok a => k a
  | Err e => Err e
  end.

Notation "x <- r ;; k" := (rbind r (fun x => k))
  (at level 61, r at next level, right associativity).

(** ** Strings *)

Definition is_upper (c : ascii) : bool :=
  let n := nat_of_ascii c in (65 <=? n)%nat && (n <=? 90)%nat.

Definition lower_ascii (c : ascii) : ascii :=
  if is_upper c then ascii_of_nat (nat_of_ascii c + 32) else c.

(** [str.lower] *)
Fixpoint lower (s : string) : string :=
  match s with
  | EmptyString => EmptyString
  | String c s' => String (lower_ascii c) (lower s')
  end.

(** [pat in s] on Python strings *)
Fixpoint contains (pat s : string) : bool :=
  String.prefix pat s ||
  match s with
  | EmptyString => false
  | String _ s' => contains pat s'
  end.

(** The characters [str.strip] removes by default (ASCII white space). *)
Definition is_space (c : ascii) : bool :=
  let n := nat_of_ascii c in
  ((9 <=? n)%nat && (n <=? 13)%nat) || ((28 <=? n)%nat && (n <=? 32)%nat).

Fixpoint lstrip (s : string) : string :=
  match s with
  | EmptyString => EmptyString
  | String c s' => if is_space c then lstrip s' else s
  end.

Fixpoint rstrip (s : string) : string :=
  match s with
  | EmptyString => EmptyString
  | String c s' =>
      match rstrip s' with
      | EmptyString => if is_space c then EmptyString else String c EmptyString
      | t => String c t
      end
  end.

(** [str.strip] *)
Definition strip (s : string) : string := rstrip (lstrip s).

(** ** Cells, series and frames *)

Inductive value : Type :=
| VNull
| VStr (s : string)
| VInt (z : Z)
| VBool (b : bool).

Definition value_eq_dec (x y : value) : {x = y} + {x <> y}.
Proof.
  decide equality;
    [apply string_dec | apply Z.eq_dec | apply bool_dec].
Defined.

Definition value_eqb (x y : value) : bool :=
  if value_eq_dec x y then true else false.

Definition notna (v : value) : bool :=
  match v with
  | VNull => false
  | _ => true
  end.

Definition is_str (v : value) : bool :=
  match v with
  | VStr _ => true
  | _ => false
  end.

Definition Series : Type := list value.

Record DataFrame : Type := mkDataFrame {
  columns : list string;
  rows : list (list value)
}.

(** [Series.dropna] *)
Definition dropna (s : Series) : Series := filter notna s.

(** [Series.unique]: the distinct values in order of first appearance. *)
Definition unique (s : Series) : Series := rev (nodup value_eq_dec (rev s)).

(** [Series.nunique] (nulls are dropped by default) *)
Definition nunique (s : Series) : nat := length (unique (dropna s)).

(** [Series.isin(values)]; a null matches a null, as in pandas. *)
Definition isin (values : list value) (v : value) : bool :=
  if in_dec value_eq_dec v values then true else false.

(** Elementwise [series == scalar]: a null compares unequal to everything. *)
Definition eq_scalar (scalar : value) (v : value) : bool :=
  notna v && value_eqb v scalar.

Definition is_int (v : value) : bool :=
  match v with
  | VInt _ => true
  | _ => false
  end.

Definition is_bool (v : value) : bool :=
  match v with
  | VBool _ => true
  | _ => false
  end.

(** The column types the script meets. *)
Inductive dtype : Type :=
| Int64
| Float64
| Boolean
| Object.

(** The type of a column as [pd.read_csv] infers it and [fillna] leaves
    it: whole numbers only give int64, whole numbers with missing cells
    (or missing cells only) float64, booleans only bool, and anything
    else, like a column without row, object. *)
Definition dtype_of (s : Series) : dtype :=
  match s with
  | [] => Object
  | _ =>
      if forallb is_int s then Int64
      else if forallb (fun v => is_int v || negb (notna v)) s then Float64
      else if forallb is_bool s then Boolean
      else Object
  end.

(** [str(v)] as [Series.astype(str)] applies it to each cell of a column
    of type [d]: a whole number prints as [1] in an int64 column and as
    the float [1.0] elsewhere (Python prints the floats below 10^16 so). *)
Definition astype_str (d : dtype) (v : value) : string :=
  match v with
  | VNull => "nan"
  | VStr s => s
  | VInt z =>
      match d with
      | Int64 => NilZero.string_of_int (Z.to_int z)
      | _ => NilZero.string_of_int (Z.to_int z) ++ ".0"
      end
  | VBool true => "True"
  | VBool false => "False"
  end.

(** Position of the first column called [name]. *)
Fixpoint col_index (name : string) (cols : list string) : option nat :=
  match cols with
  | [] => None
  | c :: cols' =>
      if String.eqb c name then Some 0%nat
      else option_map S (col_index name cols')
  end.

(** [name in df.columns] *)
Definition has_col (name : string) (df : DataFrame) : bool :=
  match col_index name (columns df) with
  | Some _ => true
  | None => false
  end.

Definition cell (i : nat) (r : list value) : value := nth i r VNull.

(** [df[name]] *)
Definition getitem (df : DataFrame) (name : string) : result Series :=
  match col_index name (columns df) with
  | Some i => Ok (map (cell i) (rows df))
  | None => Err (KeyError name)
  end.

(** [df[[n1, n2, ...]]] *)
Fixpoint col_indices (names cols : list string) : result (list nat) :=
  match names with
  | [] => Ok []
  | n :: names' =>
      match col_index n cols with
      | Some i => ix <- col_indices names' cols ;; Ok (i :: ix)
      | None => Err (KeyError n)
      end
  end.

Definition getitems (df : DataFrame) (names : list string) : result DataFrame :=
  ix <- col_indices names (columns df) ;;
  Ok {| columns := names;
        rows := map (fun r => map (fun i => cell i r) ix) (rows df) |}.

(** [df[mask]] with a boolean mask computed row by row *)
Definition select (mask : list value -> bool) (df : DataFrame) : DataFrame :=
  {| columns := columns df; rows := filter mask (rows df) |}.

(** [df.head(n)] *)
Definition head (n : nat) (df : DataFrame) : DataFrame :=
  {| columns := columns df; rows := firstn n (rows df) |}.

(** [df.empty]: some axis has length zero *)
Definition empty (df : DataFrame) : bool :=
  match columns df, rows df with
  | _ :: _, _ :: _ => false
  | _, _ => true
  end.

(** [df.shape[0]] *)
Definition nrows (df : DataFrame) : nat := length (rows df).

(** [df.columns = names] (a length mismatch raises) *)
Definition set_columns (names : list string) (df : DataFrame) : result DataFrame :=
  if (length names =? length (columns df))%nat
  then Ok {| columns := names; rows := rows df |}
  else Err ValueError.

(** ** Counting, sorting, joining and reshaping *)

Definition count (v : value) (s : Series) : nat := count_occ value_eq_dec s v.

(** Stable insertion into a list sorted by descending count. *)
Fixpoint insert_desc (x : value * nat) (l : list (value * nat)) : list (value * nat) :=
  match l with
  | [] => [x]
  | y :: l' => if (snd x <? snd y)%nat then y :: insert_desc x l' else x :: l
  end.

Definition sort_desc (l : list (value * nat)) : list (value * nat) :=
  fold_right insert_desc [] l.

(** [Series.value_counts]: nulls dropped, one entry per distinct value,
    descending by count; equal counts stay in order of first appearance. *)
Definition value_counts (s : Series) : list (value * nat) :=
  sort_desc (map (fun v => (v, count v s)) (unique (dropna s))).

(** [value_counts().reset_index()]: the labels become a column. *)
Definition reset_index (name : string) (vc : list (value * nat)) : DataFrame :=
  {| columns := [name; "count"];
     rows := map (fun p => [fst p; VInt (Z.of_nat (snd p))]) vc |}.

(** [Series.idxmax]: the label of the first maximum; empty input raises. *)
Fixpoint idxmax_from (best : value * nat) (l : list (value * nat)) : value :=
  match l with
  | [] => fst best
  | p :: l' => idxmax_from (if (snd best <? snd p)%nat then p else best) l'
  end.

Definition idxmax (vc : list (value * nat)) : result value :=
  match vc with
  | [] => Err ValueError
  | p :: l => Ok (idxmax_from p l)
  end.

Definition remove_nth {A} (i : nat) (l : list A) : list A :=
  firstn i l ++ skipn (S i) l.

(** The rows a left join makes of the left row [l]: one for each right row
    of equal key, or [l] padded with nulls when there is none. *)
Definition join_row (i j width : nat) (right : list (list value)) (l : list value)
    : list (list value) :=
  match filter (fun r => value_eqb (cell j r) (cell i l)) right with
  | [] => [l ++ repeat VNull width]
  | ms => map (fun r => l ++ remove_nth j r) ms
  end.

(** [pandas.api.types.infer_dtype(keys, skipna=False)] on the values
    [keys] of a column of type [d]. *)
Inductive inferred : Type :=
| IEmpty
| IString
| IInteger
| IFloating
| IBoolean
| IMixed.

Definition infer_dtype (d : dtype) (keys : Series) : inferred :=
  match d with
  | Int64 => IInteger
  | Float64 => IFloating
  | Boolean => IBoolean
  | Object =>
      match keys with
      | [] => IEmpty
      | _ =>
          if forallb is_str keys then IString
          else if forallb is_bool keys then IBoolean
          else if forallb is_int keys then IFloating
          else IMixed
      end
  end.

Definition bool_types (t : inferred) : bool :=
  match t with
  | IInteger | IBoolean | IEmpty => true
  | _ => false
  end.

Definition string_types (t : inferred) : bool :=
  match t with
  | IString | IMixed | IEmpty => true
  | _ => false
  end.

(** The test [merge] makes of its key columns before it joins ("You are
    trying to merge on object and int64 columns"): skipped when exactly
    one side has no row; between an object and a numeric column it
    refuses string-like values against values that are not. *)
Definition incompatible_keys (ld : dtype) (lkeys : Series) (rd : dtype) (rkeys : Series)
    : bool :=
  match lkeys, rkeys with
  | _ :: _, [] | [], _ :: _ => false
  | _, _ =>
      match ld, rd with
      | Object, Int64 | Object, Float64 | Int64, Object | Float64, Object =>
          let il := infer_dtype ld lkeys in
          let ir := infer_dtype rd rkeys in
          if bool_types il && bool_types ir then false
          else (string_types il && negb (string_types ir))
               || (string_types ir && negb (string_types il))
      | _, _ => false
      end
  end.

(** [left.merge(right, on=key, how="left")]: every left row is kept, in
    order.  The columns other than the key are assumed distinct.  [ltype]
    is the type of the left key column: a frame of counts holds the keys
    without the nulls of the column they were counted in, and keeps that
    column's type. *)
Definition merge_left (ltype : dtype) (left right : DataFrame) (key : string)
    : result DataFrame :=
  match col_index key (columns left), col_index key (columns right) with
  | Some i, Some j =>
      let rkeys := map (cell j) (rows right) in
      if incompatible_keys ltype (map (cell i) (rows left)) (dtype_of rkeys) rkeys
      then Err ValueError
      else
        Ok {| columns := columns left ++ remove_nth j (columns right);
              rows := flat_map (join_row i j (length (columns right) - 1) (rows right))
                               (rows left) |}
  | _, _ => Err (KeyError key)
  end.

(** Order of group keys: numbers (booleans as 0 and 1) before strings. *)
Definition num_of (v : value) : option Z :=
  match v with
  | VInt z => Some z
  | VBool b => Some (if b then 1%Z else 0%Z)
  | _ => None
  end.

Definition value_leb (x y : value) : bool :=
  match num_of x, num_of y with
  | Some a, Some b => (a <=? b)%Z
  | Some _, None => true
  | None, Some _ => false
  | None, None => String.leb (astype_str Object x) (astype_str Object y)
  end.

Fixpoint insert_asc (x : value) (l : Series) : Series :=
  match l with
  | [] => [x]
  | y :: l' => if value_leb x y then x :: l else y :: insert_asc x l'
  end.

Definition sort_values (s : Series) : Series := fold_right insert_asc [] s.

(** [Series.str.contains(pat, case=False, na=False)] on one cell, for a
    pattern without regular-expression operators. *)
Definition str_contains_ci (pat : string) (v : value) : bool :=
  match v with
  | VStr s => contains (lower pat) (lower s)
  | _ => false
  end.

(** The [.str] accessor is refused on a column that holds no string,
    unless the column has no row. *)
Definition str_accessor (s : Series) : result Series :=
  match s with
  | [] => Ok s
  | _ => if existsb is_str s then Ok s else Err AttributeError
  end.

(** [pd.melt(df, id_vars=id, value_vars=vars, var_name=.., value_name=..)] *)
Definition melt (df : DataFrame) (id : string) (vars : list string)
    (var_name value_name : string) : result DataFrame :=
  i <- match col_index id (columns df) with
       | Some i => Ok i
       | None => Err (KeyError id)
       end ;;
  js <- col_indices vars (columns df) ;;
  Ok {| columns := [id; var_name; value_name];
        rows :=
          flat_map
            (fun vj => map (fun r => [cell i r; VStr (fst vj); cell (snd vj) r]) (rows df))
            (combine vars js) |}.

(** ** The table loader *)

Record Tables : Type := mkTables {
  exped : DataFrame;
  members : DataFrame;
  peaks : DataFrame;
  refer : DataFrame;
  data_dict : DataFrame
}.

(** [df.columns = df.columns.str.strip()] *)
Definition strip_columns (df : DataFrame) : DataFrame :=
  {| columns := map strip (columns df); rows := rows df |}.

Fixpoint lookup_fill (c : string) (fills : list (string * value)) : option value :=
  match fills with
  | [] => None
  | (k, d) :: fills' => if String.eqb k c then Some d else lookup_fill c fills'
  end.

Fixpoint fill_row (fills : list (string * value)) (cols : list string)
    (r : list value) : list value :=
  match cols, r with
  | c :: cols', v :: r' =>
      match v, lookup_fill c fills with
      | VNull, Some d => d
      | _, _ => v
      end :: fill_row fills cols' r'
  | _, _ => r
  end.

(** [df.fillna({col: default, ...}, inplace=True)]: keys that are not
    columns are ignored. *)
Definition fillna (fills : list (string * value)) (df : DataFrame) : DataFrame :=
  {| columns := columns df;
     rows := map (fill_row fills (columns df)) (rows df) |}.

(** [load_data], after the five [pd.read_csv] calls returned [raw]. *)
Definition load_data (raw : Tables) : Tables :=
  {| exped := fillna [("success1", VStr "unknown")] (strip_columns (exped raw));
     members := fillna [("peakid", VStr "UNKNOWN"); ("citizen", VStr "UNKNOWN")]
                  (strip_columns (members raw));
     peaks := fillna [("pkname", VStr "UNKNOWN")] (strip_columns (peaks raw));
     refer := strip_columns (refer raw);
     data_dict := strip_columns (data_dict raw) |}.

(** ** The filter stage *)

(** [exped["year"].dropna().unique()] *)
Definition years (exped : DataFrame) : result Series :=
  y <- getitem exped "year" ;; Ok (unique (dropna y)).

(** [members["citizen"].dropna().unique()] *)
Definition countries (members : DataFrame) : result Series :=
  c <- getitem members "citizen" ;; Ok (unique (dropna c)).

Definition is_num (v : value) : bool :=
  match num_of v with
  | Some _ => true
  | None => false
  end.

(** Python can order the values of the list: numbers among themselves or
    strings among themselves. *)
Definition comparable (s : Series) : bool := forallb is_num s || forallb is_str s.

(** Stable insertion into a list in descending order. *)
Fixpoint insert_rev (x : value) (l : Series) : Series :=
  match l with
  | [] => [x]
  | y :: l' => if value_leb y x then x :: l else y :: insert_rev x l'
  end.

(** [sorted(s)] and [sorted(s, reverse=True)] on a list without null;
    [None] is the [TypeError] of an ordering between a string and a
    number. *)
Definition sorted (reverse : bool) (s : Series) : option Series :=
  if comparable s
  then Some (if reverse then fold_right insert_rev [] s else sort_values s)
  else None.


(** [sorted(countries)] *)
Definition country_options (members : DataFrame) : result (option Series) :=
  cs <- countries members ;; Ok (sorted false cs).

(** The outcome of a [sorted] call as a step of the script: its list, or
    the [TypeError] that stops the script. *)
Definition or_type_error (sorted_list : option Series) : result Series :=
  match sorted_list with
  | Some l => Ok l
  | None => Err TypeError
  end.

(** [exped[exped["year"] == selected_year]] *)
Definition filtered_exped (exped : DataFrame) (selected_year : value) : result DataFrame :=
  match col_index "year" (columns exped) with
  | Some i => Ok (select (fun r => eq_scalar selected_year (cell i r)) exped)
  | None => Err (KeyError "year")
  end.

(** [members[members["citizen"] == selected_country]] *)
Definition filtered_members (members : DataFrame) (selected_country : value) : result DataFrame :=
  match col_index "citizen" (columns members) with
  | Some i => Ok (select (fun r => eq_scalar selected_country (cell i r)) members)
  | None => Err (KeyError "citizen")
  end.

(** ** The five analytical outputs *)

(** What a guarded section hands to the page: a value, or the message of
    its [else] branch. *)
Inductive soft (A : Type) : Type :=
| Computed (a : A)
| Skipped (msg : string).
Arguments Computed {A} a.
Arguments Skipped {A} msg.

(** *** Top 5 most climbed peaks (lines 75-79) *)

Definition top_peaks (members peaks : DataFrame) : result DataFrame :=
  s <- getitem members "peakid" ;;
  counted <- set_columns ["peakid"; "num_climbers"]
               (reset_index "peakid" (value_counts s)) ;;
  named <- getitems peaks ["peakid"; "pkname"] ;;
  merge_left (dtype_of s) counted named "peakid".

Definition top5 (members peaks : DataFrame) : result (soft DataFrame) :=
  if has_col "peakid" members && has_col "peakid" peaks then
    merged <- top_peaks members peaks ;;
    Ok (Computed (head 5 merged))
  else Ok (Skipped "Required columns ('peakid', 'pkname') missing.").

(** *** Percentage of peaks climbed (lines 105-107) *)

Definition peaks_climbed (members : DataFrame) : result nat :=
  s <- getitem members "peakid" ;; Ok (nunique (dropna s)).

Definition total_peaks (peaks : DataFrame) : result nat :=
  s <- getitem peaks "peakid" ;; Ok (nunique s).

(** [a / b] on Python integers *)
Definition truediv (a b : nat) : result Q :=
  if (b =? 0)%nat then Err ZeroDivisionError
  else Ok (inject_Z (Z.of_nat a) / inject_Z (Z.of_nat b))%Q.

Definition climbed_pct (members peaks : DataFrame) : result Q :=
  climbed <- peaks_climbed members ;;
  total <- total_peaks peaks ;;
  ratio <- truediv climbed total ;;
  Ok (ratio * inject_Z 100)%Q.

(** *** Most successful climber (lines 111-124) *)

Definition name_cols (members : DataFrame) : list string :=
  filter (fun col => contains "name" (lower col)) (columns members).

Definition success_cols (members : DataFrame) : list string :=
  filter (fun col => contains "success" (lower col)) (columns members).

Definition success_literals : list string := ["true"; "1"; "y"; "yes"].

(** [astype(str).str.lower().isin(['true', '1', 'y', 'yes'])] on one cell
    of a column of type [d] *)
Definition is_success (d : dtype) (v : value) : bool :=
  existsb (String.eqb (lower (astype_str d v))) success_literals.

(** [members[members[success_col]...isin([...])]] *)
Definition successful_members (members : DataFrame) (success_col : string) : result DataFrame :=
  match col_index success_col (columns members) with
  | Some j =>
      let d := dtype_of (map (cell j) (rows members)) in
      Ok (select (fun r => is_success d (cell j r)) members)
  | None => Err (KeyError success_col)
  end.

Definition most_successful (members : DataFrame) : result (soft value) :=
  match name_cols members, success_cols members with
  | name_col :: _, success_col :: _ =>
      winners <- successful_members members success_col ;;
      if negb (empty winners) then
        names <- getitem winners name_col ;;
        best <- idxmax (value_counts names) ;;
        Ok (Computed best)
      else Ok (Skipped "No successful climbs found in the data.")
  | _, _ => Ok (Skipped "Could not find suitable 'name' or 'success' columns in members.csv.")
  end.

(** *** Climbing trends over time (lines 128-135) *)

(** [exped.groupby("year").agg(count of expid, number of success1 ==
    "success").reset_index()]: one row per non-null year, ascending. *)
Definition yearly_summary (exped : DataFrame) : result DataFrame :=
  match col_index "year" (columns exped),
        col_index "expid" (columns exped),
        col_index "success1" (columns exped) with
  | None, _, _ => Err (KeyError "year")
  | _, None, _ => Err (KeyError "expid")
  | _, _, None => Err (KeyError "success1")
  | Some iy, Some ie, Some js =>
      let group y := filter (fun r => value_eqb (cell iy r) y) (rows exped) in
      Ok {| columns := ["year"; "total_expeditions"; "successful_expeditions"];
            rows :=
              map (fun y =>
                     [y;
                      VInt (Z.of_nat (length (filter (fun r => notna (cell ie r)) (group y))));
                      VInt (Z.of_nat (length (filter (fun r => eq_scalar (VStr "success") (cell js r))
                                                     (group y))))])
                  (sort_values (unique (dropna (map (cell iy) (rows exped))))) |}
  end.

Definition trend_data (exped : DataFrame) : result (soft DataFrame) :=
  if has_col "year" exped then
    summary <- yearly_summary exped ;;
    long <- melt summary "year" ["total_expeditions"; "successful_expeditions"]
              "Metric" "Count" ;;
    Ok (Computed long)
  else Ok (Skipped "`year` column not found in exped.csv").

(** *** Successful Everest climbers (lines 149-155) *)

(** [peaks[peaks['pkname'].str.contains("Everest", case=False,
    na=False)]["peakid"].values] *)
Definition everest_id (peaks : DataFrame) : result (list value) :=
  names <- getitem peaks "pkname" ;;
  _ <- str_accessor names ;;
  match col_index "pkname" (columns peaks) with
  | Some i => getitem (select (fun r => str_contains_ci "Everest" (cell i r)) peaks) "peakid"
  | None => Err (KeyError "pkname")
  end.

Definition everest_climbers (members peaks : DataFrame) : result (soft nat) :=
  match col_index "peakid" (columns members), success_cols members with
  | Some i, success_col :: _ =>
      ids <- everest_id peaks ;;
      match col_index success_col (columns members) with
      | Some j =>
          let d := dtype_of (map (cell j) (rows members)) in
          Ok (Computed (nrows (select (fun r => isin ids (cell i r) && is_success d (cell j r))
                                      members)))
      | None => Err (KeyError success_col)
      end
  | _, _ => Ok (Skipped "Columns `peakid` or success not found.")
  end.

(** ** The script: a heap of frames and the page rendered so far *)

Inductive metric : Type :=
| MPct (q : Q)               (* f"{climbed_pct:.2f}%" *)
| MLabel (v : value)
| MCount (n : nat)
| MShape (nrow ncol : nat).

Inductive widget : Type :=
| WChart (df : DataFrame)
| WDataFrame (df : DataFrame)
| WMetric (label : string) (m : metric)
| WWarning (msg : string)
| WError (msg : string)
| WSuccess (msg : string).

Definition addr : Type := nat.

Record state : Type := mkState {
  heap : list DataFrame;
  page : list widget
}.

Definition M (A : Type) : Type := state -> result A * state.

Definition ret {A} (a : A) : M A := fun st => (Ok a, st).

Definition bind {A B} (m : M A) (k : A -> M B) : M B :=
  fun st =>
    match m st with
    | (Ok a, st') => k a st'
    | (Err e, st') => (Err e, st')
    end.

Notation "'do' x <- m ; k" := (bind m (fun x => k))
  (at level 10, x name, m at level 100, k at level 200).

(** An exception of a pandas call stops the script. *)
Definition lift {A} (r : result A) : M A := fun st => (r, st).

(** A new frame object; the variable bound to it holds its address. *)
Definition alloc (df : DataFrame) : M addr :=
  fun st => (Ok (length (heap st)),
             {| heap := heap st ++ [df]; page := page st |}).

Definition deref (a : addr) : M DataFrame :=
  fun st =>
    match nth_error (heap st) a with
    | Some df => (Ok df, st)
    | None => (Err NameError, st)
    end.

Fixpoint update {A} (i : nat) (x : A) (l : list A) : list A :=
  match i, l with
  | O, _ :: l' => x :: l'
  | S i', y :: l' => y :: update i' x l'
  | _, [] => []
  end.

(** [frame.columns = names]: the object at [a] is changed in place. *)
Definition assign_columns (a : addr) (names : list string) : M unit :=
  fun st =>
    match nth_error (heap st) a with
    | Some df =>
        match set_columns names df with
        | Ok df' => (Ok tt, {| heap := update a df' (heap st); page := page st |})
        | Err e => (Err e, st)
        end
    | None => (Err NameError, st)
    end.

(** [st.metric], [st.warning], ...: one more widget on the page. *)
Definition emit (w : widget) : M unit :=
  fun st => (Ok tt, {| heap := heap st; page := page st ++ [w] |}).

(** The module-level names bound by [load_data]'s result. *)
Definition a_exped : addr := 0%nat.
Definition a_members : addr := 1%nat.
Definition a_peaks : addr := 2%nat.
Definition a_refer : addr := 3%nat.
Definition a_data_dict : addr := 4%nat.

Definition init_state (t : Tables) : state :=
  {| heap := [exped t; members t; peaks t; refer t; data_dict t]; page := [] |}.

(** Lines 53-70: the selections, the filtered views and their previews.
    The year column is none of the columns [load_data] fills: it is as
    [pd.read_csv] typed it, numbers only or strings only, and [sorted]
    orders its values; the nationality column can hold the filled
    "UNKNOWN" next to numbers, which [sorted] refuses. *)
Definition filter_section (selected_year selected_country : value) : M unit :=
  do e <- deref a_exped;
  do ys <- lift (years e);
  do _ <- ret (sorted true ys);
  do m <- deref a_members;
  do cs <- lift (countries m);
  do _ <- lift (or_type_error (sorted false cs));
  do fe <- lift (filtered_exped e selected_year);
  do a_fe <- alloc fe;
  do fm <- lift (filtered_members m selected_country);
  do a_fm <- alloc fm;
  do p <- deref a_peaks;
  do r <- deref a_refer;
  do d <- deref a_data_dict;
  do _ <- emit (WDataFrame (head 5 fe));
  do _ <- emit (WDataFrame (head 5 fm));
  do _ <- emit (WDataFrame (head 5 p));
  do _ <- emit (WDataFrame (head 5 r));
  emit (WDataFrame (head 5 d)).

(** Lines 75-91. [top_peaks.columns = [...]] writes into the frame that
    [reset_index] has just built. *)
Definition top5_section : M unit :=
  do m <- deref a_members;
  do p <- deref a_peaks;
  if has_col "peakid" m && has_col "peakid" p then
    do s <- lift (getitem m "peakid");
    do a_top <- alloc (reset_index "peakid" (value_counts s));
    do _ <- assign_columns a_top ["peakid"; "num_climbers"];
    do counted <- deref a_top;
    do named <- lift (getitems p ["peakid"; "pkname"]);
    do merged <- lift (merge_left (dtype_of s) counted named "peakid");
    do a_top' <- alloc merged;
    do a_top5 <- alloc (head 5 merged);
    do t5 <- deref a_top5;
    do _ <- emit (WChart t5);
    emit (WDataFrame t5)
  else emit (WError "Required columns ('peakid', 'pkname') missing.").

(** Lines 95-99 *)
Definition dimensions_section : M unit :=
  do e <- deref a_exped;
  do m <- deref a_members;
  do p <- deref a_peaks;
  do r <- deref a_refer;
  do _ <- emit (WMetric "Expeditions" (MShape (nrows e) (length (columns e))));
  do _ <- emit (WMetric "Members" (MShape (nrows m) (length (columns m))));
  do _ <- emit (WMetric "Peaks" (MShape (nrows p) (length (columns p))));
  emit (WMetric "References" (MShape (nrows r) (length (columns r)))).

(** What a guarded section shows: its metric or chart, or the message of
    its [else] branch. *)
Definition most_successful_widget (r : soft value) : widget :=
  match r with
  | Computed name => WMetric "Most Successful Climber" (MLabel name)
  | Skipped msg => WWarning msg
  end.

Definition trend_widget (r : soft DataFrame) : widget :=
  match r with
  | Computed long => WChart long
  | Skipped msg => WWarning msg
  end.

Definition everest_widget (r : soft nat) : widget :=
  match r with
  | Computed n => WMetric "Successful Everest Climbers" (MCount n)
  | Skipped msg => WWarning msg
  end.

(** Lines 105-108 *)
Definition pct_section : M unit :=
  do m <- deref a_members;
  do p <- deref a_peaks;
  do pct <- lift (climbed_pct m p);
  emit (WMetric "% of Peaks Climbed" (MPct pct)).

(** Lines 111-124 *)
Definition most_successful_section : M unit :=
  do m <- deref a_members;
  do r <- lift (most_successful m);
  emit (most_successful_widget r).

(** Lines 128-146 *)
Definition trend_section : M unit :=
  do e <- deref a_exped;
  do r <- lift (trend_data e);
  emit (trend_widget r).

(** Lines 149-155 *)
Definition everest_section : M unit :=
  do m <- deref a_members;
  do p <- deref a_peaks;
  do r <- lift (everest_climbers m p);
  emit (everest_widget r).

(** Lines 101-155: the "Analysis Section" of the script. *)
Definition analysis_section : M unit :=
  do _ <- pct_section;
  do _ <- most_successful_section;
  do _ <- trend_section;
  everest_section.

(** Lines 51-158, after the tables are loaded. *)
Definition script (selected_year selected_country : value) : M unit :=
  do _ <- filter_section selected_year selected_country;
  do _ <- top5_section;
  do _ <- dimensions_section;
  do _ <- analysis_section;
  emit (WSuccess "Dashboard loaded and analyses complete.").

(** ** Quantities of the statements *)

(** [m] leaves the five loaded tables, which sit at the bottom of the
    heap, as they are, whether it ends normally or with an exception; [Q]
    holds of the value it returns. *)
Definition frame {A} (m : M A) (Q : A -> Prop) : Prop :=
  forall st : state,
    (5 <= length (heap st))%nat ->
    firstn 5 (heap (snd (m st))) = firstn 5 (heap st)
    /\ (5 <= length (heap (snd (m st))))%nat
    /\ forall a, fst (m st) = Ok a -> Q a.

Definition fresh (a : addr) : Prop := (5 <= a)%nat.
Definition any {A} (_ : A) : Prop := True.

(** What the top-5 section puts on the page for a result of [top5]. *)
Definition top5_widgets (r : result (soft DataFrame)) : list widget :=
  match r with
  | Ok (Computed t) => [WChart t; WDataFrame t]
  | Ok (Skipped msg) => [WError msg]
  | Err _ => []
  end.

(** ** The success rule in the words of the specification *)

(** The spellings of "true", "1", "y" and "yes" in upper- and lower-case
    letters, written out: the texts that are one of the four literals once
    case-folded. *)
Definition success_spellings : list string :=
  ["true"; "truE"; "trUe"; "trUE"; "tRue"; "tRuE"; "tRUe"; "tRUE";
   "True"; "TruE"; "TrUe"; "TrUE"; "TRue"; "TRuE"; "TRUe"; "TRUE"; "1";
   "y"; "Y"; "yes"; "yeS"; "yEs"; "yES"; "Yes"; "YeS"; "YEs"; "YES"].

(** A success-indicator cell that counts as a success, by the type [d] of
    its column: a text that is one of the spellings, the boolean True, and
    the integer 1 of an int64 column.  In a column with a missing cell the
    number is the float 1.0, whose text "1.0" is no success literal. *)
Definition counts_as_success (d : dtype) (v : value) : bool :=
  match v with
  | VStr s => existsb (String.eqb s) success_spellings
  | VBool b => b
  | VInt z =>
      match d with
      | Int64 => (z =? 1)%Z
      | _ => false
      end
  | VNull => false
  end.

(** Number of successful member rows that carry the name [n], for the
    name and success-indicator columns picked by the script. *)
Definition successes (m : DataFrame) (name_col success_col : string) (n : value) : nat :=
  match col_index name_col (columns m), col_index success_col (columns m) with
  | Some i, Some j =>
      let d := dtype_of (map (cell j) (rows m)) in
      length (filter (fun r => counts_as_success d (cell j r) && value_eqb (cell i r) n)
                     (rows m))
  | _, _ => 0%nat
  end.

(** The merge of line 78 refuses the peak-identifier columns [mp] of the
    member table and [pp] of the peak table. *)
Definition keys_clash (mp pp : Series) : bool :=
  incompatible_keys (dtype_of mp) (map fst (value_counts mp)) (dtype_of pp) pp.



(** Every row has one cell per column, as in a frame that [pd.read_csv]
    returns. *)
Definition rectangular (df : DataFrame) : Prop :=
  Forall (fun r => length r = length (columns df)) (rows df).

Definition unknown : value := VStr "UNKNOWN".

(** The effect of the default-fill on one peak-identifier cell. *)
Definition fill_unknown (v : value) : value :=
  match v with
  | VNull => unknown
  | _ => v
  end.

(** ** Tables of the examples *)

(** A peak table with the single row (E1, "Mount Everest"). *)
Definition everest_peaks : DataFrame :=
  {| columns := ["peakid"; "pkname"];
     rows := [[VStr "E1"; VStr "Mount Everest"]] |}.

(** Three member rows on E1 with success indicators "yes", "no", "1". *)
Definition everest_members : DataFrame :=
  {| columns := ["peakid"; "msuccess"];
     rows := [[VStr "E1"; VStr "yes"]; [VStr "E1"; VStr "no"]; [VStr "E1"; VStr "1"]] |}.

(** Members ("Alice","yes"), ("Bob","no"), ("Alice","1"). *)
Definition alice_bob_members : DataFrame :=
  {| columns := ["fname"; "msuccess"];
     rows := [[VStr "Alice"; VStr "yes"]; [VStr "Bob"; VStr "no"]; [VStr "Alice"; VStr "1"]] |}.

(** Members with a 1/0 success flag that is missing for Bob: the column
    is read as float64. *)
Definition float_flag_members : DataFrame :=
  {| columns := ["fname"; "msuccess"];
     rows := [[VStr "Alice"; VInt 1]; [VStr "Bob"; VNull]; [VStr "Carol"; VInt 0]] |}.

(** The same members with no flag missing: the column is int64. *)
Definition int_flag_members : DataFrame :=
  {| columns := ["fname"; "msuccess"];
     rows := [[VStr "Alice"; VInt 1]; [VStr "Bob"; VInt 0]; [VStr "Carol"; VInt 0]] |}.

(** Expeditions (2000,"success"), (2000,"failure"), (2001,"success"), with
    arbitrary expedition identifiers. *)
Definition three_expeditions (e1 e2 e3 : string) : DataFrame :=
  {| columns := ["expid"; "year"; "success1"];
     rows := [[VStr e1; VInt 2000; VStr "success"];
              [VStr e2; VInt 2000; VStr "failure"];
              [VStr e3; VInt 2001; VStr "success"]] |}.

(** Members on two peaks, of which the peak table knows one. *)
Definition two_peak_members : DataFrame :=
  {| columns := ["peakid"; "fname"];
     rows := [[VStr "EVER"; VStr "Alice"]; [VStr "LHOT"; VStr "Bob"]] |}.

Definition one_peak : DataFrame :=
  {| columns := ["peakid"; "pkname"]; rows := [[VStr "EVER"; VStr "Everest"]] |}.

(** A peaks.csv that holds its header line only. *)
Definition header_only_peaks : DataFrame :=
  {| columns := ["peakid"; "pkname"]; rows := [] |}.

(** A table set whose peak table has no row; the other tables are sound. *)
Definition no_peak_tables : Tables :=
  {| exped := three_expeditions "EVER00101" "EVER00102" "EVER01101";
     members :=
       {| columns := ["peakid"; "fname"; "citizen"; "msuccess"];
          rows := [[VStr "EVER"; VStr "Alice"; VStr "Nepal"; VBool true];
                   [VStr "EVER"; VStr "Bob"; VStr "UK"; VBool false]] |};
     peaks := header_only_peaks;
     refer := {| columns := ["refid"]; rows := [] |};
     data_dict := {| columns := ["Field"]; rows := [] |} |}.

(** A table set whose members carry numbers as peak identifiers and whose
    peak table identifies its peak by a string. *)
Definition clashing_tables : Tables :=
  {| exped := three_expeditions "EVER00101" "EVER00102" "EVER01101";
     members :=
       {| columns := ["peakid"; "fname"; "citizen"; "msuccess"];
          rows := [[VInt 1; VStr "Alice"; VStr "Nepal"; VBool true];
                   [VInt 2; VStr "Bob"; VStr "UK"; VBool false]] |};
     peaks := one_peak;
     refer := {| columns := ["refid"]; rows := [] |};
     data_dict := {| columns := ["Field"]; rows := [] |} |}.

(** Raw tables that code peaks and nationalities by numbers, with one
    member whose peak and nationality are missing. *)
Definition numbered_tables : Tables :=
  {| exped := three_expeditions "EVER00101" "EVER00102" "EVER01101";
     members :=
       {| columns := ["peakid"; "fname"; "citizen"; "msuccess"];
          rows := [[VInt 1; VStr "Alice"; VInt 977; VBool true];
                   [VNull; VStr "Bob"; VNull; VBool false]] |};
     peaks := {| columns := ["peakid"; "pkname"];
                 rows := [[VInt 1; VStr "Everest"]] |};
     refer := {| columns := ["refid"]; rows := [] |};
     data_dict := {| columns := ["Field"]; rows := [] |} |}.

(** Raw tables as read from disk: padded column names and two members
    without peak identifier. *)
Definition raw_tables : Tables :=
  {| exped := three_expeditions "EVER00101" "EVER00102" "EVER01101";
     members :=
       {| columns := [" peakid"; "fname"; "citizen "; "msuccess"];
          rows := [[VNull; VStr "Alice"; VStr "Nepal"; VBool true];
                   [VStr "EVER"; VStr "Bob"; VNull; VBool false];
                   [VNull; VStr "Carol"; VStr "UK"; VBool true]] |};
     peaks := {| columns := ["peakid"; "pkname"];
                 rows := [[VStr "EVER"; VStr "Everest"]] |};
     refer := {| columns := ["refid"]; rows := [] |};
     data_dict := {| columns := ["Field"]; rows := [] |} |}.

From Stdlib Require Import DecimalZ DecimalPos.

(** ** Quantities of the further properties *)

(** A string of white space only. *)
Fixpoint all_space (s : string) : bool :=
  match s with
  | EmptyString => true
  | String c s' => is_space c && all_space s'
  end.

(** A string that [str.strip] leaves as it is. *)
Definition trimmed (s : string) : Prop := lstrip s = s /\ rstrip s = s.

(** [c'] is [c] without the white space around it. *)
Definition stripped_of (c c' : string) : Prop :=
  trimmed c'
  /\ exists l r : string,
       all_space l = true /\ all_space r = true /\ c = (l ++ c' ++ r)%string.

(** [r'] is the row [r] after a default-fill of the columns [names]: the
    same width, the same non-null cells, and the same cells in every other
    column. *)
Definition filled_row (names cols : list string) (r r' : list value) : Prop :=
  length r' = length r
  /\ (forall i, cell i r <> VNull -> cell i r' = cell i r)
  /\ (forall i c, nth_error cols i = Some c -> ~ In c names -> cell i r' = cell i r).

(** [t'] is the frame [t] with stripped column names and default-filled
    columns [names]. *)
Definition normalised (names : list string) (t t' : DataFrame) : Prop :=
  Forall2 stripped_of (columns t) (columns t')
  /\ Forall2 (filled_row names (columns t')) (rows t) (rows t').

(** The integer in a cell, 0 for any other cell. *)
Definition int_of (v : value) : Z :=
  match v with
  | VInt z => z
  | _ => 0%Z
  end.

(** Sum of the integers of column [j]. *)
Definition column_sum (j : nat) (rs : list (list value)) : Z :=
  fold_right (fun r acc => (int_of (cell j r) + acc)%Z) 0%Z rs.


(** Number of member rows whose success indicator counts as a success. *)
Definition n_successful (m : DataFrame) (success_col : string) : nat :=
  match col_index success_col (columns m) with
  | Some j =>
      let d := dtype_of (map (cell j) (rows m)) in
      length (filter (fun r => counts_as_success d (cell j r)) (rows m))
  | None => 0%nat
  end.

(** The name test of the Everest count in the words of the specification:
    the text holds, somewhere, the seven letters of "Everest", each in
    either case. *)
Definition either (l u c : ascii) : Prop := c = l \/ c = u.

Definition spells_everest (w : string) : Prop :=
  exists c1 c2 c3 c4 c5 c6 c7 : ascii,
    w = String c1 (String c2 (String c3 (String c4 (String c5 (String c6
          (String c7 EmptyString))))))
    /\ either "e" "E" c1 /\ either "v" "V" c2 /\ either "e" "E" c3
    /\ either "r" "R" c4 /\ either "e" "E" c5 /\ either "s" "S" c6
    /\ either "t" "T" c7.

Definition mentions_everest (v : value) : Prop :=
  exists pre w post : string,
    v = VStr (pre ++ w ++ post)%string /\ spells_everest w.

(** ** What the page can hold *)

(** The loaded tables [t] are at the bottom of the heap and every widget
    on the page satisfies [P]. *)
Definition settled (t : Tables) (P : widget -> Prop) (st : state) : Prop :=
  firstn 5 (heap st) = [exped t; members t; peaks t; refer t; data_dict t]
  /\ Forall P (page st).

(** [m] keeps a settled state settled, also when it raises, and [Q] holds
    of the value it returns. *)
Definition keeps (t : Tables) (P : widget -> Prop) {A} (m : M A) (Q : A -> Prop) : Prop :=
  forall st : state,
    settled t P st ->
    settled t P (snd (m st)) /\ forall a, fst (m st) = Ok a -> Q a.

Definition year_warning : widget :=
  WWarning "`year` column not found in exped.csv".

Definition everest_warning : widget :=
  WWarning "Columns `peakid` or success not found.".

Definition success_banner : widget :=
  WSuccess "Dashboard loaded and analyses complete.".

(** Widgets that carry data or the top-5 error, as opposed to warnings and
    the final banner. *)
Definition plain (w : widget) : Prop :=
  match w with
  | WChart _ | WDataFrame _ | WMetric _ _ | WError _ => True
  | WWarning _ | WSuccess _ => False
  end.

(** Columns of one kind of cell. *)
Definition all_strings (s : Series) : Prop := Forall (fun v => exists t, v = VStr t) s.

Definition all_integers (s : Series) : Prop := Forall (fun v => exists z, v = VInt z) s.

(** * Properties *)

(** ** Reading the heap *)

Lemma bind_ok {A B} (m : M A) (k : A -> M B) st a st' :
  m st = (Ok a, st') -> bind m k st = k a st'.
Proof. intros H. unfold bind. now rewrite H. Qed.

Lemma bind_err {A B} (m : M A) (k : A -> M B) st e st' :
  m st = (Err e, st') -> bind m k st = (Err e, st').
Proof. intros H. unfold bind. now rewrite H. Qed.

Lemma deref_ok a st df :
  nth_error (heap st) a = Some df -> deref a st = (Ok df, st).
Proof. intros H. unfold deref. now rewrite H. Qed.

(** ** The peaks-climbed percentage with no peak *)

(** C1. With [peaks_climbed] computed and zero distinct peak identifiers in
    Peak, the division of line 107 is not guarded: [climbed_pct] raises
    [ZeroDivisionError], the percentage section raises it in turn without
    a widget on the page, and whatever follows in the script is not run. *)
Theorem climbed_pct_zero_total_raises :
  forall (m p : DataFrame) (n : nat) (st : state) (B : Type) (k : unit -> M B),
    peaks_climbed m = Ok n ->
    total_peaks p = Ok 0%nat ->
    nth_error (heap st) a_members = Some m ->
    nth_error (heap st) a_peaks = Some p ->
    climbed_pct m p = Err ZeroDivisionError
    /\ pct_section st = (Err ZeroDivisionError, st)
    /\ bind pct_section k st = (Err ZeroDivisionError, st).
Proof.
  intros m p n st B k Hm Hp Hsm Hsp.
  assert (Hpct : climbed_pct m p = Err ZeroDivisionError).
  { unfold climbed_pct. rewrite Hm, Hp. reflexivity. }
  assert (Hsec : pct_section st = (Err ZeroDivisionError, st)).
  { unfold pct_section.
    rewrite (bind_ok _ _ _ _ _ (deref_ok _ _ _ Hsm)).
    rewrite (bind_ok _ _ _ _ _ (deref_ok _ _ _ Hsp)).
    unfold bind, lift. now rewrite Hpct. }
  repeat split; auto.
  now apply bind_err.
Qed.

Lemma climbed_pct_zero_total_raises_witness :
  climbed_pct (members no_peak_tables) (peaks no_peak_tables) = Err ZeroDivisionError
  /\ pct_section (init_state no_peak_tables)
     = (Err ZeroDivisionError, init_state no_peak_tables)
  /\ bind pct_section (fun _ => most_successful_section) (init_state no_peak_tables)
     = (Err ZeroDivisionError, init_state no_peak_tables).
Proof.
  apply (climbed_pct_zero_total_raises
           (members no_peak_tables) (peaks no_peak_tables) 1%nat
           (init_state no_peak_tables) unit (fun _ => most_successful_section));
    reflexivity.
Defined.

(** When no pandas call raises, the four outputs of the analysis section
    all reach the page, a guarded failure as the message of its [else]
    branch: a skipped output does not stop the ones after it. *)
Lemma analysis_section_runs (st : state) (e m p : DataFrame) (q : Q)
    (r1 : soft value) (r2 : soft DataFrame) (r3 : soft nat) :
  nth_error (heap st) a_exped = Some e ->
  nth_error (heap st) a_members = Some m ->
  nth_error (heap st) a_peaks = Some p ->
  climbed_pct m p = Ok q ->
  most_successful m = Ok r1 ->
  trend_data e = Ok r2 ->
  everest_climbers m p = Ok r3 ->
  analysis_section st
  = (Ok tt,
     {| heap := heap st;
        page := page st ++ [WMetric "% of Peaks Climbed" (MPct q);
                            most_successful_widget r1;
                            trend_widget r2;
                            everest_widget r3] |}).
Proof.
  intros He Hm Hp Hq H1 H2 H3.
  unfold analysis_section, pct_section, most_successful_section, trend_section,
    everest_section, bind, deref, lift, emit.
  repeat (cbn [heap page];
          first [rewrite Hm | rewrite Hp | rewrite He | rewrite Hq
                | rewrite H1 | rewrite H2 | rewrite H3]).
  cbn [heap page]. now rewrite <- !app_assoc.
Qed.

(** C2. On a table set whose peak table has no row, the three outputs
    after the percentage would each compute on their own, yet the script
    stops at the percentage: it ends with [ZeroDivisionError] in the state
    reached after the dimension metrics, so that the most successful
    climber, the yearly trend and the Everest count never reach the page. *)
Theorem script_stops_at_percentage :
  forall selected_year selected_country : value,
    most_successful (members no_peak_tables) = Ok (Computed (VStr "Alice"))
    /\ (exists long, trend_data (exped no_peak_tables) = Ok (Computed long))
    /\ everest_climbers (members no_peak_tables) (peaks no_peak_tables) = Ok (Computed 0%nat)
    /\ analysis_section (init_state no_peak_tables)
       = (Err ZeroDivisionError, init_state no_peak_tables)
    /\ fst (script selected_year selected_country (init_state no_peak_tables))
       = Err ZeroDivisionError
    /\ snd (script selected_year selected_country (init_state no_peak_tables))
       = snd ((do _ <- filter_section selected_year selected_country;
               do _ <- top5_section;
               dimensions_section) (init_state no_peak_tables)).
Proof.
  intros y c.
  split; [reflexivity |].
  split; [eexists; reflexivity |].
  split; [reflexivity |].
  split; [reflexivity |].
  split; reflexivity.
Qed.

(** ** The worked examples *)

(** C4. One peak (E1, "Mount Everest") and three member rows on E1 with
    success indicators "yes", "no" and "1": the Everest successful-climber
    count is 2. *)
Theorem everest_count_example :
  everest_climbers everest_members everest_peaks = Ok (Computed 2%nat).
Proof. reflexivity. Qed.

(** C6. For expeditions (2000,"success"), (2000,"failure"),
    (2001,"success") the long-form yearly series has the columns year,
    Metric and Count and exactly the four entries (2000,total,2),
    (2000,successful,1), (2001,total,1), (2001,successful,1); [melt] lists
    the totals of all years before the successes. *)
Theorem yearly_trend_example :
  forall e1 e2 e3 : string,
  exists long,
    trend_data (three_expeditions e1 e2 e3) = Ok (Computed long)
    /\ columns long = ["year"; "Metric"; "Count"]
    /\ rows long = [[VInt 2000; VStr "total_expeditions"; VInt 2];
                    [VInt 2001; VStr "total_expeditions"; VInt 1];
                    [VInt 2000; VStr "successful_expeditions"; VInt 1];
                    [VInt 2001; VStr "successful_expeditions"; VInt 1]]
    /\ Permutation (rows long)
         [[VInt 2000; VStr "total_expeditions"; VInt 2];
          [VInt 2000; VStr "successful_expeditions"; VInt 1];
          [VInt 2001; VStr "total_expeditions"; VInt 1];
          [VInt 2001; VStr "successful_expeditions"; VInt 1]].
Proof.
  intros e1 e2 e3. eexists. split; [reflexivity |].
  split; [reflexivity |]. split; [reflexivity |].
  cbn [rows]. apply perm_skip.
  eapply perm_trans; [apply perm_swap |]. apply Permutation_refl.
Qed.

(** ** The year filter *)

Lemma eq_scalar_eqb (Y v : value) :
  Y <> VNull -> eq_scalar Y v = value_eqb v Y.
Proof.
  intros HY. unfold eq_scalar, value_eqb.
  destruct (value_eq_dec v Y) as [-> | Hne].
  - destruct Y; [contradiction | reflexivity ..].
  - apply andb_false_r.
Qed.

Lemma value_eqb_eq (x y : value) : value_eqb x y = true <-> x = y.
Proof.
  unfold value_eqb. destruct (value_eq_dec x y); split; congruence.
Qed.

(** C8. On an expedition table with a year column, the year filter returns
    the rows whose year cell equals the selected year, and no other, in
    their order and with their multiplicity; a year that the table does not
    hold gives the empty view, and no exception. *)
Theorem filtered_exped_exact :
  forall (e : DataFrame) (Y : value) (i : nat),
    col_index "year" (columns e) = Some i ->
    Y <> VNull ->
    exists view,
      filtered_exped e Y = Ok view
      /\ columns view = columns e
      /\ rows view = filter (fun r => value_eqb (cell i r) Y) (rows e)
      /\ (forall r, In r (rows view) <-> In r (rows e) /\ cell i r = Y)
      /\ (~ In Y (map (cell i) (rows e)) -> rows view = []).
Proof.
  intros e Y i Hi HY. unfold filtered_exped. rewrite Hi.
  eexists. split; [reflexivity |]. cbn [select columns rows].
  assert (Hf : filter (fun r => eq_scalar Y (cell i r)) (rows e)
               = filter (fun r => value_eqb (cell i r) Y) (rows e)).
  { apply filter_ext. intros r. now apply eq_scalar_eqb. }
  rewrite Hf. split; [reflexivity |]. split; [reflexivity |]. split.
  - intros r. rewrite filter_In, value_eqb_eq. reflexivity.
  - generalize (rows e). intros l. induction l as [| r l IH]; intros Hnot;
      [reflexivity |].
    cbn [filter]. destruct (value_eqb (cell i r) Y) eqn:E.
    + exfalso. apply Hnot. left. now apply value_eqb_eq.
    + apply IH. intros Hin. apply Hnot. now right.
Qed.

Lemma filtered_exped_exact_witness :
  exists view,
    filtered_exped (three_expeditions "a" "b" "c") (VInt 1999) = Ok view
    /\ columns view = columns (three_expeditions "a" "b" "c")
    /\ rows view = filter (fun r => value_eqb (cell 1 r) (VInt 1999))
                          (rows (three_expeditions "a" "b" "c"))
    /\ (forall r, In r (rows view) <->
                  In r (rows (three_expeditions "a" "b" "c")) /\ cell 1 r = VInt 1999)
    /\ (~ In (VInt 1999) (map (cell 1) (rows (three_expeditions "a" "b" "c")))
        -> rows view = []).
Proof.
  apply (filtered_exped_exact (three_expeditions "a" "b" "c") (VInt 1999) 1).
  - reflexivity.
  - discriminate.
Defined.

(** ** The loaded tables are not written to *)

Section Frame.

Lemma frame_ret {A} (a : A) (Q : A -> Prop) : Q a -> frame (ret a) Q.
Proof.
  intros HQ st Hlen. cbn. repeat split; auto.
  intros a' H. now inversion H; subst.
Qed.

Lemma frame_lift {A} (r : result A) : frame (lift r) any.
Proof. intros st Hlen. cbn. repeat split; auto. Qed.

Lemma frame_emit (w : widget) : frame (emit w) any.
Proof. intros st Hlen. cbn. repeat split; auto. Qed.

Lemma frame_deref (a : addr) : frame (deref a) any.
Proof.
  intros st Hlen. unfold deref.
  destruct (nth_error (heap st) a); cbn; repeat split; auto.
Qed.

Lemma frame_alloc (df : DataFrame) : frame (alloc df) fresh.
Proof.
  intros st Hlen. unfold alloc. cbn [fst snd heap]. split; [| split].
  - rewrite firstn_app.
    replace (5 - length (heap st))%nat with 0%nat by lia.
    cbn [firstn]. apply app_nil_r.
  - rewrite length_app. lia.
  - intros a H. inversion H; subst. exact Hlen.
Qed.

Lemma length_update {A} (i : nat) (x : A) (l : list A) :
  length (update i x l) = length l.
Proof.
  revert i; induction l as [| y l IH]; intros [| i]; cbn; auto.
Qed.

Lemma firstn_update {A} (n i : nat) (x : A) (l : list A) :
  (n <= i)%nat -> firstn n (update i x l) = firstn n l.
Proof.
  revert n i; induction l as [| y l IH]; intros [| n] [| i] H; cbn; auto; try lia.
  f_equal. apply IH. lia.
Qed.

(** Writing the columns of a frame built by the script itself. *)
Lemma frame_assign_columns (a : addr) (names : list string) :
  fresh a -> frame (assign_columns a names) any.
Proof.
  intros Ha st Hlen. unfold assign_columns.
  destruct (nth_error (heap st) a) as [df |]; [| cbn; repeat split; auto].
  destruct (set_columns names df); cbn [fst snd heap]; repeat split; auto.
  - now apply firstn_update.
  - now rewrite length_update.
Qed.

Lemma frame_bind {A B} (m : M A) (k : A -> M B) (Q : A -> Prop) (R : B -> Prop) :
  frame m Q -> (forall a, Q a -> frame (k a) R) -> frame (bind m k) R.
Proof.
  intros Hm Hk st Hlen. unfold bind.
  destruct (Hm st Hlen) as (Hfirst & Hlen' & HQ).
  destruct (m st) as [[a | e] st'] eqn:E; cbn [fst snd] in *.
  - destruct (Hk a (HQ a eq_refl) st' Hlen') as (Hfirst' & Hlen'' & HR).
    split; [congruence | split; assumption].
  - split; [assumption | split; [assumption | discriminate]].
Qed.

Lemma frame_any {A} (m : M A) (Q : A -> Prop) : frame m Q -> frame m any.
Proof.
  intros Hm st Hlen. destruct (Hm st Hlen) as (H1 & H2 & _).
  repeat split; auto.
Qed.

End Frame.

Create HintDb frame.
#[local] Hint Resolve frame_lift frame_emit frame_deref frame_alloc : frame.

Ltac frame_steps :=
  repeat lazymatch goal with
         | |- frame (bind _ _) _ =>
             eapply frame_bind; [solve [eauto with frame] | intros ? ?]
         end.

Lemma frame_filter_section (y c : value) : frame (filter_section y c) any.
Proof. unfold filter_section. frame_steps. apply frame_emit. Qed.

Lemma frame_top5_section : frame top5_section any.
Proof.
  unfold top5_section. frame_steps.
  destruct (has_col "peakid" _ && has_col "peakid" _); [| apply frame_emit].
  frame_steps.
  eapply frame_bind; [apply frame_assign_columns; assumption | intros ? ?].
  frame_steps. apply frame_emit.
Qed.

Lemma frame_dimensions_section : frame dimensions_section any.
Proof. unfold dimensions_section. frame_steps. apply frame_emit. Qed.

Lemma frame_pct_section : frame pct_section any.
Proof. unfold pct_section. frame_steps. apply frame_emit. Qed.

Lemma frame_most_successful_section : frame most_successful_section any.
Proof. unfold most_successful_section. frame_steps. apply frame_emit. Qed.

Lemma frame_trend_section : frame trend_section any.
Proof. unfold trend_section. frame_steps. apply frame_emit. Qed.

Lemma frame_everest_section : frame everest_section any.
Proof. unfold everest_section. frame_steps. apply frame_emit. Qed.

#[local] Hint Resolve frame_filter_section frame_top5_section
  frame_dimensions_section frame_pct_section frame_most_successful_section
  frame_trend_section frame_everest_section : frame.

Lemma frame_analysis_section : frame analysis_section any.
Proof. unfold analysis_section. frame_steps. apply frame_everest_section. Qed.

Lemma frame_script (y c : value) : frame (script y c) any.
Proof.
  unfold script. frame_steps.
  eapply frame_bind; [apply frame_analysis_section | intros ? ?].
  apply frame_emit.
Qed.

(** C9. Whatever the loaded tables and the two selections, and whether the
    script runs to its end or stops on an exception, the filters and the
    five aggregations leave the expedition, member, peak and reference
    tables (and the data dictionary) on the heap as [load_data] returned
    them; so does each filter or aggregation run on its own. *)
Theorem script_keeps_tables :
  forall (t : Tables) (selected_year selected_country : value),
    let tables st :=
      (nth_error (heap st) a_exped, nth_error (heap st) a_members,
       nth_error (heap st) a_peaks, nth_error (heap st) a_refer,
       nth_error (heap st) a_data_dict) in
    let loaded :=
      (Some (exped t), Some (members t), Some (peaks t), Some (refer t),
       Some (data_dict t)) in
    tables (snd (script selected_year selected_country (init_state t))) = loaded
    /\ tables (snd (filter_section selected_year selected_country (init_state t))) = loaded
    /\ tables (snd (top5_section (init_state t))) = loaded
    /\ tables (snd (pct_section (init_state t))) = loaded
    /\ tables (snd (most_successful_section (init_state t))) = loaded
    /\ tables (snd (trend_section (init_state t))) = loaded
    /\ tables (snd (everest_section (init_state t))) = loaded.
Proof.
  intros t y c tables loaded.
  assert (Hlen : (5 <= length (heap (init_state t)))%nat) by (cbn; lia).
  assert (Hkeep : forall (m : M unit), frame m any ->
                    tables (snd (m (init_state t))) = loaded).
  { intros m Hm. destruct (Hm (init_state t) Hlen) as (Hfirst & _ & _).
    cbn [init_state heap firstn] in Hfirst.
    subst tables loaded. cbn beta.
    destruct (heap (snd (m (init_state t)))) as [| f0 [| f1 [| f2 [| f3 [| f4 rest]]]]];
      cbn [firstn] in Hfirst; try discriminate.
    injection Hfirst as -> -> -> -> ->. reflexivity. }
  repeat split; apply Hkeep; auto with frame.
  apply frame_script.
Qed.

(** ** Distinct values *)

Lemma unique_In (s : Series) (x : value) : In x (unique s) <-> In x s.
Proof.
  unfold unique. rewrite <- In_rev, nodup_In, <- In_rev. reflexivity.
Qed.

Lemma NoDup_unique (s : Series) : NoDup (unique s).
Proof. unfold unique. apply NoDup_rev, NoDup_nodup. Qed.

Lemma dropna_In (s : Series) (x : value) : In x (dropna s) <-> In x s /\ x <> VNull.
Proof.
  unfold dropna. rewrite filter_In. split; intros [H1 H2]; split; auto.
  - intros ->. discriminate.
  - destruct x; [contradiction | reflexivity ..].
Qed.

Lemma dropna_idem (s : Series) : dropna (dropna s) = dropna s.
Proof.
  unfold dropna. induction s as [| x s IH]; [reflexivity |].
  cbn [filter]. destruct (notna x) eqn:E; cbn [filter]; rewrite ?E; congruence.
Qed.

Lemma nunique_dropna (s : Series) : nunique (dropna s) = nunique s.
Proof. unfold nunique. now rewrite dropna_idem. Qed.

Lemma nunique_incl (a b : Series) :
  incl (dropna a) (dropna b) -> (nunique a <= nunique b)%nat.
Proof.
  intros Hincl. unfold nunique. apply NoDup_incl_length; [apply NoDup_unique |].
  intros x Hx. apply unique_In. apply Hincl. now apply unique_In.
Qed.

(** ** Range of the peaks-climbed percentage *)

Lemma pct_nonneg (a b : nat) :
  (0 < b)%nat ->
  (0 <= inject_Z (Z.of_nat a) / inject_Z (Z.of_nat b) * inject_Z 100)%Q.
Proof.
  intros Hb. apply Qmult_le_0_compat; [| discriminate].
  apply Qle_shift_div_l.
  - change 0%Q with (inject_Z 0). rewrite <- Zlt_Qlt. lia.
  - rewrite Qmult_0_l. change 0%Q with (inject_Z 0). rewrite <- Zle_Qle. lia.
Qed.

Lemma pct_le_100 (a b : nat) :
  (0 < b)%nat -> (a <= b)%nat ->
  (inject_Z (Z.of_nat a) / inject_Z (Z.of_nat b) * inject_Z 100 <= 100)%Q.
Proof.
  intros Hb Hab.
  setoid_replace (100 : Q) with (1 * inject_Z 100)%Q by reflexivity.
  apply Qmult_le_compat_r; [| discriminate].
  apply Qle_shift_div_r.
  - change 0%Q with (inject_Z 0). rewrite <- Zlt_Qlt. lia.
  - rewrite Qmult_1_l. rewrite <- Zle_Qle. lia.
Qed.

(** C3, as the specification words it, fails: two distinct member peaks
    against a peak table of one give 200 percent. *)
Lemma climbed_pct_above_100 :
  ~ (forall (m p : DataFrame) (n : nat) (q : Q),
       total_peaks p = Ok n -> (0 < n)%nat -> climbed_pct m p = Ok q ->
       (0 <= q /\ q <= 100)%Q).
Proof.
  intros H.
  destruct (H two_peak_members one_peak 1%nat _ eq_refl (Nat.lt_0_succ 0) eq_refl)
    as [_ Hle].
  vm_compute in Hle. now apply Hle.
Qed.

(** C3, amended. When the Peak table has at least one distinct peak
    identifier, the percentage is the number of distinct non-null member
    peak identifiers over the number of distinct peak identifiers of Peak,
    times 100, and is at least 0; it is at most 100 when every non-null
    member peak identifier occurs in the Peak table. *)
Theorem climbed_pct_range :
  forall (m p : DataFrame) (mp pp : Series),
    getitem m "peakid" = Ok mp ->
    getitem p "peakid" = Ok pp ->
    (0 < nunique pp)%nat ->
    exists q : Q,
      climbed_pct m p = Ok q
      /\ q = (inject_Z (Z.of_nat (nunique mp)) / inject_Z (Z.of_nat (nunique pp))
              * inject_Z 100)%Q
      /\ (0 <= q)%Q
      /\ (incl (dropna mp) (dropna pp) -> (q <= 100)%Q).
Proof.
  intros m p mp pp Hm Hp Hpos.
  unfold climbed_pct, peaks_climbed, total_peaks. rewrite Hm, Hp.
  cbn [rbind]. rewrite nunique_dropna. unfold truediv.
  destruct (nunique pp =? 0)%nat eqn:E; [apply Nat.eqb_eq in E; lia |].
  cbn [rbind]. eexists. split; [reflexivity |]. split; [reflexivity |]. split.
  - now apply pct_nonneg.
  - intros Hincl. apply pct_le_100; [assumption | now apply nunique_incl].
Qed.

Lemma climbed_pct_range_witness :
  exists q : Q,
    climbed_pct everest_members everest_peaks = Ok q
    /\ q = (inject_Z (Z.of_nat (nunique [VStr "E1"; VStr "E1"; VStr "E1"]))
            / inject_Z (Z.of_nat (nunique [VStr "E1"])) * inject_Z 100)%Q
    /\ (0 <= q)%Q
    /\ (incl (dropna [VStr "E1"; VStr "E1"; VStr "E1"]) (dropna [VStr "E1"])
        -> (q <= 100)%Q).
Proof.
  apply (climbed_pct_range everest_members everest_peaks
           [VStr "E1"; VStr "E1"; VStr "E1"] [VStr "E1"]).
  - reflexivity.
  - reflexivity.
  - vm_compute. lia.
Defined.

(** ** Value counts *)

Lemma insert_desc_perm (x : value * nat) (l : list (value * nat)) :
  Permutation (x :: l) (insert_desc x l).
Proof.
  induction l as [| y l IH]; [reflexivity |].
  cbn [insert_desc]. destruct (snd x <? snd y)%nat; [| reflexivity].
  eapply perm_trans; [apply perm_swap |]. now apply perm_skip.
Qed.

Lemma sort_desc_perm (l : list (value * nat)) : Permutation l (sort_desc l).
Proof.
  induction l as [| x l IH]; [reflexivity |].
  cbn [sort_desc fold_right]. fold (sort_desc l).
  eapply perm_trans; [apply perm_skip, IH | apply insert_desc_perm].
Qed.

Lemma value_counts_In (s : Series) (p : value * nat) :
  In p (value_counts s) <-> In (fst p) s /\ fst p <> VNull /\ snd p = count (fst p) s.
Proof.
  unfold value_counts. split.
  - intros H. apply (Permutation_in _ (Permutation_sym (sort_desc_perm _))) in H.
    apply in_map_iff in H. destruct H as (v & <- & Hv). cbn [fst snd].
    apply unique_In, dropna_In in Hv. tauto.
  - intros (Hin & Hnn & Hc).
    apply (Permutation_in _ (sort_desc_perm _)). apply in_map_iff.
    exists (fst p). split.
    + destruct p as [v n]. cbn [fst snd] in *. now subst.
    + apply unique_In, dropna_In. tauto.
Qed.

Lemma value_counts_length (s : Series) : length (value_counts s) = nunique s.
Proof.
  unfold value_counts, nunique.
  rewrite <- (Permutation_length (sort_desc_perm _)). apply length_map.
Qed.

Lemma idxmax_from_max (l : list (value * nat)) :
  forall b, exists p,
    In p (b :: l) /\ idxmax_from b l = fst p
    /\ forall q, In q (b :: l) -> (snd q <= snd p)%nat.
Proof.
  induction l as [| x l IH]; intros b.
  - exists b. cbn. repeat split; auto. intros q [<- | []]. lia.
  - cbn [idxmax_from].
    destruct (IH (if (snd b <? snd x)%nat then x else b)) as (p & Hin & Heq & Hmax).
    exists p. split; [| split; [exact Heq |]].
    + destruct Hin as [<- | Hin]; [| now right; right].
      destruct (snd b <? snd x)%nat; [right; now left | now left].
    + intros q Hq.
      assert (Hsel : (snd b <= snd (if (snd b <? snd x)%nat then x else b))%nat
                     /\ (snd x <= snd (if (snd b <? snd x)%nat then x else b))%nat).
      { destruct (snd b <? snd x)%nat eqn:E.
        - apply Nat.ltb_lt in E. lia.
        - apply Nat.ltb_ge in E. lia. }
      destruct Hsel as [Hb Hx].
      assert (Hsel_le : (snd (if (snd b <? snd x)%nat then x else b) <= snd p)%nat)
        by (apply Hmax; now left).
      destruct Hq as [<- | [<- | Hq]]; [lia | lia |].
      apply Hmax. now right.
Qed.

Lemma count_map_filter (i : nat) (v : value) (P : list value -> bool)
    (l : list (list value)) :
  count v (map (cell i) (filter P l))
  = length (filter (fun r => P r && value_eqb (cell i r) v) l).
Proof.
  unfold count. induction l as [| r l IH]; [reflexivity |].
  cbn [filter]. destruct (P r); cbn [andb map]; [| exact IH].
  cbn [count_occ]. unfold value_eqb at 1.
  destruct (value_eq_dec (cell i r) v); cbn [length]; now rewrite IH.
Qed.

Lemma col_index_In (c : string) (cols : list string) :
  In c cols -> exists i, col_index c cols = Some i.
Proof.
  induction cols as [| d cols IH]; [intros [] |].
  intros Hin. cbn [col_index]. destruct (String.eqb d c) eqn:E.
  - now exists 0%nat.
  - destruct Hin as [-> | Hin]; [rewrite String.eqb_refl in E; discriminate |].
    destruct (IH Hin) as [i ->]. now exists (S i).
Qed.

(** ** The success rule (lines 117 and 152) *)

Lemma lower_ascii_idem (c : ascii) : lower_ascii (lower_ascii c) = lower_ascii c.
Proof. destruct c as [[] [] [] [] [] [] [] []]; reflexivity. Qed.

Lemma lower_idem (s : string) : lower (lower s) = lower s.
Proof.
  induction s as [| c s IH]; [reflexivity |].
  cbn [lower]. now rewrite lower_ascii_idem, IH.
Qed.

Lemma lower_app (a b : string) : lower (a ++ b) = (lower a ++ lower b)%string.
Proof.
  induction a as [| c a IH]; [reflexivity |].
  cbn [lower String.append]. now rewrite IH.
Qed.

(** A character whose lower-case form is [l] is [l] or the upper-case
    letter 32 places before it. *)
Lemma lower_ascii_inv (c l : ascii) :
  lower_ascii c = l ->
  c = l \/ (is_upper c = true /\ c = ascii_of_nat (nat_of_ascii l - 32)).
Proof.
  intros <-. destruct c as [[] [] [] [] [] [] [] []];
    first [left; reflexivity | right; split; reflexivity].
Qed.

Ltac letter_cases H :=
  let Hup := fresh "Hup" in
  apply lower_ascii_inv in H; cbn in H; destruct H as [-> | [Hup ->]];
  [| vm_compute in Hup; try discriminate Hup; clear Hup].

(** The spellings are the texts whose lower-case form is a literal. *)
Lemma success_spellings_fold (s : string) :
  existsb (String.eqb (lower s)) success_literals
  = existsb (String.eqb s) success_spellings.
Proof.
  destruct (existsb (String.eqb s) success_spellings) eqn:E.
  - apply existsb_exists in E. destruct E as (x & Hin & Heq).
    apply String.eqb_eq in Heq. subst x. cbn [success_spellings In] in Hin.
    repeat (destruct Hin as [<- | Hin]; [reflexivity |]). destruct Hin.
  - destruct (existsb (String.eqb (lower s)) success_literals) eqn:E'; [| reflexivity].
    exfalso. apply existsb_exists in E'. destruct E' as (x & Hin & Heq).
    apply String.eqb_eq in Heq. cbn [success_literals In] in Hin.
    destruct Hin as [<- | [<- | [<- | [<- | []]]]].
    + destruct s as [| c1 [| c2 [| c3 [| c4 [| c5 s]]]]];
        cbn [lower] in Heq; try discriminate Heq.
      injection Heq as H1 H2 H3 H4.
      letter_cases H1; letter_cases H2; letter_cases H3; letter_cases H4;
        vm_compute in E; discriminate E.
    + destruct s as [| c1 [| c2 s]];
        cbn [lower] in Heq; try discriminate Heq.
      injection Heq as H1. letter_cases H1; vm_compute in E; discriminate E.
    + destruct s as [| c1 [| c2 s]];
        cbn [lower] in Heq; try discriminate Heq.
      injection Heq as H1. letter_cases H1; vm_compute in E; discriminate E.
    + destruct s as [| c1 [| c2 [| c3 [| c4 s]]]];
        cbn [lower] in Heq; try discriminate Heq.
      injection Heq as H1 H2 H3.
      letter_cases H1; letter_cases H2; letter_cases H3;
        vm_compute in E; discriminate E.
Qed.

Lemma lower_uint (d : Decimal.uint) :
  lower (NilEmpty.string_of_uint d) = NilEmpty.string_of_uint d.
Proof.
  induction d; cbn [NilEmpty.string_of_uint lower]; try rewrite IHd; reflexivity.
Qed.

Lemma lower_int (z : Z) :
  lower (NilZero.string_of_int (Z.to_int z)) = NilZero.string_of_int (Z.to_int z).
Proof.
  unfold NilZero.string_of_int, NilZero.string_of_uint.
  destruct (Z.to_int z) as [d | d]; destruct d; cbn [lower];
    try reflexivity; try (rewrite lower_uint; reflexivity);
    cbn [NilEmpty.string_of_uint lower]; rewrite lower_uint; reflexivity.
Qed.

Lemma to_int_nonnil (z : Z) :
  Z.to_int z <> Decimal.Pos Decimal.Nil /\ Z.to_int z <> Decimal.Neg Decimal.Nil.
Proof.
  destruct z as [| p | p]; cbn [Z.to_int]; split; try discriminate;
    intros H; injection H as H; now apply Unsigned.to_uint_nonnil in H.
Qed.

Lemma int_of_astype_str (z : Z) :
  NilZero.int_of_string (astype_str Int64 (VInt z)) = Some (Z.to_int z).
Proof.
  cbn [astype_str]. destruct (to_int_nonnil z) as [H1 H2]. now apply NilZero.isi.
Qed.

(** The text of a float is no success literal: it ends in ".0". *)
Lemma float_text_no_literal (w : string) :
  existsb (String.eqb (lower (w ++ ".0"))) success_literals = false.
Proof.
  destruct (existsb _ _) eqn:E; [| reflexivity]. exfalso.
  apply existsb_exists in E. destruct E as (x & Hin & Heq).
  apply String.eqb_eq in Heq. rewrite lower_app in Heq.
  change (lower ".0") with ".0" in Heq. revert Heq.
  generalize (lower w). intros v Heq. cbn [success_literals In] in Hin.
  destruct Hin as [<- | [<- | [<- | [<- | []]]]];
    destruct v as [| c1 [| c2 [| c3 [| c4 [| c5 v]]]]];
    cbn [String.append] in Heq; congruence.
Qed.

(** The test of the code is the success rule of the specification. *)
Lemma is_success_rule (d : dtype) (v : value) :
  is_success d v = counts_as_success d v.
Proof.
  destruct v as [| s | z | b].
  - reflexivity.
  - unfold is_success. cbn [astype_str counts_as_success].
    apply success_spellings_fold.
  - unfold is_success.
    destruct d; cbn [astype_str counts_as_success];
      try apply float_text_no_literal.
    rewrite lower_int. destruct (z =? 1)%Z eqn:Ez.
    + apply Z.eqb_eq in Ez. subst z. reflexivity.
    + destruct (existsb _ _) eqn:E; [| reflexivity]. exfalso.
      apply existsb_exists in E. destruct E as (x & Hin & Heq).
      apply String.eqb_eq in Heq. pose proof (int_of_astype_str z) as Hz.
      cbn [astype_str] in Hz. rewrite Heq in Hz.
      cbn [success_literals In] in Hin.
      destruct Hin as [<- | [<- | [<- | [<- | []]]]]; try discriminate Hz.
      cbn in Hz. injection Hz as Hz.
      apply (f_equal Z.of_int) in Hz. rewrite DecimalZ.of_to in Hz. cbn in Hz.
      apply Z.eqb_neq in Ez. congruence.
  - destruct b; reflexivity.
Qed.

Lemma filter_success_rule (d : dtype) (j : nat) (Q : list value -> bool)
    (l : list (list value)) :
  filter (fun r => is_success d (cell j r) && Q r) l
  = filter (fun r => counts_as_success d (cell j r) && Q r) l.
Proof.
  apply filter_ext. intros r. now rewrite is_success_rule.
Qed.

(** ** The most successful climber *)

(** C5. For the members ("Alice","yes"), ("Bob","no"), ("Alice","1") the
    operation returns "Alice", who has 2 successful rows, and "Bob" has
    none.  A successful row is one whose success indicator counts as a
    success by the rule of the specification ([counts_as_success]): its
    text is "true", "1", "y" or "yes" in any letter case.  The text of a
    number with a missing cell in its column is that of a float: for
    (Alice, 1), (Bob, missing), (Carol, 0) the texts are "1.0", "nan",
    "0.0", nobody has a successful row and no name is returned.  In
    general, with the first name-like and the first success-like column
    of the member table, a returned name is not null, has at least one
    successful row, and no name has more successful rows; a name is
    returned as soon as one successful row carries a name. *)
Theorem most_successful_max :
  (most_successful alice_bob_members = Ok (Computed (VStr "Alice"))
   /\ successes alice_bob_members "fname" "msuccess" (VStr "Alice") = 2%nat
   /\ successes alice_bob_members "fname" "msuccess" (VStr "Bob") = 0%nat
   /\ most_successful float_flag_members
      = Ok (Skipped "No successful climbs found in the data.")
   /\ successes float_flag_members "fname" "msuccess" (VStr "Alice") = 0%nat)
  /\ forall (m : DataFrame) (name_col success_col : string) (rest rest' : list string),
      name_cols m = name_col :: rest ->
      success_cols m = success_col :: rest' ->
      (forall best,
          most_successful m = Ok (Computed best) ->
          best <> VNull
          /\ (0 < successes m name_col success_col best)%nat
          /\ forall n, n <> VNull ->
               (successes m name_col success_col n
                <= successes m name_col success_col best)%nat)
      /\ ((exists n, n <> VNull /\ (0 < successes m name_col success_col n)%nat) ->
          exists best, most_successful m = Ok (Computed best)).
Proof.
  split; [repeat split; reflexivity |].
  intros m nc sc rest rest' Hn Hs.
  assert (Hnin : In nc (columns m)).
  { assert (H : In nc (name_cols m)) by (rewrite Hn; now left).
    unfold name_cols in H. now apply filter_In in H. }
  assert (Hsin : In sc (columns m)).
  { assert (H : In sc (success_cols m)) by (rewrite Hs; now left).
    unfold success_cols in H. now apply filter_In in H. }
  destruct (col_index_In _ _ Hnin) as [i Hi].
  destruct (col_index_In _ _ Hsin) as [j Hj].
  unfold most_successful, successes. rewrite Hn, Hs, Hi, Hj.
  unfold successful_members. rewrite Hj. cbn zeta. cbn [rbind].
  unfold getitem. cbn [select columns rows]. rewrite Hi. cbn [rbind].
  set (d := dtype_of (map (cell j) (rows m))).
  set (P := fun r : list value => is_success d (cell j r)).
  set (names := map (cell i) (filter P (rows m))).
  assert (Hcount : forall v, count v names
                     = length (filter (fun r => counts_as_success d (cell j r)
                                                && value_eqb (cell i r) v) (rows m))).
  { intros v. rewrite <- filter_success_rule. apply count_map_filter. }
  split.
  - intros best Hbest.
    destruct (negb (empty _)); [| discriminate].
    destruct (value_counts names) as [| p vc] eqn:Evc; [discriminate |].
    cbn [idxmax rbind] in Hbest. injection Hbest as Hbest.
    destruct (idxmax_from_max vc p) as (w & Hw & Hfst & Hmax).
    rewrite <- Evc in Hw, Hmax. rewrite Hfst in Hbest. subst best.
    apply value_counts_In in Hw. destruct Hw as (Hwin & Hwnn & Hwc).
    split; [exact Hwnn |]. rewrite <- !Hcount. split.
    + unfold count. now apply count_occ_In.
    + intros n Hnn. rewrite <- Hcount, <- Hwc.
      destruct (in_dec value_eq_dec n names) as [Hin | Hnot].
      * apply (Hmax (n, count n names)). apply value_counts_In. cbn. tauto.
      * unfold count. rewrite (proj1 (count_occ_not_In value_eq_dec names n) Hnot). lia.
  - intros (n & Hnn & Hpos). rewrite <- Hcount in Hpos.
    assert (Hin : In n names) by (apply (count_occ_In value_eq_dec); exact Hpos).
    assert (Hne : empty (select P m) = false).
    { unfold empty, select. cbn [columns rows].
      destruct (columns m); [destruct Hnin |].
      subst names. destruct (filter P (rows m)); [destruct Hin | reflexivity]. }
    rewrite Hne. cbn [negb].
    destruct (value_counts names) as [| p vc] eqn:Evc.
    + exfalso.
      assert (Hv : In (n, count n names) (value_counts names))
        by (apply value_counts_In; cbn; tauto).
      rewrite Evc in Hv. destruct Hv.
    + cbn [idxmax rbind]. eexists. reflexivity.
Qed.

Lemma most_successful_max_witness :
  (forall best,
      most_successful alice_bob_members = Ok (Computed best) ->
      best <> VNull
      /\ (0 < successes alice_bob_members "fname" "msuccess" best)%nat
      /\ forall n, n <> VNull ->
           (successes alice_bob_members "fname" "msuccess" n
            <= successes alice_bob_members "fname" "msuccess" best)%nat)
  /\ ((exists n, n <> VNull
                 /\ (0 < successes alice_bob_members "fname" "msuccess" n)%nat) ->
      exists best, most_successful alice_bob_members = Ok (Computed best)).
Proof.
  apply (proj2 most_successful_max alice_bob_members "fname" "msuccess" [] []);
    reflexivity.
Defined.

(** ** The ranking of the most climbed peaks *)




Lemma firstn_incl {A} (n : nat) (l : list A) (x : A) :
  In x (firstn n l) -> In x l.
Proof.
  revert n. induction l as [| y l IH]; intros [| n]; cbn; try tauto.
  intros [-> | H]; [now left | right; now apply (IH n)].
Qed.



(** A joined row starts with the left row it comes from. *)
Lemma join_row_prefix (i j w : nat) (right : list (list value)) (l r : list value) :
  In r (join_row i j w right l) -> exists tail, r = l ++ tail.
Proof.
  unfold join_row.
  destruct (filter _ right) as [| m ms].
  - intros [<- | []]. eexists. reflexivity.
  - intros H. apply in_map_iff in H. destruct H as (x & <- & _).
    eexists. reflexivity.
Qed.

Lemma join_row_nonempty (i j w : nat) (right : list (list value)) (l : list value) :
  (1 <= length (join_row i j w right l))%nat.
Proof.
  unfold join_row. destruct (filter _ right); cbn; lia.
Qed.

Lemma filter_key_NoDup (j : nat) (k : value) (right : list (list value)) :
  NoDup (map (cell j) right) ->
  (length (filter (fun r => value_eqb (cell j r) k) right) <= 1)%nat.
Proof.
  induction right as [| r right IH]; intros Hnd; [cbn; lia |].
  cbn [map] in Hnd. inversion Hnd as [| ? ? Hnot Hnd']; subst.
  cbn [filter]. destruct (value_eqb (cell j r) k) eqn:E; [| now apply IH].
  apply value_eqb_eq in E. cbn [length].
  assert (Hnone : filter (fun r0 => value_eqb (cell j r0) k) right = []).
  { destruct (filter (fun r0 => value_eqb (cell j r0) k) right) as [| x xs] eqn:F;
      [reflexivity | exfalso].
    assert (Hx : In x (filter (fun r0 => value_eqb (cell j r0) k) right))
      by (rewrite F; now left).
    apply filter_In in Hx. destruct Hx as [Hx Hk]. apply value_eqb_eq in Hk.
    apply Hnot. rewrite E, <- Hk. now apply in_map. }
  rewrite Hnone. cbn. lia.
Qed.

Lemma join_row_unique_key (i j w : nat) (right : list (list value)) (l : list value) :
  NoDup (map (cell j) right) -> length (join_row i j w right l) = 1%nat.
Proof.
  intros Hnd. pose proof (filter_key_NoDup j (cell i l) right Hnd) as Hle.
  unfold join_row. destruct (filter _ right) as [| m [| m' ms]]; cbn in *; lia.
Qed.

Lemma flat_map_length_one {A B} (g : A -> list B) (l : list A) :
  (forall a, length (g a) = 1%nat) -> length (flat_map g l) = length l.
Proof.
  intros Hg. induction l as [| a l IH]; [reflexivity |].
  cbn [flat_map]. rewrite length_app, Hg, IH. reflexivity.
Qed.

(** The frame that [top_peaks] builds, row by row. *)
Lemma has_col_index (name : string) (df : DataFrame) :
  has_col name df = true -> exists i, col_index name (columns df) = Some i.
Proof.
  unfold has_col. destruct (col_index name (columns df)) as [i |];
    [now exists i | discriminate].
Qed.

Lemma getitem_has_col (df : DataFrame) (name : string) (s : Series) :
  getitem df name = Ok s ->
  exists i, col_index name (columns df) = Some i /\ s = map (cell i) (rows df)
            /\ has_col name df = true.
Proof.
  unfold getitem, has_col. destruct (col_index name (columns df)) as [i |];
    [| discriminate].
  intros H. injection H as <-. now exists i.
Qed.

Lemma top_peaks_rows (m p : DataFrame) (mp : Series) (jp jn : nat) :
  getitem m "peakid" = Ok mp ->
  col_index "peakid" (columns p) = Some jp ->
  col_index "pkname" (columns p) = Some jn ->
  top_peaks m p
  = if keys_clash mp (map (cell jp) (rows p)) then Err ValueError
    else
      Ok {| columns := ["peakid"; "num_climbers"; "pkname"];
            rows := flat_map
                      (join_row 0 0 1 (map (fun r => [cell jp r; cell jn r]) (rows p)))
                      (map (fun q => [fst q; VInt (Z.of_nat (snd q))])
                           (value_counts mp)) |}.
Proof.
  intros Hm Hjp Hjn. unfold top_peaks. rewrite Hm. cbn [rbind].
  unfold getitems. cbn [col_indices]. rewrite Hjp, Hjn.
  cbn [rbind set_columns reset_index columns length Nat.eqb rows].
  unfold merge_left. cbn [columns col_index String.eqb Ascii.eqb Bool.eqb andb rows].
  rewrite !map_map. cbn [cell nth fst]. unfold keys_clash.
  change (map (fun x : value * nat => fst x) (value_counts mp))
    with (map fst (value_counts mp)).
  change (map (fun x : list value => cell jp x) (rows p))
    with (map (cell jp) (rows p)).
  reflexivity.
Qed.

(** What the top-5 computation returns, by the columns of the peak table
    and the types of the two key columns. *)
Lemma top5_cases (m p : DataFrame) (mp pp : Series) :
  getitem m "peakid" = Ok mp ->
  getitem p "peakid" = Ok pp ->
  exists jp, col_index "peakid" (columns p) = Some jp
    /\ pp = map (cell jp) (rows p)
    /\ top5 m p
       = match col_index "pkname" (columns p) with
         | None => Err (KeyError "pkname")
         | Some jn =>
             if keys_clash mp pp then Err ValueError
             else
               Ok (Computed
                     (head 5
                        {| columns := ["peakid"; "num_climbers"; "pkname"];
                           rows := flat_map
                                     (join_row 0 0 1
                                        (map (fun r => [cell jp r; cell jn r]) (rows p)))
                                     (map (fun q => [fst q; VInt (Z.of_nat (snd q))])
                                          (value_counts mp)) |}))
         end.
Proof.
  intros Hm Hp.
  destruct (getitem_has_col _ _ _ Hm) as (im & _ & _ & Hcm).
  destruct (getitem_has_col _ _ _ Hp) as (jp & Hjp & Hpp & Hcp).
  exists jp. split; [exact Hjp |]. split; [exact Hpp |].
  unfold top5. rewrite Hcm, Hcp. cbn [andb].
  destruct (col_index "pkname" (columns p)) as [jn |] eqn:Hjn.
  - rewrite (top_peaks_rows m p mp jp jn Hm Hjp Hjn), <- Hpp.
    now destruct (keys_clash mp pp).
  - unfold top_peaks. rewrite Hm. cbn [rbind set_columns reset_index columns
      length Nat.eqb].
    unfold getitems. cbn [col_indices]. now rewrite Hjp, Hjn.
Qed.



(** The merge and the kinds of the peak identifiers. *)
Lemma dtype_of_strings (s : Series) : all_strings s -> dtype_of s = Object.
Proof.
  intros H. destruct s as [| v s]; [reflexivity |].
  inversion H as [| ? ? [t ->] _]; subst. reflexivity.
Qed.

Lemma forallb_integers (s : Series) : all_integers s -> forallb is_int s = true.
Proof.
  intros H. apply forallb_forall. intros v Hv.
  destruct (proj1 (Forall_forall _ _) H v Hv) as [z ->]. reflexivity.
Qed.

Lemma forallb_strings (s : Series) : all_strings s -> forallb is_str s = true.
Proof.
  intros H. apply forallb_forall. intros v Hv.
  destruct (proj1 (Forall_forall _ _) H v Hv) as [t ->]. reflexivity.
Qed.

Lemma dtype_of_integers (s : Series) :
  all_integers s -> s <> [] -> dtype_of s = Int64.
Proof.
  intros H Hne. destruct s as [| v s]; [contradiction |].
  unfold dtype_of. now rewrite (forallb_integers _ H).
Qed.

Lemma value_counts_keys (s : Series) (v : value) :
  In v (map fst (value_counts s)) <-> In v s /\ v <> VNull.
Proof.
  rewrite in_map_iff. split.
  - intros (q & <- & Hq). apply value_counts_In in Hq. tauto.
  - intros [Hin Hnn]. exists (v, count v s). split; [reflexivity |].
    apply value_counts_In. cbn. tauto.
Qed.

Lemma keys_clash_kinds (mp pp : Series) :
  (all_strings mp -> all_integers pp -> mp <> [] -> pp <> [] ->
   keys_clash mp pp = true)
  /\ (all_integers mp -> all_strings pp -> mp <> [] -> pp <> [] ->
      keys_clash mp pp = true)
  /\ (all_strings mp -> all_strings pp -> keys_clash mp pp = false)
  /\ (all_integers mp -> all_integers pp -> keys_clash mp pp = false).
Proof.
  assert (Hkeys : forall s : Series,
             s <> [] -> (forall v, In v s -> v <> VNull) ->
             map fst (value_counts s) <> []).
  { intros s Hne Hnn. destruct s as [| v s]; [contradiction |].
    assert (H : In v (map fst (value_counts (v :: s)))).
    { apply value_counts_keys. split; [now left | apply Hnn; now left]. }
    intros E. rewrite E in H. destruct H. }
  unfold keys_clash, incompatible_keys. repeat split.
  - intros Hm Hp Hmne Hpne.
    rewrite (dtype_of_strings _ Hm), (dtype_of_integers _ Hp Hpne).
    assert (Hk : map fst (value_counts mp) <> []).
    { apply Hkeys; [exact Hmne |]. intros v Hv.
      destruct (proj1 (Forall_forall _ _) Hm v Hv) as [t ->]. discriminate. }
    assert (Hs : forallb is_str (map fst (value_counts mp)) = true).
    { apply forallb_forall. intros v Hv. apply value_counts_keys in Hv.
      destruct (proj1 (Forall_forall _ _) Hm v (proj1 Hv)) as [t ->]. reflexivity. }
    unfold infer_dtype. rewrite Hs.
    destruct (map fst (value_counts mp)); [contradiction |].
    destruct pp; [contradiction | reflexivity].
  - intros Hm Hp Hmne Hpne.
    rewrite (dtype_of_integers _ Hm Hmne), (dtype_of_strings _ Hp).
    assert (Hk : map fst (value_counts mp) <> []).
    { apply Hkeys; [exact Hmne |]. intros v Hv.
      destruct (proj1 (Forall_forall _ _) Hm v Hv) as [z ->]. discriminate. }
    unfold infer_dtype. rewrite (forallb_strings _ Hp).
    destruct (map fst (value_counts mp)); [contradiction |].
    destruct pp; [contradiction | reflexivity].
  - intros Hm Hp. rewrite (dtype_of_strings _ Hm), (dtype_of_strings _ Hp).
    destruct (map fst (value_counts mp)); destruct pp; reflexivity.
  - intros Hm Hp.
    destruct mp as [| v mp]; destruct pp as [| w pp].
    + reflexivity.
    + reflexivity.
    + rewrite (dtype_of_integers _ Hm) by discriminate.
      destruct (map fst (value_counts (v :: mp))); reflexivity.
    + rewrite (dtype_of_integers _ Hm), (dtype_of_integers _ Hp) by discriminate.
      destruct (map fst (value_counts (v :: mp))); reflexivity.
Qed.

Lemma forallb_refuted {A} (f : A -> bool) (l : list A) (x : A) :
  In x l -> f x = false -> forallb f l = false.
Proof.
  intros Hin Hx. destruct (forallb f l) eqn:E; [| reflexivity].
  rewrite (proj1 (forallb_forall _ _) E x Hin) in Hx. discriminate.
Qed.

Lemma dtype_of_with_string (s : Series) (t : string) :
  In (VStr t) s -> dtype_of s = Object.
Proof.
  intros Hin. destruct s as [| v s]; [destruct Hin |]. unfold dtype_of.
  rewrite (forallb_refuted is_int _ _ Hin eq_refl).
  rewrite (forallb_refuted (fun v => is_int v || negb (notna v)) _ _ Hin eq_refl).
  now rewrite (forallb_refuted is_bool _ _ Hin eq_refl).
Qed.

(** A member column that holds a string is accepted against string peak
    identifiers. *)
Lemma keys_clash_string_strings (mp pp : Series) (t : string) :
  In (VStr t) mp -> all_strings pp -> keys_clash mp pp = false.
Proof.
  intros Hin Hp. unfold keys_clash, incompatible_keys.
  rewrite (dtype_of_with_string _ _ Hin), (dtype_of_strings _ Hp).
  destruct (map fst (value_counts mp)); destruct pp; reflexivity.
Qed.

(** A member column that holds a string is refused against whole-number
    peak identifiers. *)
Lemma keys_clash_string_numbers (mp pp : Series) (t : string) :
  In (VStr t) mp -> all_integers pp -> pp <> [] -> keys_clash mp pp = true.
Proof.
  intros Hin Hp Hpne. unfold keys_clash, incompatible_keys.
  rewrite (dtype_of_with_string _ _ Hin), (dtype_of_integers _ Hp Hpne).
  assert (Hk : In (VStr t) (map fst (value_counts mp)))
    by (apply value_counts_keys; split; [exact Hin | discriminate]).
  unfold infer_dtype.
  rewrite (forallb_refuted is_bool _ _ Hk eq_refl),
    (forallb_refuted is_int _ _ Hk eq_refl).
  destruct (map fst (value_counts mp)) as [| k ks]; [destruct Hk |].
  destruct pp; [contradiction |].
  now destruct (forallb is_str (k :: ks)).
Qed.

(** The top-5 section of the script, which renames the columns of its
    frame in place, shows what [top5] computes. *)
Lemma nth_error_last {A} (l : list A) (x : A) :
  nth_error (l ++ [x]) (length l) = Some x.
Proof.
  rewrite nth_error_app2 by lia. now rewrite Nat.sub_diag.
Qed.

Lemma update_last {A} (l : list A) (x y : A) :
  update (length l) y (l ++ [x]) = l ++ [y].
Proof.
  induction l as [| z l IH]; [reflexivity |]. cbn. now rewrite IH.
Qed.

Lemma top5_section_top5 (st : state) (m p : DataFrame) :
  nth_error (heap st) a_members = Some m ->
  nth_error (heap st) a_peaks = Some p ->
  fst (top5_section st) = match top5 m p with Ok _ => Ok tt | Err e => Err e end
  /\ page (snd (top5_section st)) = page st ++ top5_widgets (top5 m p).
Proof.
  intros Hm Hp. unfold top5_section, top5, top_peaks.
  rewrite (bind_ok _ _ _ _ _ (deref_ok _ _ _ Hm)).
  rewrite (bind_ok _ _ _ _ _ (deref_ok _ _ _ Hp)).
  destruct (has_col "peakid" m && has_col "peakid" p); [| split; reflexivity].
  unfold bind, lift, alloc, assign_columns, deref, emit.
  destruct (getitem m "peakid") as [s | e]; cbn [rbind heap page fst snd];
    [| split; [reflexivity | cbn; now rewrite app_nil_r]].
  rewrite nth_error_last.
  cbn [set_columns reset_index columns length Nat.eqb rows rbind heap page].
  rewrite update_last, nth_error_last.
  destruct (getitems p ["peakid"; "pkname"]) as [named | e]; cbn [rbind];
    [| split; [reflexivity | cbn; now rewrite app_nil_r]].
  destruct (merge_left _ _ named "peakid") as [merged | e]; cbn [rbind heap page];
    [| split; [reflexivity | cbn; now rewrite app_nil_r]].
  rewrite nth_error_last. cbn [fst snd page top5_widgets].
  split; [reflexivity |]. now rewrite <- app_assoc.
Qed.



(** ** The sentinel "UNKNOWN" in the aggregations *)

Lemma col_index_lt (c : string) (cols : list string) (i : nat) :
  col_index c cols = Some i -> (i < length cols)%nat.
Proof.
  revert i. induction cols as [| d cols IH]; intros i; [discriminate |].
  cbn [col_index]. destruct (String.eqb d c).
  - intros H. injection H as <-. cbn. lia.
  - destruct (col_index c cols) as [k |]; [| discriminate].
    intros H. injection H as <-. cbn. specialize (IH k eq_refl). lia.
Qed.

Lemma fill_row_cell (fills : list (string * value)) (c : string) (d : value) :
  lookup_fill c fills = Some d ->
  forall (cols : list string) (r : list value) (i : nat),
    col_index c cols = Some i ->
    (i < length r)%nat ->
    cell i (fill_row fills cols r)
    = match cell i r with VNull => d | v => v end.
Proof.
  intros Hd. induction cols as [| k cols IH]; intros r i Hi Hlt; [discriminate |].
  destruct r as [| v r]; [cbn in Hlt; lia |].
  cbn [col_index] in Hi. cbn [fill_row].
  destruct (String.eqb k c) eqn:E.
  - injection Hi as <-. apply String.eqb_eq in E. subst k.
    unfold cell. cbn [nth]. rewrite Hd. destruct v; reflexivity.
  - destruct (col_index c cols) as [j |] eqn:Ej; [| discriminate].
    injection Hi as <-. unfold cell in *. cbn [nth].
    apply IH; [reflexivity | cbn in Hlt; lia].
Qed.

Lemma count_fill_unknown (s : Series) :
  count unknown (map fill_unknown s) = (count VNull s + count unknown s)%nat.
Proof.
  unfold count. induction s as [| v s IH]; [reflexivity |].
  cbn [map count_occ]. rewrite IH.
  destruct v as [| t | z | b]; cbn [fill_unknown].
  - destruct (value_eq_dec unknown unknown); [| contradiction].
    destruct (value_eq_dec VNull VNull); [| contradiction].
    destruct (value_eq_dec VNull unknown); [discriminate | lia].
  - destruct (value_eq_dec (VStr t) unknown);
      destruct (value_eq_dec (VStr t) VNull); try discriminate; lia.
  - destruct (value_eq_dec (VInt z) unknown);
      destruct (value_eq_dec (VInt z) VNull); try discriminate; lia.
  - destruct (value_eq_dec (VBool b) unknown);
      destruct (value_eq_dec (VBool b) VNull); try discriminate; lia.
Qed.

Lemma fill_unknown_In (s : Series) (x : value) :
  In x (dropna (map fill_unknown s))
  <-> (x = unknown /\ In VNull s) \/ (In x s /\ x <> VNull).
Proof.
  rewrite dropna_In, in_map_iff. split.
  - intros [(v & Hv & Hin) Hnn]. destruct v; cbn in Hv; subst x;
      [left; now split | right; now split ..].
  - intros [[-> Hin] | [Hin Hnn]].
    + split; [exists VNull; now split | discriminate].
    + split; [| assumption]. exists x. split; [| assumption].
      destruct x; [contradiction | reflexivity ..].
Qed.

Lemma nunique_fill_unknown (s : Series) :
  In VNull s ->
  nunique (map fill_unknown s)
  = S (nunique (filter (fun v => negb (value_eqb v unknown)) s)).
Proof.
  intros Hnull. unfold nunique.
  set (others := filter (fun v => negb (value_eqb v unknown)) s).
  change (S (length (unique (dropna others))))
    with (length (unknown :: unique (dropna others))).
  apply Permutation_length, NoDup_Permutation.
  - apply NoDup_unique.
  - constructor; [| apply NoDup_unique].
    rewrite unique_In, dropna_In. subst others. rewrite filter_In.
    intros [[_ H] _]. unfold value_eqb in H.
    destruct (value_eq_dec unknown unknown); [discriminate | contradiction].
  - intros x. rewrite unique_In, fill_unknown_In. cbn [In].
    rewrite unique_In, dropna_In. subst others. rewrite filter_In.
    unfold value_eqb. destruct (value_eq_dec x unknown) as [-> | Hne]; cbn [negb].
    + split; [now left | intros _; left; now split].
    + split.
      * intros [[-> _] | [Hin Hnn]]; [contradiction | right; tauto].
      * intros [<- | [[Hin _] Hnn]]; [contradiction | right; tauto].
Qed.

(** The default-fill on the peak-identifier column of the member table. *)
Lemma load_data_member_peakid (raw : Tables) (i : nat) :
  rectangular (members raw) ->
  col_index "peakid" (map strip (columns (members raw))) = Some i ->
  getitem (members (load_data raw)) "peakid"
  = Ok (map fill_unknown (map (cell i) (rows (members raw)))).
Proof.
  intros Hrect Hi. unfold getitem, load_data.
  cbn [members fillna strip_columns columns rows]. rewrite Hi. f_equal.
  rewrite !map_map. apply map_ext_in. intros r Hr.
  pose proof (proj1 (Forall_forall _ _) Hrect r Hr) as Hlen. cbv beta in Hlen.
  pose proof (col_index_lt _ _ _ Hi) as Hlt. rewrite length_map in Hlt.
  rewrite (fill_row_cell [("peakid", VStr "UNKNOWN"); ("citizen", VStr "UNKNOWN")]
             "peakid" unknown eq_refl _ _ _ Hi) by lia.
  unfold fill_unknown. now destruct (cell i r).
Qed.

(** C10. Let the raw member table have a null peak identifier.  After
    [load_data] every peak identifier that was null reads "UNKNOWN" and the
    others are as they were; the numerator of the peaks-climbed percentage
    is one more than the number of distinct identifiers other than null and
    "UNKNOWN"; and, when no peak of the loaded Peak table is called
    "UNKNOWN" and the merge accepts the key columns, the ranking of peaks
    has the entry ("UNKNOWN", number of member rows that were null or
    "UNKNOWN", null name), which is in the top 5 when the ranking has at
    most 5 rows.  The filled column holds a string: the merge accepts it
    against string peak identifiers and refuses it against numbers. *)
Theorem unknown_sentinel_is_counted :
  forall (raw : Tables) (i : nat) (col pp : Series),
    rectangular (members raw) ->
    col_index "peakid" (map strip (columns (members raw))) = Some i ->
    col = map (cell i) (rows (members raw)) ->
    In VNull col ->
    getitem (members (load_data raw)) "peakid" = Ok (map fill_unknown col)
    /\ peaks_climbed (members (load_data raw))
       = Ok (S (nunique (filter (fun v => negb (value_eqb v unknown)) col)))
    /\ (getitem (peaks (load_data raw)) "peakid" = Ok pp ->
        has_col "pkname" (peaks (load_data raw)) = true ->
        ~ In unknown pp ->
        keys_clash (map fill_unknown col) pp = false ->
        let entry := [unknown; VInt (Z.of_nat (count VNull col + count unknown col)); VNull] in
        exists ranking,
          top_peaks (members (load_data raw)) (peaks (load_data raw)) = Ok ranking
          /\ In entry (rows ranking)
          /\ ((nrows ranking <= 5)%nat ->
              exists t,
                top5 (members (load_data raw)) (peaks (load_data raw)) = Ok (Computed t)
                /\ In entry (rows t)))
    /\ (all_strings pp -> keys_clash (map fill_unknown col) pp = false)
    /\ (all_integers pp -> pp <> [] -> keys_clash (map fill_unknown col) pp = true).
Proof.
  intros raw i col pp Hrect Hi Hcol Hnull.
  pose proof (load_data_member_peakid raw i Hrect Hi) as Hget.
  rewrite <- Hcol in Hget.
  assert (Hfilled : In (VStr "UNKNOWN") (map fill_unknown col))
    by (apply in_map_iff; exists VNull; now split).
  split; [exact Hget |]. split; [| split; [| split]].
  4: { intros Hall Hne. now apply (keys_clash_string_numbers _ _ "UNKNOWN"). }
  3: { intros Hall. now apply (keys_clash_string_strings _ _ "UNKNOWN"). }
  - unfold peaks_climbed. rewrite Hget. cbn [rbind].
    rewrite nunique_dropna. now rewrite nunique_fill_unknown.
  - intros Hp Hn Hnot Hok entry.
    destruct (getitem_has_col _ _ _ Hget) as (im & _ & _ & Hcm).
    destruct (getitem_has_col _ _ _ Hp) as (jp & Hjp & Hpp & Hcp).
    destruct (has_col_index _ _ Hn) as [jn Hjn].
    rewrite (top_peaks_rows _ _ _ jp jn Hget Hjp Hjn), <- Hpp, Hok.
    set (right := map (fun r => [cell jp r; cell jn r]) (rows (peaks (load_data raw)))).
    set (vc := value_counts (map fill_unknown col)).
    assert (Hentry : In entry
              (flat_map (join_row 0 0 1 right)
                 (map (fun q => [fst q; VInt (Z.of_nat (snd q))]) vc))).
    { apply in_flat_map.
      exists [unknown; VInt (Z.of_nat (count VNull col + count unknown col))].
      split.
      - apply in_map_iff.
        exists (unknown, (count VNull col + count unknown col)%nat).
        split; [reflexivity |]. subst vc. apply value_counts_In. cbn [fst snd].
        split; [| split; [discriminate | symmetry; apply count_fill_unknown]].
        apply in_map_iff. exists VNull. now split.
      - unfold join_row.
        assert (Hnone : filter (fun r => value_eqb (cell 0 r)
                                  (cell 0 [unknown;
                                           VInt (Z.of_nat (count VNull col + count unknown col))]))
                          right = []).
        { destruct (filter _ right) as [| x xs] eqn:F; [reflexivity | exfalso].
          assert (Hx : In x (x :: xs)) by now left.
          rewrite <- F in Hx. apply filter_In in Hx. destruct Hx as [Hx Hk].
          apply value_eqb_eq in Hk. apply Hnot. rewrite Hpp.
          subst right. apply in_map_iff in Hx. destruct Hx as (r & <- & Hr).
          change (cell jp r = unknown) in Hk. rewrite <- Hk. now apply in_map. }
        rewrite Hnone. now left. }
    eexists. split; [reflexivity |]. cbn [rows]. split; [exact Hentry |].
    unfold nrows. cbn [rows]. intros Hfive.
    unfold top5. rewrite Hcm, Hcp. cbn [andb].
    rewrite (top_peaks_rows _ _ _ jp jn Hget Hjp Hjn), <- Hpp, Hok. cbn [rbind].
    eexists. split; [reflexivity |]. cbn [head rows].
    rewrite firstn_all2 by exact Hfive. exact Hentry.
Qed.

Lemma unknown_sentinel_is_counted_witness :
  getitem (members (load_data raw_tables)) "peakid"
  = Ok (map fill_unknown [VNull; VStr "EVER"; VNull])
  /\ peaks_climbed (members (load_data raw_tables))
     = Ok (S (nunique (filter (fun v => negb (value_eqb v unknown))
                              [VNull; VStr "EVER"; VNull])))
  /\ (getitem (peaks (load_data raw_tables)) "peakid" = Ok [VStr "EVER"] ->
      has_col "pkname" (peaks (load_data raw_tables)) = true ->
      ~ In unknown [VStr "EVER"] ->
      keys_clash (map fill_unknown [VNull; VStr "EVER"; VNull]) [VStr "EVER"] = false ->
      let entry :=
        [unknown;
         VInt (Z.of_nat (count VNull [VNull; VStr "EVER"; VNull]
                         + count unknown [VNull; VStr "EVER"; VNull]));
         VNull] in
      exists ranking,
        top_peaks (members (load_data raw_tables)) (peaks (load_data raw_tables))
        = Ok ranking
        /\ In entry (rows ranking)
        /\ ((nrows ranking <= 5)%nat ->
            exists t,
              top5 (members (load_data raw_tables)) (peaks (load_data raw_tables))
              = Ok (Computed t)
              /\ In entry (rows t)))
  /\ (all_strings [VStr "EVER"] ->
      keys_clash (map fill_unknown [VNull; VStr "EVER"; VNull]) [VStr "EVER"] = false)
  /\ (all_integers [VStr "EVER"] -> [VStr "EVER"] <> [] ->
      keys_clash (map fill_unknown [VNull; VStr "EVER"; VNull]) [VStr "EVER"] = true).
Proof.
  apply (unknown_sentinel_is_counted raw_tables 0
           [VNull; VStr "EVER"; VNull] [VStr "EVER"]).
  - repeat constructor.
  - reflexivity.
  - reflexivity.
  - now left.
Defined.

(** * Further properties of the pipeline *)

(** ** The loader (lines 31-37) *)

Lemma lstrip_trimmed (s : string) : lstrip (lstrip s) = lstrip s.
Proof.
  induction s as [| c s IH]; [reflexivity |].
  cbn [lstrip]. destruct (is_space c) eqn:E; [exact IH |].
  cbn [lstrip]. now rewrite E.
Qed.

Lemma rstrip_trimmed (s : string) : rstrip (rstrip s) = rstrip s.
Proof.
  induction s as [| c s IH]; [reflexivity |].
  cbn [rstrip]. destruct (rstrip s) as [| d t] eqn:E.
  - destruct (is_space c) eqn:Ec; [reflexivity |]. cbn [rstrip]. now rewrite Ec.
  - cbn [rstrip]. cbn [rstrip] in IH. rewrite IH. reflexivity.
Qed.

(** [rstrip] keeps a first character that is not white space. *)
Lemma rstrip_head (c : ascii) (s : string) :
  is_space c = false -> exists t, rstrip (String c s) = String c t.
Proof.
  intros Hc. cbn [rstrip]. destruct (rstrip s) as [| d t].
  - rewrite Hc. now exists EmptyString.
  - now exists (String d t).
Qed.

Lemma strip_is_trimmed (s : string) : trimmed (strip s).
Proof.
  unfold trimmed, strip. split; [| apply rstrip_trimmed].
  induction s as [| c s IH]; [reflexivity |].
  cbn [lstrip]. destruct (is_space c) eqn:E; [exact IH |].
  destruct (rstrip_head c s E) as [t Ht]. rewrite Ht. cbn [lstrip]. now rewrite E.
Qed.

Lemma lstrip_split (s : string) :
  exists l, all_space l = true /\ s = (l ++ lstrip s)%string.
Proof.
  induction s as [| c s (l & Hl & Hs)]; [now exists EmptyString |].
  cbn [lstrip]. destruct (is_space c) eqn:E.
  - exists (String c l). cbn. rewrite E, Hl. split; [reflexivity |]. now rewrite <- Hs.
  - now exists EmptyString.
Qed.

Lemma rstrip_split (s : string) :
  exists r, all_space r = true /\ s = (rstrip s ++ r)%string.
Proof.
  induction s as [| c s (r & Hr & Hs)]; [now exists EmptyString |].
  cbn [rstrip]. destruct (rstrip s) as [| d t] eqn:E.
  - cbn in Hs. destruct (is_space c) eqn:Ec.
    + exists (String c r). cbn. rewrite Ec, Hr. split; [reflexivity |]. now rewrite <- Hs.
    + exists r. split; [exact Hr |]. cbn. now rewrite <- Hs.
  - exists r. split; [exact Hr |]. cbn. cbn in Hs. now rewrite <- Hs.
Qed.

Lemma strip_stripped_of (c : string) : stripped_of c (strip c).
Proof.
  split; [apply strip_is_trimmed |].
  destruct (lstrip_split c) as (l & Hl & Hc).
  destruct (rstrip_split (lstrip c)) as (r & Hr & Hm).
  exists l, r. repeat split; auto.
  unfold strip. now rewrite <- Hm.
Qed.

Lemma strip_trimmed_id (s : string) : trimmed s -> strip s = s.
Proof. intros [Hl Hr]. unfold strip. now rewrite Hl. Qed.

Lemma fill_row_length (fills : list (string * value)) (cols : list string) (r : list value) :
  length (fill_row fills cols r) = length r.
Proof.
  revert r. induction cols as [| c cols IH]; intros [| v r]; cbn; auto.
Qed.

Lemma fill_row_notna (fills : list (string * value)) (cols : list string)
    (r : list value) (i : nat) :
  cell i r <> VNull -> cell i (fill_row fills cols r) = cell i r.
Proof.
  revert r i. induction cols as [| c cols IH]; intros [| v r] i H; cbn; auto.
  destruct i as [| i]; unfold cell in *; cbn [nth] in *.
  - destruct v; [contradiction | reflexivity ..].
  - now apply IH.
Qed.

Lemma fill_row_other (fills : list (string * value)) (cols : list string)
    (r : list value) (i : nat) (c : string) :
  nth_error cols i = Some c -> lookup_fill c fills = None ->
  cell i (fill_row fills cols r) = cell i r.
Proof.
  revert r i. induction cols as [| d cols IH]; intros [| v r] [| i] Hc Hn;
    cbn in *; try discriminate; auto.
  - injection Hc as ->. unfold cell. cbn [nth]. rewrite Hn. now destruct v.
  - unfold cell in *. cbn [nth]. now apply (IH r i).
Qed.

Lemma lookup_fill_none (c : string) (fills : list (string * value)) :
  ~ In c (map fst fills) -> lookup_fill c fills = None.
Proof.
  induction fills as [| [k d] fills IH]; [reflexivity |].
  cbn [map fst In lookup_fill]. intros H.
  destruct (String.eqb k c) eqn:E.
  - apply String.eqb_eq in E. tauto.
  - apply IH. tauto.
Qed.

Lemma fillna_normalised (fills : list (string * value)) (t : DataFrame) :
  normalised (map fst fills) t (fillna fills (strip_columns t)).
Proof.
  unfold normalised, fillna, strip_columns. cbn [columns rows]. split.
  - induction (columns t) as [| c cols IH]; constructor; auto.
    apply strip_stripped_of.
  - induction (rows t) as [| r rs IH]; constructor; auto.
    split; [apply fill_row_length |]. split.
    + intros i. apply fill_row_notna.
    + intros i c Hc Hn. eapply fill_row_other; eauto. now apply lookup_fill_none.
Qed.

(** X1. Whatever the raw tables, [load_data] only normalises them: every
    column name loses the white space around it and nothing else, every
    row keeps its width and its non-null cells, and the only cells that
    can change are null cells of success1 in the expedition table, of
    peakid and citizen in the member table and of pkname in the peak
    table; the reference table and the data dictionary keep all their
    rows. *)
Theorem load_data_normalises :
  forall raw : Tables,
    normalised ["success1"] (exped raw) (exped (load_data raw))
    /\ normalised ["peakid"; "citizen"] (members raw) (members (load_data raw))
    /\ normalised ["pkname"] (peaks raw) (peaks (load_data raw))
    /\ Forall2 stripped_of (columns (refer raw)) (columns (refer (load_data raw)))
    /\ rows (refer (load_data raw)) = rows (refer raw)
    /\ Forall2 stripped_of (columns (data_dict raw)) (columns (data_dict (load_data raw)))
    /\ rows (data_dict (load_data raw)) = rows (data_dict raw).
Proof.
  intros raw. unfold load_data. cbn [exped members peaks refer data_dict].
  split; [apply (fillna_normalised [("success1", VStr "unknown")]) |].
  split; [apply (fillna_normalised
                   [("peakid", VStr "UNKNOWN"); ("citizen", VStr "UNKNOWN")]) |].
  split; [apply (fillna_normalised [("pkname", VStr "UNKNOWN")]) |].
  assert (Hs : forall cols, Forall2 stripped_of cols (map strip cols)).
  { induction cols; constructor; auto. apply strip_stripped_of. }
  unfold strip_columns. cbn [columns rows]. repeat split; auto.
Qed.

Lemma rectangular_strip (t : DataFrame) :
  rectangular t -> rectangular (strip_columns t).
Proof.
  unfold rectangular, strip_columns. cbn [columns rows]. now rewrite length_map.
Qed.

Lemma fillna_no_null (fills : list (string * value)) (c : string) (d : value)
    (t : DataFrame) (s : Series) :
  rectangular t ->
  lookup_fill c fills = Some d -> d <> VNull ->
  getitem (fillna fills t) c = Ok s -> ~ In VNull s.
Proof.
  intros Hrect Hd Hnn Hget Hin.
  destruct (getitem_has_col _ _ _ Hget) as (i & Hi & -> & _).
  cbn [fillna columns rows] in Hi, Hin.
  rewrite map_map in Hin. apply in_map_iff in Hin. destruct Hin as (r & Hr & Hin).
  pose proof (proj1 (Forall_forall _ _) Hrect r Hin) as Hlen. cbv beta in Hlen.
  pose proof (col_index_lt _ _ _ Hi) as Hlt.
  rewrite (fill_row_cell fills c d Hd _ _ _ Hi) in Hr by lia.
  destruct (cell i r); congruence.
Qed.

(** X2. When every raw row has one cell per column, no cell is null after
    [load_data] in the success1 column of the expedition table, in the
    peakid and citizen columns of the member table and in the pkname
    column of the peak table. *)
Theorem load_data_no_null :
  forall (raw : Tables) (s : Series),
    rectangular (exped raw) ->
    rectangular (members raw) ->
    rectangular (peaks raw) ->
    getitem (exped (load_data raw)) "success1" = Ok s
    \/ getitem (members (load_data raw)) "peakid" = Ok s
    \/ getitem (members (load_data raw)) "citizen" = Ok s
    \/ getitem (peaks (load_data raw)) "pkname" = Ok s ->
    ~ In VNull s.
Proof.
  intros raw s He Hm Hp [H | [H | [H | H]]]; unfold load_data in H;
    cbn [exped members peaks] in H.
  - exact (fillna_no_null [("success1", VStr "unknown")] "success1" (VStr "unknown")
             _ s (rectangular_strip _ He) eq_refl ltac:(discriminate) H).
  - exact (fillna_no_null [("peakid", VStr "UNKNOWN"); ("citizen", VStr "UNKNOWN")]
             "peakid" (VStr "UNKNOWN")
             _ s (rectangular_strip _ Hm) eq_refl ltac:(discriminate) H).
  - exact (fillna_no_null [("peakid", VStr "UNKNOWN"); ("citizen", VStr "UNKNOWN")]
             "citizen" (VStr "UNKNOWN")
             _ s (rectangular_strip _ Hm) eq_refl ltac:(discriminate) H).
  - exact (fillna_no_null [("pkname", VStr "UNKNOWN")] "pkname" (VStr "UNKNOWN")
             _ s (rectangular_strip _ Hp) eq_refl ltac:(discriminate) H).
Qed.

Lemma load_data_no_null_witness :
  ~ In VNull [VStr "Nepal"; VStr "UNKNOWN"; VStr "UK"].
Proof.
  apply (load_data_no_null raw_tables [VStr "Nepal"; VStr "UNKNOWN"; VStr "UK"]).
  - repeat constructor.
  - repeat constructor.
  - repeat constructor.
  - right. right. left. reflexivity.
Defined.

Lemma fill_row_idem (fills : list (string * value)) (cols : list string) (r : list value) :
  fill_row fills cols (fill_row fills cols r) = fill_row fills cols r.
Proof.
  revert r. induction cols as [| c cols IH]; intros [| v r]; cbn [fill_row]; auto.
  rewrite IH. f_equal.
  destruct v; destruct (lookup_fill c fills) as [[| ? | ? | ?] |]; reflexivity.
Qed.

Lemma strip_idem (s : string) : strip (strip s) = strip s.
Proof. apply strip_trimmed_id, strip_is_trimmed. Qed.

Lemma fillna_strip_idem (fills : list (string * value)) (t : DataFrame) :
  fillna fills (strip_columns (fillna fills (strip_columns t)))
  = fillna fills (strip_columns t).
Proof.
  unfold fillna, strip_columns. cbn [columns rows].
  assert (Hc : map strip (map strip (columns t)) = map strip (columns t)).
  { rewrite map_map. apply map_ext. intros c. apply strip_idem. }
  rewrite Hc. f_equal. rewrite map_map. apply map_ext. intros r. apply fill_row_idem.
Qed.

(** X3. [load_data] is a normalisation: applied to tables it has already
    produced, it changes nothing. *)
Theorem load_data_idempotent :
  forall raw : Tables, load_data (load_data raw) = load_data raw.
Proof.
  intros raw. unfold load_data. cbn [exped members peaks refer data_dict].
  rewrite !fillna_strip_idem. f_equal.
  - unfold strip_columns. cbn [columns rows]. f_equal.
    rewrite map_map. apply map_ext. intros c. apply strip_idem.
  - unfold strip_columns. cbn [columns rows]. f_equal.
    rewrite map_map. apply map_ext. intros c. apply strip_idem.
Qed.

(** ** The selections and the filtered views (lines 53-61) *)

Lemma options_views (i : nat) (rs : list (list value)) :
  let ys := unique (dropna (map (cell i) rs)) in
  NoDup ys
  /\ ~ In VNull ys
  /\ (forall y, In y ys -> filter (fun r => eq_scalar y (cell i r)) rs <> [])
  /\ (forall r, In r rs -> cell i r <> VNull ->
        In (cell i r) ys
        /\ In r (filter (fun r' => eq_scalar (cell i r) (cell i r')) rs))
  /\ (forall y r, In r (filter (fun r' => eq_scalar y (cell i r')) rs) ->
        In r rs /\ cell i r = y /\ y <> VNull).
Proof.
  intros ys. subst ys. split; [apply NoDup_unique |]. split; [| split; [| split]].
  - rewrite unique_In, dropna_In. tauto.
  - intros y Hy. apply unique_In, dropna_In in Hy. destruct Hy as [Hy Hnn].
    apply in_map_iff in Hy. destruct Hy as (r & Hr & Hin).
    assert (H : In r (filter (fun r' => eq_scalar y (cell i r')) rs)).
    { apply filter_In. split; [assumption |].
      rewrite eq_scalar_eqb by assumption. now apply value_eqb_eq. }
    intros E. rewrite E in H. destruct H.
  - intros r Hr Hnn. split.
    + apply unique_In, dropna_In. split; [now apply in_map | assumption].
    + apply filter_In. split; [assumption |].
      rewrite eq_scalar_eqb by assumption. now apply value_eqb_eq.
  - intros y r H. apply filter_In in H. destruct H as [Hin H].
    unfold eq_scalar in H. apply andb_true_iff in H. destruct H as [Hn He].
    apply value_eqb_eq in He. split; [assumption |]. split; [assumption |].
    intros ->. rewrite He in Hn. discriminate.
Qed.

(** X4. On an expedition table with a year column, the years offered for
    selection are pairwise distinct and not null; each of them gives a
    filtered view with at least one row; every expedition with a year is
    in the view of its year, which is offered; and an expedition without a
    year is in no view, whatever the selection. *)
Theorem years_give_views :
  forall (e : DataFrame) (i : nat),
    col_index "year" (columns e) = Some i ->
    exists ys,
      years e = Ok ys
      /\ NoDup ys
      /\ ~ In VNull ys
      /\ (forall y, In y ys ->
            exists view, filtered_exped e y = Ok view /\ rows view <> [])
      /\ (forall r, In r (rows e) -> cell i r <> VNull ->
            In (cell i r) ys
            /\ exists view, filtered_exped e (cell i r) = Ok view /\ In r (rows view))
      /\ (forall y view r, filtered_exped e y = Ok view -> In r (rows view) ->
            In r (rows e) /\ cell i r = y /\ y <> VNull).
Proof.
  intros e i Hi. unfold years, getitem, filtered_exped. rewrite Hi. cbn [rbind].
  destruct (options_views i (rows e)) as (H1 & H2 & H3 & H4 & H5).
  eexists. split; [reflexivity |]. split; [exact H1 |]. split; [exact H2 |].
  split; [| split].
  - intros y Hy. eexists. split; [reflexivity |]. cbn [select rows]. now apply H3.
  - intros r Hr Hnn. destruct (H4 r Hr Hnn) as [Ha Hb]. split; [exact Ha |].
    eexists. split; [reflexivity |]. exact Hb.
  - intros y view r Hv Hr. injection Hv as <-. cbn [select rows] in Hr.
    now apply H5.
Qed.

Lemma years_give_views_witness :
  exists ys,
    years (three_expeditions "a" "b" "c") = Ok ys
    /\ NoDup ys
    /\ ~ In VNull ys
    /\ (forall y, In y ys ->
          exists view,
            filtered_exped (three_expeditions "a" "b" "c") y = Ok view
            /\ rows view <> [])
    /\ (forall r, In r (rows (three_expeditions "a" "b" "c")) -> cell 1 r <> VNull ->
          In (cell 1 r) ys
          /\ exists view,
               filtered_exped (three_expeditions "a" "b" "c") (cell 1 r) = Ok view
               /\ In r (rows view))
    /\ (forall y view r,
          filtered_exped (three_expeditions "a" "b" "c") y = Ok view ->
          In r (rows view) ->
          In r (rows (three_expeditions "a" "b" "c")) /\ cell 1 r = y /\ y <> VNull).
Proof.
  apply (years_give_views (three_expeditions "a" "b" "c") 1). reflexivity.
Defined.

Lemma load_data_member_citizen (raw : Tables) (i : nat) (r : list value) :
  rectangular (members raw) ->
  col_index "citizen" (map strip (columns (members raw))) = Some i ->
  In r (rows (members raw)) ->
  cell i (fill_row [("peakid", VStr "UNKNOWN"); ("citizen", VStr "UNKNOWN")]
            (map strip (columns (members raw))) r)
  = fill_unknown (cell i r).
Proof.
  intros Hrect Hi Hr.
  pose proof (proj1 (Forall_forall _ _) Hrect r Hr) as Hlen. cbv beta in Hlen.
  pose proof (col_index_lt _ _ _ Hi) as Hlt. rewrite length_map in Hlt.
  rewrite (fill_row_cell [("peakid", VStr "UNKNOWN"); ("citizen", VStr "UNKNOWN")]
             "citizen" unknown eq_refl _ _ _ Hi) by lia.
  unfold fill_unknown. now destruct (cell i r).
Qed.

(** X5. After [load_data] of rectangular tables with a citizen column, no
    member is hidden by the country filter: the countries offered are
    pairwise distinct, every member row is in the view of the country it
    carries, which is offered, and the view of a selection holds exactly
    the member rows of that country; "UNKNOWN" is offered exactly when a
    raw member had no country or the country "UNKNOWN". *)
Theorem countries_give_views :
  forall (raw : Tables) (i : nat),
    rectangular (members raw) ->
    col_index "citizen" (map strip (columns (members raw))) = Some i ->
    exists cs,
      countries (members (load_data raw)) = Ok cs
      /\ NoDup cs
      /\ (forall r, In r (rows (members (load_data raw))) ->
            In (cell i r) cs
            /\ exists view,
                 filtered_members (members (load_data raw)) (cell i r) = Ok view
                 /\ In r (rows view))
      /\ (forall c, exists view,
            filtered_members (members (load_data raw)) c = Ok view
            /\ forall r, In r (rows view) <->
                         In r (rows (members (load_data raw))) /\ cell i r = c)
      /\ (In unknown cs <->
          exists r, In r (rows (members raw))
                    /\ (cell i r = VNull \/ cell i r = unknown)).
Proof.
  intros raw i Hrect Hi.
  unfold countries, getitem, filtered_members, load_data.
  cbn [members fillna strip_columns columns rows]. rewrite Hi. cbn [rbind].
  set (fills := [("peakid", VStr "UNKNOWN"); ("citizen", VStr "UNKNOWN")]).
  set (cols := map strip (columns (members raw))).
  set (rs := map (fill_row fills cols) (rows (members raw))).
  assert (Hnn : forall r, In r rs -> cell i r <> VNull).
  { intros r Hr. subst rs. apply in_map_iff in Hr. destruct Hr as (r0 & <- & Hr0).
    subst fills cols. rewrite (load_data_member_citizen raw i r0 Hrect Hi Hr0).
    unfold fill_unknown, unknown. now destruct (cell i r0). }
  destruct (options_views i rs) as (H1 & _ & _ & H4 & H5).
  eexists. split; [reflexivity |]. split; [exact H1 |]. split; [| split].
  - intros r Hr. destruct (H4 r Hr (Hnn r Hr)) as [Ha Hb]. split; [exact Ha |].
    eexists. split; [reflexivity |]. exact Hb.
  - intros c. eexists. split; [reflexivity |]. cbn [select rows]. intros r. split.
    + intros H. apply H5 in H. tauto.
    + intros [Hr <-]. now apply H4; [| apply Hnn].
  - rewrite unique_In, dropna_In. split.
    + intros [H _]. apply in_map_iff in H. destruct H as (r & Hr & Hin).
      subst rs. apply in_map_iff in Hin. destruct Hin as (r0 & <- & Hr0).
      subst fills cols. rewrite (load_data_member_citizen raw i r0 Hrect Hi Hr0) in Hr.
      exists r0. split; [exact Hr0 |].
      unfold fill_unknown in Hr. destruct (cell i r0); auto.
    + intros (r0 & Hr0 & Hc). split; [| discriminate].
      apply in_map_iff. exists (fill_row fills cols r0). split.
      * subst fills cols. rewrite (load_data_member_citizen raw i r0 Hrect Hi Hr0).
        destruct Hc as [-> | ->]; reflexivity.
      * subst rs. now apply in_map.
Qed.

Lemma countries_give_views_witness :
  exists cs,
    countries (members (load_data raw_tables)) = Ok cs
    /\ NoDup cs
    /\ (forall r, In r (rows (members (load_data raw_tables))) ->
          In (cell 2 r) cs
          /\ exists view,
               filtered_members (members (load_data raw_tables)) (cell 2 r) = Ok view
               /\ In r (rows view))
    /\ (forall c, exists view,
          filtered_members (members (load_data raw_tables)) c = Ok view
          /\ forall r, In r (rows view) <->
                       In r (rows (members (load_data raw_tables))) /\ cell 2 r = c)
    /\ (In unknown cs <->
        exists r, In r (rows (members raw_tables))
                  /\ (cell 2 r = VNull \/ cell 2 r = unknown)).
Proof.
  apply (countries_give_views raw_tables 2).
  - repeat constructor.
  - reflexivity.
Defined.

(** ** The ranking of peaks, further (lines 75-79) *)

Lemma join_row_cases (right : list (list value)) (id cnt : value) (r : list value) :
  In r (join_row 0 0 1 right [id; cnt]) ->
  (exists x, In x right /\ cell 0 x = id /\ r = [id; cnt] ++ remove_nth 0 x)
  \/ ((forall x, In x right -> cell 0 x <> id) /\ r = [id; cnt; VNull]).
Proof.
  unfold join_row.
  destruct (filter (fun x => value_eqb (cell 0 x) (cell 0 [id; cnt])) right)
    as [| y ys] eqn:F.
  - intros [<- | []]. right. split; [| reflexivity].
    intros x Hx Hk.
    assert (H : In x (filter (fun x => value_eqb (cell 0 x) (cell 0 [id; cnt])) right)).
    { apply filter_In. split; [assumption |]. now apply value_eqb_eq. }
    rewrite F in H. destruct H.
  - intros H. apply in_map_iff in H. destruct H as (x & <- & Hx).
    rewrite <- F in Hx. apply filter_In in Hx. destruct Hx as [Hx Hk].
    apply value_eqb_eq in Hk. left. exists x. auto.
Qed.


(** X6. Whenever the top-5 frame is computed, every row of it has three
    cells, and its peak name is the name cell of a row of the Peak table
    that carries its peak identifier (null if that row has no name), or
    null when the Peak table has no such row.  When no row of the Peak
    table lacks its name, as after [load_data], the name is null exactly
    when the Peak table has no row with that identifier.  The frame is
    computed when the merge accepts the key columns. *)
Theorem top5_names_from_peaks :
  forall (m p : DataFrame) (mp : Series) (jp jn : nat),
    getitem m "peakid" = Ok mp ->
    col_index "peakid" (columns p) = Some jp ->
    col_index "pkname" (columns p) = Some jn ->
    (keys_clash mp (map (cell jp) (rows p)) = false ->
     exists t, top5 m p = Ok (Computed t))
    /\ forall t,
         top5 m p = Ok (Computed t) ->
         forall r, In r (rows t) ->
           length r = 3%nat
           /\ ((exists q, In q (rows p) /\ cell jp q = cell 0 r /\ cell 2 r = cell jn q)
               \/ ((forall q, In q (rows p) -> cell jp q <> cell 0 r)
                   /\ cell 2 r = VNull))
           /\ ((forall q, In q (rows p) -> cell jn q <> VNull) ->
               (cell 2 r = VNull <-> forall q, In q (rows p) -> cell jp q <> cell 0 r)).
Proof.
  intros m p mp jp jn Hm Hjp Hjn.
  assert (Hp : getitem p "peakid" = Ok (map (cell jp) (rows p)))
    by (unfold getitem; now rewrite Hjp).
  destruct (top5_cases m p mp _ Hm Hp) as (jp' & Hjp' & _ & Htop).
  rewrite Hjp in Hjp'. injection Hjp' as <-. rewrite Hjn in Htop.
  split.
  - intros Hok. rewrite Htop, Hok. eexists. reflexivity.
  - intros t Ht. rewrite Htop in Ht.
    destruct (keys_clash mp (map (cell jp) (rows p))); [discriminate |].
    injection Ht as <-. cbn [head rows]. intros r Hr.
    apply firstn_incl in Hr. apply in_flat_map in Hr. destruct Hr as (l & Hl & Hr).
    apply in_map_iff in Hl. destruct Hl as (q & <- & _).
    apply join_row_cases in Hr. destruct Hr as [(x & Hx & Hk & ->) | [Hnone ->]].
    + apply in_map_iff in Hx. destruct Hx as (row & <- & Hrow).
      split; [reflexivity |]. split.
      * left. exists row. repeat split; auto.
      * intros Hnames. cbn [app remove_nth firstn skipn cell nth]. split.
        -- intros Hnull. exfalso. apply (Hnames row Hrow). exact Hnull.
        -- intros Hnone. exfalso. apply (Hnone row Hrow). exact Hk.
    + assert (Hno : forall row, In row (rows p) -> cell jp row <> fst q).
      { intros row Hrow Hk. apply (Hnone [cell jp row; cell jn row]).
        - apply in_map_iff. now exists row.
        - exact Hk. }
      split; [reflexivity |]. split.
      * right. split; [exact Hno | reflexivity].
      * intros _. split; [intros _; exact Hno | reflexivity].
Qed.

Lemma top5_names_from_peaks_witness :
  (keys_clash [VStr "EVER"; VStr "LHOT"] (map (cell 0) (rows one_peak)) = false ->
   exists t, top5 two_peak_members one_peak = Ok (Computed t))
  /\ forall t,
       top5 two_peak_members one_peak = Ok (Computed t) ->
       forall r, In r (rows t) ->
         length r = 3%nat
         /\ ((exists q, In q (rows one_peak)
                        /\ cell 0 q = cell 0 r /\ cell 2 r = cell 1 q)
             \/ ((forall q, In q (rows one_peak) -> cell 0 q <> cell 0 r)
                 /\ cell 2 r = VNull))
         /\ ((forall q, In q (rows one_peak) -> cell 1 q <> VNull) ->
             (cell 2 r = VNull
              <-> forall q, In q (rows one_peak) -> cell 0 q <> cell 0 r)).
Proof.
  apply (top5_names_from_peaks two_peak_members one_peak
           [VStr "EVER"; VStr "LHOT"] 0 1); reflexivity.
Defined.




(** X8. What the top-5 section does is decided by the columns and by the
    kinds of the peak identifiers.  Without peakid in the member table or
    in the peak table it shows the message of its [else] branch; with
    peakid in both but no pkname in the peak table it raises [KeyError]
    for pkname and shows nothing, although its message names that column.
    With the three columns, the merge of line 78 raises [ValueError] when
    it refuses the key columns, and nothing is shown; otherwise the chart
    and the frame are shown.  The merge refuses strings against numbers
    (both tables with rows) and accepts strings with strings and numbers
    with numbers. *)
Theorem top5_by_columns :
  forall (m p : DataFrame) (st : state),
    nth_error (heap st) a_members = Some m ->
    nth_error (heap st) a_peaks = Some p ->
    (has_col "peakid" m && has_col "peakid" p = false ->
     top5 m p = Ok (Skipped "Required columns ('peakid', 'pkname') missing.")
     /\ fst (top5_section st) = Ok tt
     /\ page (snd (top5_section st))
        = page st ++ [WError "Required columns ('peakid', 'pkname') missing."])
    /\ (has_col "peakid" m && has_col "peakid" p = true ->
        has_col "pkname" p = false ->
        top5 m p = Err (KeyError "pkname")
        /\ fst (top5_section st) = Err (KeyError "pkname")
        /\ page (snd (top5_section st)) = page st)
    /\ (forall mp pp : Series,
          getitem m "peakid" = Ok mp ->
          getitem p "peakid" = Ok pp ->
          has_col "pkname" p = true ->
          (keys_clash mp pp = true ->
           top5 m p = Err ValueError
           /\ fst (top5_section st) = Err ValueError
           /\ page (snd (top5_section st)) = page st)
          /\ (keys_clash mp pp = false ->
              exists t,
                top5 m p = Ok (Computed t)
                /\ fst (top5_section st) = Ok tt
                /\ page (snd (top5_section st)) = page st ++ [WChart t; WDataFrame t])
          /\ (all_strings mp -> all_integers pp -> mp <> [] -> pp <> [] ->
              keys_clash mp pp = true)
          /\ (all_integers mp -> all_strings pp -> mp <> [] -> pp <> [] ->
              keys_clash mp pp = true)
          /\ (all_strings mp -> all_strings pp -> keys_clash mp pp = false)
          /\ (all_integers mp -> all_integers pp -> keys_clash mp pp = false)).
Proof.
  intros m p st Hsm Hsp.
  destruct (top5_section_top5 st m p Hsm Hsp) as [Hfst Hpage].
  split; [| split].
  - intros Hg.
    assert (Ht : top5 m p = Ok (Skipped "Required columns ('peakid', 'pkname') missing."))
      by (unfold top5; now rewrite Hg).
    rewrite Ht in Hfst, Hpage. auto.
  - intros Hg Hn. apply andb_true_iff in Hg. destruct Hg as [Hcm Hcp].
    destruct (has_col_index _ _ Hcm) as [im Him].
    destruct (has_col_index _ _ Hcp) as [jp Hjp].
    assert (Ht : top5 m p = Err (KeyError "pkname")).
    { unfold top5, top_peaks, getitem, getitems. rewrite Hcm, Hcp, Him.
      cbn [andb rbind set_columns reset_index columns length Nat.eqb col_indices].
      rewrite Hjp. unfold has_col in Hn.
      destruct (col_index "pkname" (columns p)); [discriminate | reflexivity]. }
    rewrite Ht in Hfst, Hpage. cbn [top5_widgets] in Hpage.
    rewrite app_nil_r in Hpage. auto.
  - intros mp pp Hm Hp Hn.
    destruct (top5_cases m p mp pp Hm Hp) as (jp & Hjp & Hpp & Htop).
    destruct (has_col_index _ _ Hn) as [jn Hjn]. rewrite Hjn in Htop.
    split; [| split; [| apply keys_clash_kinds]].
    + intros Hclash. rewrite Hclash in Htop.
      rewrite Htop in Hfst, Hpage. cbn [top5_widgets] in Hpage.
      rewrite app_nil_r in Hpage. auto.
    + intros Hok. rewrite Hok in Htop. eexists. split; [exact Htop |].
      rewrite Htop in Hfst, Hpage. auto.
Qed.

Lemma top5_by_columns_witness :
  top5 (members clashing_tables) (peaks clashing_tables) = Err ValueError
  /\ fst (top5_section (init_state clashing_tables)) = Err ValueError
  /\ page (snd (top5_section (init_state clashing_tables)))
     = page (init_state clashing_tables).
Proof.
  refine (proj1 (proj2 (proj2
            (top5_by_columns (members clashing_tables) (peaks clashing_tables)
               (init_state clashing_tables) eq_refl eq_refl))
            [VInt 1; VInt 2] [VStr "EVER"] eq_refl eq_refl eq_refl) eq_refl).
Defined.

(** ** Counting by key *)

Lemma list_sum_map_add {A} (f g : A -> nat) (l : list A) :
  list_sum (map (fun x => (f x + g x)%nat) l)
  = (list_sum (map f l) + list_sum (map g l))%nat.
Proof.
  unfold list_sum. induction l as [| x l IH]; [reflexivity |].
  cbn [map fold_right]. rewrite IH. lia.
Qed.

Lemma list_sum_map_zero {A} (f : A -> nat) (l : list A) :
  (forall x, In x l -> f x = 0%nat) -> list_sum (map f l) = 0%nat.
Proof.
  unfold list_sum. induction l as [| x l IH]; intros H; [reflexivity |].
  cbn [map fold_right]. rewrite (H x (or_introl eq_refl)), IH; auto.
  intros y Hy. apply H. now right.
Qed.

Lemma list_sum_map_ext {A} (f g : A -> nat) (l : list A) :
  (forall x, In x l -> f x = g x) -> list_sum (map f l) = list_sum (map g l).
Proof.
  unfold list_sum. induction l as [| x l IH]; intros H; [reflexivity |].
  cbn [map fold_right]. rewrite (H x (or_introl eq_refl)), IH; auto.
  intros y Hy. apply H. now right.
Qed.

Lemma list_sum_indicator (k0 : value) (d : nat) (keys : list value) :
  NoDup keys -> In k0 keys ->
  list_sum (map (fun k => if value_eqb k0 k then d else 0%nat) keys) = d.
Proof.
  induction keys as [| k keys IH]; intros Hnd Hin; [destruct Hin |].
  inversion Hnd as [| ? ? Hnot Hnd']; subst.
  change (list_sum (map (fun k1 => if value_eqb k0 k1 then d else 0%nat) (k :: keys)))
    with ((if value_eqb k0 k then d else 0)
          + list_sum (map (fun k1 => if value_eqb k0 k1 then d else 0%nat) keys))%nat.
  unfold value_eqb at 1. destruct (value_eq_dec k0 k) as [-> | Hne].
  - rewrite list_sum_map_zero; [lia |].
    intros x Hx. unfold value_eqb.
    destruct (value_eq_dec k x); [subst; contradiction | reflexivity].
  - destruct Hin as [-> | Hin]; [contradiction |].
    rewrite IH by assumption. reflexivity.
Qed.








(** ** The yearly trend, further (lines 128-135) *)

Lemma yearly_summary_rows (e : DataFrame) (iy ie js : nat) :
  col_index "year" (columns e) = Some iy ->
  col_index "expid" (columns e) = Some ie ->
  col_index "success1" (columns e) = Some js ->
  yearly_summary e
  = Ok {| columns := ["year"; "total_expeditions"; "successful_expeditions"];
          rows :=
            map (fun y =>
                   [y;
                    VInt (Z.of_nat (length (filter (fun r => notna (cell ie r))
                                              (filter (fun r => value_eqb (cell iy r) y)
                                                      (rows e)))));
                    VInt (Z.of_nat (length (filter (fun r => eq_scalar (VStr "success") (cell js r))
                                              (filter (fun r => value_eqb (cell iy r) y)
                                                      (rows e)))))])
                (sort_values (unique (dropna (map (cell iy) (rows e))))) |}.
Proof.
  intros Hy He Hs. unfold yearly_summary. now rewrite Hy, He, Hs.
Qed.


(** The long form is the summary read twice, once per metric. *)
Lemma trend_data_long (e : DataFrame) (iy ie js : nat) :
  col_index "year" (columns e) = Some iy ->
  col_index "expid" (columns e) = Some ie ->
  col_index "success1" (columns e) = Some js ->
  exists summary,
    yearly_summary e = Ok summary
    /\ trend_data e
       = Ok (Computed
               {| columns := ["year"; "Metric"; "Count"];
                  rows :=
                    map (fun r => [cell 0 r; VStr "total_expeditions"; cell 1 r])
                        (rows summary)
                    ++ map (fun r => [cell 0 r; VStr "successful_expeditions"; cell 2 r])
                           (rows summary) |}).
Proof.
  intros Hy He Hs.
  assert (Hc : has_col "year" e = true) by (unfold has_col; now rewrite Hy).
  unfold trend_data. rewrite Hc.
  rewrite (yearly_summary_rows e iy ie js Hy He Hs). cbn [rbind].
  eexists. split; [reflexivity |].
  unfold melt.
  cbn [columns col_index col_indices String.eqb Ascii.eqb Bool.eqb option_map rbind
       combine flat_map rows].
  now rewrite app_nil_r.
Qed.





(** X11. What the trend section computes is decided by the columns of the
    expedition table: without year it is skipped with a message; with
    year but without expid, or with both but without success1, the
    aggregation raises [KeyError] for that column; with the three columns
    the series is computed. *)
Theorem trend_data_by_columns :
  forall e : DataFrame,
    (has_col "year" e = false ->
     trend_data e = Ok (Skipped "`year` column not found in exped.csv"))
    /\ (has_col "year" e = true -> has_col "expid" e = false ->
        trend_data e = Err (KeyError "expid"))
    /\ (has_col "year" e = true -> has_col "expid" e = true ->
        has_col "success1" e = false ->
        trend_data e = Err (KeyError "success1"))
    /\ (has_col "year" e = true -> has_col "expid" e = true ->
        has_col "success1" e = true ->
        exists long, trend_data e = Ok (Computed long)).
Proof.
  intros e. unfold trend_data, yearly_summary, has_col.
  destruct (col_index "year" (columns e)) as [iy |] eqn:Hy;
    destruct (col_index "expid" (columns e)) as [ie |] eqn:He;
    destruct (col_index "success1" (columns e)) as [js |] eqn:Hs;
    repeat split; intros; try discriminate; try reflexivity.
  destruct (trend_data_long e iy ie js Hy He Hs) as (summary & _ & Hl).
  eexists. unfold trend_data, yearly_summary, has_col in Hl.
  rewrite Hy, He, Hs in Hl. exact Hl.
Qed.

Lemma trend_data_by_columns_witness :
  exists long, trend_data (three_expeditions "a" "b" "c") = Ok (Computed long).
Proof.
  apply (trend_data_by_columns (three_expeditions "a" "b" "c")); reflexivity.
Defined.

(** ** The most successful climber, further (lines 111-124) *)

Lemma filter_and_length_le {A} (P Q : A -> bool) (l : list A) :
  (length (filter (fun x => P x && Q x) l) <= length (filter P l))%nat.
Proof.
  induction l as [| z l IH]; [cbn; lia |].
  cbn [filter]. destruct (P z), (Q z); cbn [andb length]; lia.
Qed.

Lemma filter_length_all {A} (P Q : A -> bool) (l : list A) :
  length (filter (fun x => P x && Q x) l) = length (filter P l) ->
  forall x, In x l -> P x = true -> Q x = true.
Proof.
  induction l as [| y l IH]; intros Hlen x Hx HP; [destruct Hx |].
  cbn [filter] in Hlen.
  pose proof (filter_and_length_le P Q l) as Hle.
  destruct (P y) eqn:Py; cbn [andb] in Hlen.
  - destruct (Q y) eqn:Qy; cbn [length] in Hlen.
    + destruct Hx as [<- | Hx]; [exact Qy |]. apply IH; auto.
    + lia.
  - destruct Hx as [<- | Hx]; [congruence |]. apply IH; auto.
Qed.

Lemma filter_length_some {A} (P Q : A -> bool) (l : list A) :
  (length (filter (fun x => P x && Q x) l) < length (filter P l))%nat ->
  exists x, In x l /\ P x = true /\ Q x = false.
Proof.
  induction l as [| y l IH]; intros Hlt; [cbn in Hlt; lia |].
  cbn [filter] in Hlt.
  destruct (P y) eqn:Py; cbn [andb] in Hlt.
  - destruct (Q y) eqn:Qy; cbn [length] in Hlt.
    + destruct IH as (x & Hx & H1 & H2); [lia |]. exists x. split; [now right | auto].
    + exists y. split; [now left | auto].
  - destruct IH as (x & Hx & H1 & H2); [exact Hlt |]. exists x. split; [now right | auto].
Qed.

Lemma dropna_all_null (s : Series) : (forall v, In v s -> v = VNull) -> dropna s = [].
Proof.
  induction s as [| v s IH]; intros H; [reflexivity |].
  unfold dropna in *. cbn [filter]. rewrite (H v (or_introl eq_refl)). cbn [notna].
  apply IH. intros w Hw. apply H. now right.
Qed.

Lemma value_counts_nil (s : Series) : dropna s = [] -> value_counts s = [].
Proof. intros H. unfold value_counts. now rewrite H. Qed.

(** X12. The four outcomes of the most-successful-climber section.
    Without a name-like or a success-like column it is skipped with one
    message; with both but no successful row, with the other; when there
    are successful rows and all of them have a null name, [idxmax] on the
    empty count raises [ValueError]; when a successful row has a name, a
    name is returned.  A successful row is one whose indicator counts as
    a success by the rule of the specification, so that a 1/0 flag with a
    missing cell, which is read as float64, has no successful row: the
    members (Alice, 1), (Bob, missing), (Carol, 0) give the second
    message, and Alice once Bob's flag is 0. *)
Theorem most_successful_outcomes :
  (most_successful float_flag_members
   = Ok (Skipped "No successful climbs found in the data.")
   /\ most_successful int_flag_members = Ok (Computed (VStr "Alice")))
  /\ forall m : DataFrame,
    (name_cols m = [] \/ success_cols m = [] ->
     most_successful m
     = Ok (Skipped "Could not find suitable 'name' or 'success' columns in members.csv."))
    /\ forall (name_col success_col : string) (rest rest' : list string),
        name_cols m = name_col :: rest ->
        success_cols m = success_col :: rest' ->
        (n_successful m success_col = 0%nat ->
         most_successful m = Ok (Skipped "No successful climbs found in the data."))
        /\ ((0 < n_successful m success_col)%nat ->
            successes m name_col success_col VNull = n_successful m success_col ->
            most_successful m = Err ValueError)
        /\ ((successes m name_col success_col VNull < n_successful m success_col)%nat ->
            exists best, most_successful m = Ok (Computed best)).
Proof.
  split; [split; reflexivity |].
  intros m. split.
  - unfold most_successful. intros [-> | H]; [reflexivity |].
    rewrite H. now destruct (name_cols m).
  - intros nc sc rest rest' Hn Hs.
    assert (Hnin : In nc (columns m)).
    { assert (H : In nc (name_cols m)) by (rewrite Hn; now left).
      unfold name_cols in H. now apply filter_In in H. }
    assert (Hsin : In sc (columns m)).
    { assert (H : In sc (success_cols m)) by (rewrite Hs; now left).
      unfold success_cols in H. now apply filter_In in H. }
    destruct (col_index_In _ _ Hnin) as [i Hi].
    destruct (col_index_In _ _ Hsin) as [j Hj].
    unfold most_successful, successes, n_successful. rewrite Hn, Hs, Hi, Hj.
    unfold successful_members. rewrite Hj. cbn zeta. cbn [rbind].
    unfold getitem. cbn [select columns rows]. rewrite Hi. cbn [rbind].
    set (d := dtype_of (map (cell j) (rows m))).
    set (P := fun r : list value => is_success d (cell j r)).
    set (Q := fun r : list value => value_eqb (cell i r) VNull).
    rewrite <- (filter_success_rule d j Q).
    rewrite (filter_ext (fun r => counts_as_success d (cell j r)) P)
      by (intros r; subst P; cbv beta; now rewrite is_success_rule).
    change (fun r => is_success d (cell j r) && Q r) with (fun r => P r && Q r).
    assert (Hempty : empty (select P m)
                     = match filter P (rows m) with [] => true | _ => false end).
    { unfold empty, select. cbn [columns rows]. destruct (columns m); [destruct Hnin |].
      reflexivity. }
    rewrite Hempty. split; [| split].
    + intros H0. destruct (filter P (rows m)); [reflexivity | discriminate].
    + intros Hpos Hall.
      pose proof (filter_length_all P Q (rows m) Hall) as Hq.
      assert (Hnull : dropna (map (cell i) (filter P (rows m))) = []).
      { apply dropna_all_null. intros v Hv. apply in_map_iff in Hv.
        destruct Hv as (r & <- & Hr). apply filter_In in Hr. destruct Hr as [Hr HP].
        apply value_eqb_eq. now apply Hq. }
      rewrite (value_counts_nil _ Hnull).
      destruct (filter P (rows m)); [cbn in Hpos; lia | reflexivity].
    + intros Hlt.
      destruct (filter_length_some P Q (rows m) Hlt) as (r & Hr & HP & HQ).
      assert (Hin : In (cell i r) (map (cell i) (filter P (rows m)))).
      { apply in_map. apply filter_In. now split. }
      assert (Hnn : cell i r <> VNull).
      { intros E. subst Q. cbv beta in HQ. rewrite E in HQ.
        unfold value_eqb in HQ. destruct (value_eq_dec VNull VNull); congruence. }
      assert (Hv : In (cell i r, count (cell i r) (map (cell i) (filter P (rows m))))
                      (value_counts (map (cell i) (filter P (rows m)))))
        by (apply value_counts_In; cbn; tauto).
      destruct (filter P (rows m)) as [| r0 rs0] eqn:F; [destruct Hin |].
      cbn [negb]. rewrite <- F in *.
      destruct (value_counts (map (cell i) (filter P (rows m)))) as [| q vc];
        [destruct Hv |].
      cbn [idxmax rbind]. eexists. reflexivity.
Qed.

Lemma most_successful_outcomes_witness :
  exists best, most_successful alice_bob_members = Ok (Computed best).
Proof.
  apply (proj2 (proj2 most_successful_outcomes alice_bob_members)
           "fname" "msuccess" [] []).
  - reflexivity.
  - reflexivity.
  - vm_compute. lia.
Defined.

(** ** The Everest count, further (lines 149-153) *)

Lemma isin_In (ids : list value) (v : value) : isin ids v = true <-> In v ids.
Proof.
  unfold isin. destruct (in_dec value_eq_dec v ids); split; auto; discriminate.
Qed.

Lemma everest_id_rows (p : DataFrame) (jp jn : nat) :
  col_index "peakid" (columns p) = Some jp ->
  col_index "pkname" (columns p) = Some jn ->
  str_accessor (map (cell jn) (rows p)) = Ok (map (cell jn) (rows p)) ->
  everest_id p
  = Ok (map (cell jp) (filter (fun q => str_contains_ci "Everest" (cell jn q)) (rows p))).
Proof.
  intros Hjp Hjn Hstr. unfold everest_id, getitem. rewrite Hjn. cbn [rbind].
  rewrite Hstr. cbn [rbind select columns rows]. now rewrite Hjp.
Qed.

Lemma str_accessor_ok (s s' : Series) : str_accessor s = Ok s' -> s' = s.
Proof.
  unfold str_accessor. destruct s; [now intros [= <-] |].
  destruct (existsb is_str (v :: s)); [now intros [= <-] | discriminate].
Qed.

Lemma prefix_split (pat s : string) :
  String.prefix pat s = true <-> exists post, s = (pat ++ post)%string.
Proof.
  revert s. induction pat as [| c pat IH]; intros s.
  - split; [intros _; now exists s | intros _; now destruct s].
  - destruct s as [| c' s]; cbn [String.prefix String.append].
    + split; [discriminate | intros [post H]; discriminate].
    + destruct (ascii_dec c c') as [<- | Hne].
      * rewrite IH. split.
        -- intros [post ->]. now exists post.
        -- intros [post H]. injection H as ->. now exists post.
      * split; [discriminate |]. intros [post H]. congruence.
Qed.

Lemma contains_split (pat s : string) :
  contains pat s = true <-> exists pre post, s = (pre ++ pat ++ post)%string.
Proof.
  induction s as [| c s IH]; cbn [contains].
  - rewrite orb_false_r, prefix_split. split.
    + intros [post H]. now exists EmptyString, post.
    + intros (pre & post & H). destruct pre as [| c pre]; [| discriminate].
      now exists post.
  - rewrite orb_true_iff, prefix_split, IH. split.
    + intros [[post H] | (pre & post & ->)].
      * now exists EmptyString, post.
      * now exists (String c pre), post.
    + intros (pre & post & H). destruct pre as [| c' pre].
      * left. now exists post.
      * right. injection H as _ ->. now exists pre, post.
Qed.

Lemma lower_split (s a b : string) :
  lower s = (a ++ b)%string ->
  exists s1 s2, s = (s1 ++ s2)%string /\ lower s1 = a /\ lower s2 = b.
Proof.
  revert s. induction a as [| c a IH]; intros s H.
  - now exists EmptyString, s.
  - destruct s as [| c' s]; [discriminate |].
    cbn [lower String.append] in H. injection H as Hc H.
    destruct (IH s H) as (s1 & s2 & -> & H1 & H2).
    exists (String c' s1), s2. cbn [lower String.append]. now rewrite Hc, H1.
Qed.

(** The seven letters of "Everest" in either case are the texts whose
    lower-case form is "everest". *)
Lemma spells_everest_lower (w : string) : spells_everest w <-> lower w = "everest".
Proof.
  split.
  - intros (c1 & c2 & c3 & c4 & c5 & c6 & c7 & -> & H1 & H2 & H3 & H4 & H5 & H6 & H7).
    unfold either in *.
    destruct H1 as [-> | ->], H2 as [-> | ->], H3 as [-> | ->], H4 as [-> | ->],
             H5 as [-> | ->], H6 as [-> | ->], H7 as [-> | ->]; reflexivity.
  - intros H.
    destruct w as [| c1 [| c2 [| c3 [| c4 [| c5 [| c6 [| c7 [| c8 w]]]]]]]];
      cbn [lower] in H; try discriminate H.
    injection H as H1 H2 H3 H4 H5 H6 H7.
    exists c1, c2, c3, c4, c5, c6, c7. split; [reflexivity |].
    unfold either.
    apply lower_ascii_inv in H1, H2, H3, H4, H5, H6, H7.
    cbn in H1, H2, H3, H4, H5, H6, H7. tauto.
Qed.

(** The name test of the code is the one of the specification. *)
Lemma str_contains_everest (v : value) :
  str_contains_ci "Everest" v = true <-> mentions_everest v.
Proof.
  unfold mentions_everest. destruct v as [| s | z | b]; cbn [str_contains_ci].
  2: { change (lower "Everest") with "everest". rewrite contains_split. split.
       - intros (a & b & H).
         destruct (lower_split _ _ _ H) as (pre & rest & -> & _ & Hrest).
         destruct (lower_split _ _ _ Hrest) as (w & post & -> & Hw & _).
         exists pre, w, post. split; [reflexivity |]. now apply spells_everest_lower.
       - intros (pre & w & post & Hv & Hw). injection Hv as ->.
         apply spells_everest_lower in Hw.
         exists (lower pre), (lower post). now rewrite !lower_app, Hw. }
  all: split; [discriminate | intros (pre & w & post & Hv & _); discriminate].
Qed.

(** X13. When the Everest count is computed it is at most the number of
    successful member rows, and it is positive exactly when some member
    row whose indicator counts as a success carries the identifier of a
    peak whose name holds the letters of "Everest", each in either case.
    Both tests are stated in the words of the specification
    ([counts_as_success], [mentions_everest]).  A peak called "K2" does
    not count, one called "Mt. EVEREST" does. *)
Theorem everest_count_meaning :
  forall (m p : DataFrame) (n i j jp jn : nat) (success_col : string) (rest : list string),
    success_cols m = success_col :: rest ->
    col_index "peakid" (columns m) = Some i ->
    col_index success_col (columns m) = Some j ->
    col_index "peakid" (columns p) = Some jp ->
    col_index "pkname" (columns p) = Some jn ->
    everest_climbers m p = Ok (Computed n) ->
    (n <= n_successful m success_col)%nat
    /\ ((0 < n)%nat <->
        exists r q,
          In r (rows m) /\ In q (rows p)
          /\ counts_as_success (dtype_of (map (cell j) (rows m))) (cell j r) = true
          /\ cell i r = cell jp q
          /\ mentions_everest (cell jn q))
    /\ ~ mentions_everest (VStr "K2")
    /\ mentions_everest (VStr "Mt. EVEREST").
Proof.
  intros m p n i j jp jn sc rest Hs Hi Hj Hjp Hjn.
  unfold everest_climbers, n_successful. rewrite Hi, Hs, Hj. cbn zeta.
  set (d := dtype_of (map (cell j) (rows m))).
  destruct (everest_id p) as [ids |] eqn:Hids; cbn [rbind]; [| discriminate].
  intros Hn. injection Hn as <-. unfold nrows. cbn [select rows].
  assert (Hin : forall v, In v ids <->
                  exists q, In q (rows p) /\ cell jp q = v
                            /\ mentions_everest (cell jn q)).
  { assert (Hstr : str_accessor (map (cell jn) (rows p)) = Ok (map (cell jn) (rows p))).
    { unfold everest_id, getitem in Hids. rewrite Hjn in Hids. cbn [rbind] in Hids.
      destruct (str_accessor (map (cell jn) (rows p))) as [s' |] eqn:E; [| discriminate].
      now rewrite (str_accessor_ok _ _ E). }
    rewrite (everest_id_rows p jp jn Hjp Hjn Hstr) in Hids. injection Hids as <-.
    intros v. rewrite in_map_iff. split.
    - intros (q & <- & Hq). apply filter_In in Hq. exists q.
      rewrite <- str_contains_everest. tauto.
    - intros (q & Hq & <- & Hc). exists q. split; [reflexivity |].
      apply filter_In. rewrite str_contains_everest. tauto. }
  rewrite (filter_ext (fun r => isin ids (cell i r) && is_success d (cell j r))
             (fun r => counts_as_success d (cell j r) && isin ids (cell i r)))
    by (intros r; rewrite is_success_rule; apply andb_comm).
  split; [apply filter_and_length_le |]. split; [split |].
  - intros Hpos.
    destruct (filter (fun r => counts_as_success d (cell j r) && isin ids (cell i r))
                (rows m)) as [| r rs] eqn:F; [cbn in Hpos; lia |].
    assert (Hr : In r (filter (fun r => counts_as_success d (cell j r)
                                        && isin ids (cell i r)) (rows m)))
      by (rewrite F; now left).
    apply filter_In in Hr. destruct Hr as [Hr Hb].
    apply andb_true_iff in Hb. destruct Hb as [Hsuc Hisin].
    apply isin_In, Hin in Hisin. destruct Hisin as (q & Hq & Hk & Hc).
    exists r, q. repeat split; auto.
  - intros (r & q & Hr & Hq & Hsuc & Hk & Hc).
    assert (H : In r (filter (fun r => counts_as_success d (cell j r)
                                       && isin ids (cell i r)) (rows m))).
    { apply filter_In. split; [assumption |]. apply andb_true_iff. split; [assumption |].
      apply isin_In, Hin. exists q. auto. }
    destruct (filter _ (rows m)); [destruct H | cbn; lia].
  - split.
    + rewrite <- str_contains_everest. discriminate.
    + now apply str_contains_everest.
Qed.

Lemma everest_count_meaning_witness :
  (2 <= n_successful everest_members "msuccess")%nat
  /\ ((0 < 2)%nat <->
      exists r q,
        In r (rows everest_members) /\ In q (rows everest_peaks)
        /\ counts_as_success (dtype_of (map (cell 1) (rows everest_members))) (cell 1 r)
           = true
        /\ cell 0 r = cell 0 q
        /\ mentions_everest (cell 1 q))
  /\ ~ mentions_everest (VStr "K2")
  /\ mentions_everest (VStr "Mt. EVEREST").
Proof.
  apply (everest_count_meaning everest_members everest_peaks 2 0 1 0 1 "msuccess" []);
    reflexivity.
Defined.

(** X14. What the Everest section does is decided by the columns.  Without
    peakid in the member table or without a success-like column it is
    skipped with a message.  Otherwise the peak table is read with no
    guard: without pkname it raises [KeyError] for pkname; with pkname
    holding rows but no string, [AttributeError]; with usable names but
    without peakid in the peak table, [KeyError] for peakid; in every
    other case a count is returned. *)
Theorem everest_by_columns :
  forall m p : DataFrame,
    (has_col "peakid" m = false \/ success_cols m = [] ->
     everest_climbers m p = Ok (Skipped "Columns `peakid` or success not found."))
    /\ (has_col "peakid" m = true -> success_cols m <> [] ->
        (has_col "pkname" p = false ->
         everest_climbers m p = Err (KeyError "pkname"))
        /\ (forall names, getitem p "pkname" = Ok names ->
              (str_accessor names = Err AttributeError ->
               everest_climbers m p = Err AttributeError)
              /\ (str_accessor names = Ok names ->
                  (has_col "peakid" p = false ->
                   everest_climbers m p = Err (KeyError "peakid"))
                  /\ (has_col "peakid" p = true ->
                      exists n, everest_climbers m p = Ok (Computed n))))).
Proof.
  intros m p. unfold everest_climbers, has_col. split.
  - intros [H | H].
    + destruct (col_index "peakid" (columns m)); [discriminate | reflexivity].
    + rewrite H. now destruct (col_index "peakid" (columns m)).
  - intros Hm Hs.
    destruct (col_index "peakid" (columns m)) as [i |]; [| discriminate].
    destruct (success_cols m) as [| sc rest] eqn:Esc; [contradiction |].
    assert (Hsin : In sc (columns m)).
    { assert (H : In sc (success_cols m)) by (rewrite Esc; now left).
      unfold success_cols in H. now apply filter_In in H. }
    destruct (col_index_In _ _ Hsin) as [j Hj]. rewrite Hj.
    unfold everest_id, getitem. split.
    + intros Hn. destruct (col_index "pkname" (columns p)); [discriminate | reflexivity].
    + intros names Hnames.
      destruct (col_index "pkname" (columns p)) as [jn |]; [| discriminate].
      injection Hnames as <-. cbn [rbind]. split.
      * intros ->. reflexivity.
      * intros ->. cbn [rbind select columns rows]. split.
        -- intros Hp. destruct (col_index "peakid" (columns p)); [discriminate | reflexivity].
        -- intros Hp. destruct (col_index "peakid" (columns p)); [| discriminate].
           cbn [rbind]. eexists. reflexivity.
Qed.

Lemma everest_by_columns_witness :
  exists n, everest_climbers everest_members everest_peaks = Ok (Computed n).
Proof.
  destruct (everest_by_columns everest_members everest_peaks) as [_ H].
  destruct (H eq_refl ltac:(discriminate)) as [_ H'].
  destruct (H' [VStr "Mount Everest"] eq_refl) as [_ H''].
  destruct (H'' eq_refl) as [_ Hn].
  exact (Hn eq_refl).
Defined.

(** ** The success literals (lines 117 and 152) *)

(** X15. Which success-indicator cells count as a success, by the kind of
    the cell and the type of its column.  A null never does; a boolean
    does when it is true; a whole number does exactly when it is 1 in an
    int64 column, so in a column of whole numbers with a missing cell,
    which is read as float64 and prints 1.0, no cell does; a string does
    exactly when it is one of the spellings of "true", "1", "y", "yes" in
    upper- and lower-case letters, that is, when its lower-case form is
    one of the four literals. *)
Theorem is_success_by_kind :
  (forall d : dtype,
      is_success d VNull = false
      /\ (forall b : bool, is_success d (VBool b) = b)
      /\ (forall z : Z, is_success d (VInt z) = true <-> d = Int64 /\ z = 1%Z)
      /\ (forall s : string, is_success d (VStr s) = true <-> In s success_spellings)
      /\ (forall s : string,
            is_success d (VStr s) = true <-> In (lower s) ["true"; "1"; "y"; "yes"])
      /\ (forall s : string, is_success d (VStr (lower s)) = is_success d (VStr s)))
  /\ (forall col : Series,
        In VNull col ->
        (forall v, In v col -> v = VNull \/ exists z, v = VInt z) ->
        dtype_of col = Float64
        /\ forall v, In v col -> is_success (dtype_of col) v = false)
  /\ (forall col : Series,
        col <> [] -> all_integers col ->
        dtype_of col = Int64
        /\ forall v, In v col -> (is_success (dtype_of col) v = true <-> v = VInt 1)).
Proof.
  assert (Hlit : forall t : string,
             existsb (String.eqb t) success_literals = true
             <-> In t ["true"; "1"; "y"; "yes"]).
  { intros t. unfold success_literals. rewrite existsb_exists. split.
    - intros (x & Hx & E). apply String.eqb_eq in E. now subst x.
    - intros H. exists t. split; [exact H | apply String.eqb_refl]. }
  assert (Hint : forall d z, is_success d (VInt z) = true <-> d = Int64 /\ z = 1%Z).
  { intros d z. rewrite is_success_rule. cbn [counts_as_success].
    destruct d; try (split; [discriminate | intros [H _]; discriminate]).
    rewrite Z.eqb_eq. tauto. }
  split; [| split].
  - intros d. split; [reflexivity |]. split; [intros []; reflexivity |].
    split; [apply Hint |]. split; [| split].
    + intros s. rewrite is_success_rule. cbn [counts_as_success].
      rewrite existsb_exists. split.
      * intros (x & Hx & E). apply String.eqb_eq in E. now subst x.
      * intros H. exists s. split; [exact H | apply String.eqb_refl].
    + intros s. unfold is_success. cbn [astype_str]. apply Hlit.
    + intros s. unfold is_success. cbn [astype_str]. now rewrite lower_idem.
  - intros col Hnull Hkind.
    assert (Hd : dtype_of col = Float64).
    { destruct col as [| v col]; [destruct Hnull |]. unfold dtype_of.
      assert (H1 : forallb is_int (v :: col) = false).
      { destruct (forallb is_int (v :: col)) eqn:E; [| reflexivity].
        pose proof (proj1 (forallb_forall _ _) E VNull Hnull). discriminate. }
      assert (H2 : forallb (fun v => is_int v || negb (notna v)) (v :: col) = true).
      { apply forallb_forall. intros w Hw.
        destruct (Hkind w Hw) as [-> | [z ->]]; reflexivity. }
      now rewrite H1, H2. }
    split; [exact Hd |]. intros v Hv. rewrite Hd.
    destruct (Hkind v Hv) as [-> | [z ->]]; [reflexivity |].
    destruct (is_success Float64 (VInt z)) eqn:E; [| reflexivity].
    apply Hint in E. destruct E as [E _]. discriminate.
  - intros col Hne Hall.
    pose proof (dtype_of_integers col Hall Hne) as Hd.
    split; [exact Hd |]. intros v Hv. rewrite Hd.
    destruct (proj1 (Forall_forall _ _) Hall v Hv) as [z ->].
    rewrite Hint. split.
    + intros [_ ->]. reflexivity.
    + intros H. injection H as ->. now split.
Qed.

Lemma is_success_by_kind_witness :
  dtype_of [VInt 1; VNull; VInt 0] = Float64
  /\ forall v, In v [VInt 1; VNull; VInt 0] ->
       is_success (dtype_of [VInt 1; VNull; VInt 0]) v = false.
Proof.
  apply (proj1 (proj2 is_success_by_kind) [VInt 1; VNull; VInt 0]).
  - right. now left.
  - intros v [<- | [<- | [<- | []]]]; [right; now exists 1%Z | now left
                                       | right; now exists 0%Z].
Defined.

(** ** The sections in sequence *)

Lemma firstn5_lookup (h : list DataFrame) (a b c d e : DataFrame) :
  firstn 5 h = [a; b; c; d; e] ->
  nth_error h a_exped = Some a /\ nth_error h a_members = Some b
  /\ nth_error h a_peaks = Some c /\ nth_error h a_refer = Some d
  /\ nth_error h a_data_dict = Some e.
Proof.
  destruct h as [| f0 [| f1 [| f2 [| f3 [| f4 rest]]]]]; cbn [firstn];
    intros H; try discriminate.
  injection H as -> -> -> -> ->. repeat split.
Qed.

Lemma dimensions_section_run (st : state) (e m p r : DataFrame) :
  nth_error (heap st) a_exped = Some e ->
  nth_error (heap st) a_members = Some m ->
  nth_error (heap st) a_peaks = Some p ->
  nth_error (heap st) a_refer = Some r ->
  dimensions_section st
  = (Ok tt,
     {| heap := heap st;
        page := page st
                ++ [WMetric "Expeditions" (MShape (nrows e) (length (columns e)));
                    WMetric "Members" (MShape (nrows m) (length (columns m)));
                    WMetric "Peaks" (MShape (nrows p) (length (columns p)));
                    WMetric "References" (MShape (nrows r) (length (columns r)))] |}).
Proof.
  intros He Hm Hp Hr.
  unfold dimensions_section, bind, deref, emit.
  rewrite He, Hm, Hp, Hr. cbn [heap page]. now rewrite <- !app_assoc.
Qed.

(** X16. The dimension metrics describe the loaded tables, not the
    filtered views: whatever year and country are selected, once the
    filter and top-5 sections have run, the four metrics are the row and
    column counts of the whole expedition, member, peak and reference
    tables. *)
Theorem dimensions_are_unfiltered :
  forall (t : Tables) (selected_year selected_country : value) (st1 st2 : state),
    filter_section selected_year selected_country (init_state t) = (Ok tt, st1) ->
    top5_section st1 = (Ok tt, st2) ->
    dimensions_section st2
    = (Ok tt,
       {| heap := heap st2;
          page := page st2
                  ++ [WMetric "Expeditions"
                        (MShape (nrows (exped t)) (length (columns (exped t))));
                      WMetric "Members"
                        (MShape (nrows (members t)) (length (columns (members t))));
                      WMetric "Peaks"
                        (MShape (nrows (peaks t)) (length (columns (peaks t))));
                      WMetric "References"
                        (MShape (nrows (refer t)) (length (columns (refer t))))] |}).
Proof.
  intros t y c st1 st2 H1 H2.
  assert (Hlen : (5 <= length (heap (init_state t)))%nat) by (cbn; lia).
  destruct (frame_filter_section y c (init_state t) Hlen) as (Hf1 & Hl1 & _).
  rewrite H1 in Hf1, Hl1. cbn [snd] in Hf1, Hl1.
  destruct (frame_top5_section st1 Hl1) as (Hf2 & _ & _).
  rewrite H2 in Hf2. cbn [snd] in Hf2. rewrite Hf1 in Hf2.
  cbn [init_state heap firstn] in Hf2.
  destruct (firstn5_lookup _ _ _ _ _ _ Hf2) as (He & Hm & Hp & Hr & _).
  now apply dimensions_section_run.
Qed.

Lemma dimensions_are_unfiltered_witness :
  dimensions_section
    (snd (top5_section
            (snd (filter_section (VInt 2000) (VStr "UK") (init_state no_peak_tables)))))
  = (Ok tt,
     {| heap := heap (snd (top5_section
                             (snd (filter_section (VInt 2000) (VStr "UK")
                                     (init_state no_peak_tables)))));
        page := page (snd (top5_section
                             (snd (filter_section (VInt 2000) (VStr "UK")
                                     (init_state no_peak_tables)))))
                ++ [WMetric "Expeditions" (MShape 3 3);
                    WMetric "Members" (MShape 2 4);
                    WMetric "Peaks" (MShape 0 2);
                    WMetric "References" (MShape 0 1)] |}).
Proof.
  apply (dimensions_are_unfiltered no_peak_tables (VInt 2000) (VStr "UK")
           (snd (filter_section (VInt 2000) (VStr "UK") (init_state no_peak_tables)))
           (snd (top5_section
                   (snd (filter_section (VInt 2000) (VStr "UK")
                           (init_state no_peak_tables))))));
    reflexivity.
Defined.

(** X17. The guard of the top-5 section does not save the run.  When the
    peakid column is missing from the member table or from the peak
    table, the top-5 section shows its message, the dimension metrics
    follow, and the percentage of line 105 then raises [KeyError] for
    peakid: nothing of the analysis section reaches the page. *)
Theorem missing_peakid_stops_analysis :
  forall (st : state) (e m p r : DataFrame),
    nth_error (heap st) a_exped = Some e ->
    nth_error (heap st) a_members = Some m ->
    nth_error (heap st) a_peaks = Some p ->
    nth_error (heap st) a_refer = Some r ->
    has_col "peakid" m && has_col "peakid" p = false ->
    (do _ <- top5_section; do _ <- dimensions_section; analysis_section) st
    = (Err (KeyError "peakid"),
       {| heap := heap st;
          page := page st
                  ++ [WError "Required columns ('peakid', 'pkname') missing.";
                      WMetric "Expeditions" (MShape (nrows e) (length (columns e)));
                      WMetric "Members" (MShape (nrows m) (length (columns m)));
                      WMetric "Peaks" (MShape (nrows p) (length (columns p)));
                      WMetric "References" (MShape (nrows r) (length (columns r)))] |}).
Proof.
  intros st e m p r He Hm Hp Hr Hg.
  assert (Htop : top5_section st
                 = (Ok tt, {| heap := heap st;
                              page := page st
                                      ++ [WError "Required columns ('peakid', 'pkname') missing."] |})).
  { unfold top5_section.
    rewrite (bind_ok _ _ _ _ _ (deref_ok _ _ _ Hm)).
    rewrite (bind_ok _ _ _ _ _ (deref_ok _ _ _ Hp)).
    rewrite Hg. reflexivity. }
  rewrite (bind_ok _ _ _ _ _ Htop).
  set (st1 := {| heap := heap st;
                 page := page st ++ [WError "Required columns ('peakid', 'pkname') missing."] |}).
  rewrite (bind_ok _ _ _ _ _ (dimensions_section_run st1 e m p r He Hm Hp Hr)).
  cbn [heap page st1]. rewrite <- app_assoc. cbn [app].
  assert (Hpct : climbed_pct m p = Err (KeyError "peakid")).
  { unfold climbed_pct, peaks_climbed, total_peaks, getitem.
    apply andb_false_iff in Hg. unfold has_col in Hg.
    destruct (col_index "peakid" (columns m)); [| reflexivity].
    destruct (col_index "peakid" (columns p)); [| reflexivity].
    destruct Hg; discriminate. }
  unfold analysis_section, pct_section, bind, deref, lift.
  repeat (cbn [heap page]; first [rewrite Hm | rewrite Hp | rewrite Hpct]).
  reflexivity.
Qed.

Lemma missing_peakid_stops_analysis_witness :
  (do _ <- top5_section; do _ <- dimensions_section; analysis_section)
    (init_state {| exped := three_expeditions "a" "b" "c";
                   members := alice_bob_members;
                   peaks := everest_peaks;
                   refer := header_only_peaks;
                   data_dict := header_only_peaks |})
  = (Err (KeyError "peakid"),
     {| heap := [three_expeditions "a" "b" "c"; alice_bob_members; everest_peaks;
                 header_only_peaks; header_only_peaks];
        page := [] ++ [WError "Required columns ('peakid', 'pkname') missing.";
                       WMetric "Expeditions" (MShape 3 3);
                       WMetric "Members" (MShape 3 2);
                       WMetric "Peaks" (MShape 1 2);
                       WMetric "References" (MShape 0 2)] |}).
Proof.
  apply (missing_peakid_stops_analysis
           (init_state {| exped := three_expeditions "a" "b" "c";
                          members := alice_bob_members;
                          peaks := everest_peaks;
                          refer := header_only_peaks;
                          data_dict := header_only_peaks |})
           (three_expeditions "a" "b" "c") alice_bob_members everest_peaks
           header_only_peaks); reflexivity.
Defined.

(** X18. Nothing is shown without the two filter columns.  When the
    expedition table has no year column the script stops at its first
    statement with [KeyError] for year and an empty page, so that the
    message the trend section keeps for this case is never reached; with
    year but without citizen in the member table it stops in the same way
    with [KeyError] for citizen. *)
Theorem script_needs_filter_columns :
  forall (t : Tables) (selected_year selected_country : value),
    (has_col "year" (exped t) = false ->
     script selected_year selected_country (init_state t)
     = (Err (KeyError "year"), init_state t)
     /\ trend_data (exped t) = Ok (Skipped "`year` column not found in exped.csv"))
    /\ (has_col "year" (exped t) = true ->
        has_col "citizen" (members t) = false ->
        script selected_year selected_country (init_state t)
        = (Err (KeyError "citizen"), init_state t)).
Proof.
  intros t y c. unfold has_col. split.
  - intros H. split.
    + unfold script, filter_section, bind, deref, lift, years, getitem.
      cbn [init_state heap nth_error a_exped].
      destruct (col_index "year" (columns (exped t))); [discriminate | reflexivity].
    + unfold trend_data, has_col.
      destruct (col_index "year" (columns (exped t))); [discriminate | reflexivity].
  - intros Hy Hc.
    unfold script, filter_section, bind, deref, lift, ret, years, countries, getitem.
    cbn [init_state heap nth_error a_exped a_members].
    destruct (col_index "year" (columns (exped t))); [| discriminate]. cbn [rbind].
    destruct (col_index "citizen" (columns (members t))); [discriminate | reflexivity].
Qed.

Lemma script_needs_filter_columns_witness :
  script (VInt 2000) (VStr "UK")
    (init_state {| exped := three_expeditions "a" "b" "c";
                   members := alice_bob_members;
                   peaks := everest_peaks;
                   refer := header_only_peaks;
                   data_dict := header_only_peaks |})
  = (Err (KeyError "citizen"),
     init_state {| exped := three_expeditions "a" "b" "c";
                   members := alice_bob_members;
                   peaks := everest_peaks;
                   refer := header_only_peaks;
                   data_dict := header_only_peaks |}).
Proof.
  apply (script_needs_filter_columns
           {| exped := three_expeditions "a" "b" "c";
              members := alice_bob_members;
              peaks := everest_peaks;
              refer := header_only_peaks;
              data_dict := header_only_peaks |} (VInt 2000) (VStr "UK"));
    reflexivity.
Defined.

(** ** The ranking and the percentage agree *)

Lemma list_sum_perm (l l' : list nat) : Permutation l l' -> list_sum l = list_sum l'.
Proof.
  unfold list_sum. induction 1; cbn [fold_right]; lia.
Qed.

Lemma count_sum (keys : list value) (s : Series) :
  NoDup keys -> ~ In VNull keys ->
  (forall v, In v s -> v <> VNull -> In v keys) ->
  list_sum (map (fun k => count k s) keys) = length (dropna s).
Proof.
  intros Hnd Hnull. induction s as [| x s IH]; intros Hkeys.
  - cbn. apply list_sum_map_zero. reflexivity.
  - assert (IH' := IH (fun v Hv => Hkeys v (or_intror Hv))). clear IH.
    rewrite (list_sum_map_ext _
               (fun k => ((if value_eqb x k then 1 else 0) + count k s)%nat)).
    + rewrite list_sum_map_add, IH'. unfold dropna. cbn [filter].
      destruct (notna x) eqn:En.
      * rewrite list_sum_indicator; auto.
        apply Hkeys; [now left |]. intros E. rewrite E in En. discriminate.
      * rewrite list_sum_map_zero; [reflexivity |].
        intros k Hk. unfold value_eqb. destruct (value_eq_dec x k) as [E | _];
          [| reflexivity].
        exfalso. apply Hnull. rewrite <- E in Hk. destruct x; try discriminate.
        exact Hk.
    + intros k Hk. unfold count, value_eqb. cbn [count_occ].
      destruct (value_eq_dec x k); reflexivity.
Qed.

Lemma value_counts_sum (s : Series) :
  list_sum (map snd (value_counts s)) = length (dropna s).
Proof.
  unfold value_counts.
  rewrite <- (list_sum_perm _ _ (Permutation_map snd (sort_desc_perm _))).
  rewrite map_map. cbn [snd]. apply count_sum.
  - apply NoDup_unique.
  - rewrite unique_In, dropna_In. tauto.
  - intros v Hv Hnn. apply unique_In, dropna_In. tauto.
Qed.

Lemma column_sum_app (j : nat) (l1 l2 : list (list value)) :
  column_sum j (l1 ++ l2) = (column_sum j l1 + column_sum j l2)%Z.
Proof.
  unfold column_sum. induction l1 as [| r l1 IH]; cbn [app fold_right]; [lia |].
  rewrite IH. lia.
Qed.

Lemma ranking_sum (right : list (list value)) (vc : list (value * nat)) :
  NoDup (map (cell 0) right) ->
  column_sum 1 (flat_map (join_row 0 0 1 right)
                  (map (fun q => [fst q; VInt (Z.of_nat (snd q))]) vc))
  = Z.of_nat (list_sum (map snd vc)).
Proof.
  intros Hnd. induction vc as [| q vc IH]; [reflexivity |].
  cbn [map flat_map]. rewrite column_sum_app, IH.
  change (list_sum (snd q :: map snd vc)) with (snd q + list_sum (map snd vc))%nat.
  pose proof (join_row_unique_key 0 0 1 right [fst q; VInt (Z.of_nat (snd q))] Hnd)
    as Hone.
  destruct (join_row 0 0 1 right [fst q; VInt (Z.of_nat (snd q))]) as [| r [| r' rs]] eqn:E;
    cbn in Hone; try lia.
  assert (Hr : In r (join_row 0 0 1 right [fst q; VInt (Z.of_nat (snd q))]))
    by (rewrite E; now left).
  apply join_row_prefix in Hr. destruct Hr as [tail ->].
  cbn [column_sum fold_right app cell nth int_of]. lia.
Qed.

(** X19. The ranking and the percentage count the same peaks.  When the
    peak identifiers of the Peak table are pairwise distinct and the merge
    accepts the key columns, the full ranking, before its first five rows
    are taken, has one row for each peak counted in the numerator of the
    percentage, and its counts add up to the number of member rows that
    carry a peak identifier.  When the merge refuses the key columns there
    is no ranking, while the numerator is computed all the same. *)
Theorem ranking_agrees_with_percentage :
  forall (m p : DataFrame) (mp pp : Series),
    getitem m "peakid" = Ok mp ->
    getitem p "peakid" = Ok pp ->
    has_col "pkname" p = true ->
    NoDup pp ->
    (keys_clash mp pp = false ->
     exists ranking,
       top_peaks m p = Ok ranking
       /\ peaks_climbed m = Ok (nrows ranking)
       /\ column_sum 1 (rows ranking) = Z.of_nat (length (dropna mp)))
    /\ (keys_clash mp pp = true ->
        top_peaks m p = Err ValueError /\ peaks_climbed m = Ok (nunique mp)).
Proof.
  intros m p mp pp Hm Hp Hn Hnd.
  destruct (getitem_has_col _ _ _ Hp) as (jp & Hjp & Hpp & _).
  destruct (has_col_index _ _ Hn) as [jn Hjn].
  rewrite (top_peaks_rows m p mp jp jn Hm Hjp Hjn), <- Hpp.
  split.
  - intros ->.
    eexists. split; [reflexivity |]. unfold nrows. cbn [rows].
    set (right := map (fun r => [cell jp r; cell jn r]) (rows p)).
    assert (Hkey : NoDup (map (cell 0) right)).
    { subst right. rewrite map_map.
      change (NoDup (map (cell jp) (rows p))). now rewrite <- Hpp. }
    split.
    + unfold peaks_climbed. rewrite Hm. cbn [rbind]. f_equal.
      rewrite nunique_dropna, flat_map_length_one.
      * rewrite length_map. symmetry. apply value_counts_length.
      * intros l. now apply join_row_unique_key.
    + rewrite (ranking_sum right _ Hkey). f_equal. apply value_counts_sum.
  - intros ->. split; [reflexivity |].
    unfold peaks_climbed. rewrite Hm. cbn [rbind]. now rewrite nunique_dropna.
Qed.

Lemma ranking_agrees_with_percentage_witness :
  (keys_clash [VStr "EVER"; VStr "LHOT"] [VStr "EVER"] = false ->
   exists ranking,
     top_peaks two_peak_members one_peak = Ok ranking
     /\ peaks_climbed two_peak_members = Ok (nrows ranking)
     /\ column_sum 1 (rows ranking)
        = Z.of_nat (length (dropna [VStr "EVER"; VStr "LHOT"])))
  /\ (keys_clash [VStr "EVER"; VStr "LHOT"] [VStr "EVER"] = true ->
      top_peaks two_peak_members one_peak = Err ValueError
      /\ peaks_climbed two_peak_members = Ok (nunique [VStr "EVER"; VStr "LHOT"])).
Proof.
  apply (ranking_agrees_with_percentage two_peak_members one_peak
           [VStr "EVER"; VStr "LHOT"] [VStr "EVER"]);
    try reflexivity.
  repeat constructor. intros [].
Defined.

(** ** What the page never shows *)

Section Keeps.

Variable t : Tables.
Variable P : widget -> Prop.

Lemma settled_length (st : state) : settled t P st -> (5 <= length (heap st))%nat.
Proof.
  intros [H _]. rewrite <- (firstn_skipn 5 (heap st)), length_app, H. cbn. lia.
Qed.

Lemma keeps_bind {A B} (m : M A) (k : A -> M B) (Q : A -> Prop) (R : B -> Prop) :
  keeps t P m Q -> (forall a, Q a -> keeps t P (k a) R) -> keeps t P (bind m k) R.
Proof.
  intros Hm Hk st Hst. unfold bind.
  destruct (Hm st Hst) as [Hst' HQ].
  destruct (m st) as [[a | e] st'] eqn:E; cbn [fst snd] in *.
  - exact (Hk a (HQ a eq_refl) st' Hst').
  - split; [exact Hst' | discriminate].
Qed.

Lemma keeps_post {A} (m : M A) (Q Q' : A -> Prop) :
  keeps t P m Q -> (forall a, Q a -> Q' a) -> keeps t P m Q'.
Proof.
  intros Hm HQ st Hst. destruct (Hm st Hst) as [H1 H2]. split; auto.
Qed.

Lemma keeps_lift {A} (r : result A) : keeps t P (lift r) (fun a => r = Ok a).
Proof. intros st Hst. cbn. split; [exact Hst | auto]. Qed.

Lemma keeps_emit (w : widget) (R : unit -> Prop) :
  P w -> R tt -> keeps t P (emit w) R.
Proof.
  intros Hw HR st [Hh Hp]. unfold emit. cbn [fst snd]. split.
  - split; [exact Hh |]. cbn [page]. apply Forall_app. split; [exact Hp |].
    now constructor.
  - now intros [] _.
Qed.

Lemma keeps_alloc (df : DataFrame) : keeps t P (alloc df) fresh.
Proof.
  intros st Hst. pose proof (settled_length st Hst) as Hlen.
  destruct Hst as [Hh Hp]. unfold alloc. cbn [fst snd]. split.
  - split; [| exact Hp]. cbn [heap]. rewrite firstn_app.
    replace (5 - length (heap st))%nat with 0%nat by lia.
    cbn [firstn]. now rewrite app_nil_r.
  - intros a H. injection H as <-. exact Hlen.
Qed.

Lemma keeps_assign_columns (a : addr) (names : list string) :
  fresh a -> keeps t P (assign_columns a names) any.
Proof.
  intros Ha st [Hh Hp]. unfold assign_columns.
  destruct (nth_error (heap st) a) as [df |]; [| cbn; repeat split; auto].
  destruct (set_columns names df); cbn [fst snd]; repeat split; auto.
  cbn [heap]. now rewrite firstn_update.
Qed.

Lemma keeps_deref (a : addr) :
  keeps t P (deref a)
    (fun df => nth_error [exped t; members t; peaks t; refer t; data_dict t] a = Some df
               \/ (5 <= a)%nat).
Proof.
  intros st Hst. destruct Hst as [Hh Hp]. unfold deref.
  destruct (nth_error (heap st) a) as [df |] eqn:E; cbn [fst snd];
    (split; [now split |]); [| discriminate].
  intros df' H. injection H as <-.
  destruct (Nat.lt_ge_cases a 5) as [Hlt | Hge]; [left | now right].
  rewrite <- Hh. rewrite nth_error_firstn.
  destruct (Nat.ltb_spec a 5); [exact E | lia].
Qed.

Lemma keeps_deref_exped : keeps t P (deref a_exped) (fun df => df = exped t).
Proof.
  eapply keeps_post; [apply keeps_deref |].
  intros df [H | H]; [now injection H as <- | unfold a_exped in H; lia].
Qed.

Lemma keeps_deref_members : keeps t P (deref a_members) (fun df => df = members t).
Proof.
  eapply keeps_post; [apply keeps_deref |].
  intros df [H | H]; [now injection H as <- | unfold a_members in H; lia].
Qed.

Lemma keeps_deref_peaks : keeps t P (deref a_peaks) (fun df => df = peaks t).
Proof.
  eapply keeps_post; [apply keeps_deref |].
  intros df [H | H]; [now injection H as <- | unfold a_peaks in H; lia].
Qed.

End Keeps.

Lemma most_successful_messages (m : DataFrame) (msg : string) :
  most_successful m = Ok (Skipped msg) ->
  msg = "Could not find suitable 'name' or 'success' columns in members.csv."
  \/ msg = "No successful climbs found in the data.".
Proof.
  unfold most_successful.
  destruct (name_cols m) as [| nc ?]; [intros [= <-]; now left |].
  destruct (success_cols m) as [| sc ?]; [intros [= <-]; now left |].
  destruct (successful_members m sc) as [w |]; cbn [rbind]; [| discriminate].
  destruct (negb (empty w)); [| intros [= <-]; now right].
  destruct (getitem w nc); cbn [rbind]; [| discriminate].
  destruct (idxmax _); cbn [rbind]; discriminate.
Qed.

Lemma trend_data_with_year (e : DataFrame) (r : soft DataFrame) :
  has_col "year" e = true -> trend_data e = Ok r -> exists long, r = Computed long.
Proof.
  intros Hy. unfold trend_data. rewrite Hy.
  destruct (yearly_summary e); cbn [rbind]; [| discriminate].
  destruct (melt _ _ _ _ _); cbn [rbind]; [| discriminate].
  intros [= <-]. eexists. reflexivity.
Qed.

Lemma everest_skipped (m p : DataFrame) (msg : string) :
  everest_climbers m p = Ok (Skipped msg) ->
  msg = "Columns `peakid` or success not found."
  /\ (has_col "peakid" m = false \/ success_cols m = []).
Proof.
  unfold everest_climbers, has_col.
  destruct (col_index "peakid" (columns m)) as [i |];
    [| intros [= <-]; split; [reflexivity | now left]].
  destruct (success_cols m) as [| sc ?];
    [intros [= <-]; split; [reflexivity | now right] |].
  destruct (everest_id p); cbn [rbind]; [| discriminate].
  destruct (col_index sc (columns m)); discriminate.
Qed.

Lemma climbed_pct_has_peakid (m p : DataFrame) (q : Q) :
  climbed_pct m p = Ok q -> has_col "peakid" m = true.
Proof.
  unfold climbed_pct, peaks_climbed, getitem, has_col.
  destruct (col_index "peakid" (columns m)); [reflexivity | discriminate].
Qed.

Lemma years_has_year (e : DataFrame) (ys : Series) :
  years e = Ok ys -> has_col "year" e = true.
Proof.
  unfold years, getitem, has_col.
  destruct (col_index "year" (columns e)); [reflexivity | discriminate].
Qed.

Section Page.

Variable t : Tables.
Variable P : widget -> Prop.
Hypothesis Hplain : forall w, plain w -> P w.
Hypothesis Hmost :
  forall r, most_successful (members t) = Ok r -> P (most_successful_widget r).
Hypothesis Htrend :
  has_col "year" (exped t) = true ->
  forall r, trend_data (exped t) = Ok r -> P (trend_widget r).
Hypothesis Heverest :
  has_col "peakid" (members t) = true ->
  forall r, everest_climbers (members t) (peaks t) = Ok r -> P (everest_widget r).

Lemma keeps_emit_plain (w : widget) : plain w -> keeps t P (emit w) any.
Proof. intros H. apply keeps_emit; [now apply Hplain | exact I]. Qed.

Ltac keeps_steps :=
  repeat lazymatch goal with
         | |- keeps _ _ (bind _ _) _ =>
             eapply keeps_bind;
             [ first [ apply keeps_deref_exped | apply keeps_deref_members
                     | apply keeps_deref_peaks | apply keeps_deref
                     | apply keeps_lift | apply keeps_alloc
                     | apply keeps_emit_plain; exact I ]
             | intros ? ? ]
         end.

Lemma keeps_filter_section (y c : value) :
  keeps t P (filter_section y c) (fun _ => has_col "year" (exped t) = true).
Proof.
  unfold filter_section. keeps_steps. cbv beta in *. subst.
  apply keeps_emit; [apply Hplain; exact I |].
  eapply years_has_year. eassumption.
Qed.

Lemma keeps_top5_section : keeps t P top5_section any.
Proof.
  unfold top5_section. keeps_steps.
  destruct (has_col "peakid" _ && has_col "peakid" _);
    [| apply keeps_emit_plain; exact I].
  keeps_steps.
  eapply keeps_bind; [apply keeps_assign_columns; assumption | intros ? ?].
  keeps_steps. apply keeps_emit_plain; exact I.
Qed.

Lemma keeps_dimensions_section : keeps t P dimensions_section any.
Proof. unfold dimensions_section. keeps_steps. apply keeps_emit_plain; exact I. Qed.

Lemma keeps_pct_section :
  keeps t P pct_section (fun _ => has_col "peakid" (members t) = true).
Proof.
  unfold pct_section. keeps_steps. cbv beta in *. subst.
  apply keeps_emit; [apply Hplain; exact I |].
  eapply climbed_pct_has_peakid. eassumption.
Qed.

Lemma keeps_most_successful_section : keeps t P most_successful_section any.
Proof.
  unfold most_successful_section. keeps_steps. cbv beta in *. subst.
  apply keeps_emit; [now apply Hmost | exact I].
Qed.

Lemma keeps_trend_section :
  has_col "year" (exped t) = true -> keeps t P trend_section any.
Proof.
  intros Hy. unfold trend_section. keeps_steps. cbv beta in *. subst.
  apply keeps_emit; [now apply Htrend | exact I].
Qed.

Lemma keeps_everest_section :
  has_col "peakid" (members t) = true -> keeps t P everest_section any.
Proof.
  intros Hp. unfold everest_section. keeps_steps. cbv beta in *. subst.
  apply keeps_emit; [now apply Heverest | exact I].
Qed.

Lemma keeps_analysis_section :
  has_col "year" (exped t) = true -> keeps t P analysis_section any.
Proof.
  intros Hy. unfold analysis_section.
  eapply keeps_bind; [apply keeps_pct_section | intros ? Hp; cbv beta in Hp].
  eapply keeps_bind; [apply keeps_most_successful_section | intros ? _].
  eapply keeps_bind; [now apply keeps_trend_section | intros ? _].
  now apply keeps_everest_section.
Qed.

(** The page of a run: what the sections put there, and the banner at the
    end of a run without exception. *)
Lemma script_page (y c : value) (st : state) :
  settled t P st ->
  match script y c st with
  | (Ok _, st') =>
      exists st'', settled t P st'' /\ page st' = page st'' ++ [success_banner]
  | (Err _, st') => settled t P st'
  end.
Proof.
  intros Hst. unfold script, bind.
  destruct (keeps_filter_section y c st Hst) as [Hst1 HQ1].
  destruct (filter_section y c st) as [[u1 | e1] st1]; cbn [fst snd] in *;
    [| exact Hst1].
  specialize (HQ1 u1 eq_refl). cbv beta in HQ1.
  destruct (keeps_top5_section st1 Hst1) as [Hst2 _].
  destruct (top5_section st1) as [[u2 | e2] st2]; cbn [fst snd] in *; [| exact Hst2].
  destruct (keeps_dimensions_section st2 Hst2) as [Hst3 _].
  destruct (dimensions_section st2) as [[u3 | e3] st3]; cbn [fst snd] in *;
    [| exact Hst3].
  destruct (keeps_analysis_section HQ1 st3 Hst3) as [Hst4 _].
  destruct (analysis_section st3) as [[u4 | e4] st4]; cbn [fst snd] in *;
    [| exact Hst4].
  unfold emit. exists st4. split; [exact Hst4 | reflexivity].
Qed.

End Page.

Lemma settled_init (t : Tables) (P : widget -> Prop) : settled t P (init_state t).
Proof. split; [reflexivity | constructor]. Qed.

Lemma plain_not_warning (msg : string) (w : widget) : plain w -> w <> WWarning msg.
Proof. destruct w; cbn; intros H; try discriminate; destruct H. Qed.

(** X20. The script never shows the message "`year` column not found in
    exped.csv": whatever the tables and the selections, that warning is
    not on the page when the script ends, with or without exception,
    because a table without year column stops the script at line 53. *)
Theorem year_warning_never_shown :
  forall (t : Tables) (selected_year selected_country : value),
    ~ In year_warning
         (page (snd (script selected_year selected_country (init_state t)))).
Proof.
  intros t y c.
  assert (Hall : Forall (fun w => w <> year_warning)
                   (page (snd (script y c (init_state t))))).
  { pose proof (script_page t (fun w => w <> year_warning)) as Hpage.
    specialize (Hpage (fun w Hw => plain_not_warning _ w Hw)).
    assert (Hmost : forall r, most_successful (members t) = Ok r ->
                      most_successful_widget r <> year_warning).
    { intros [name | msg] Hr; [discriminate |].
      destruct (most_successful_messages _ _ Hr) as [-> | ->]; discriminate. }
    assert (Htrend : has_col "year" (exped t) = true ->
                     forall r, trend_data (exped t) = Ok r ->
                       trend_widget r <> year_warning).
    { intros Hy r Hr. destruct (trend_data_with_year _ _ Hy Hr) as [long ->].
      discriminate. }
    assert (Hev : has_col "peakid" (members t) = true ->
                  forall r, everest_climbers (members t) (peaks t) = Ok r ->
                    everest_widget r <> year_warning).
    { intros _ [n | msg] Hr; [discriminate |].
      destruct (everest_skipped _ _ _ Hr) as [-> _]. discriminate. }
    specialize (Hpage Hmost Htrend Hev y c (init_state t) (settled_init t _)).
    destruct (script y c (init_state t)) as [[u | e] st']; cbn [snd].
    - destruct Hpage as (st'' & [_ Hp] & ->). apply Forall_app. split; [exact Hp |].
      constructor; [discriminate | constructor].
    - now destruct Hpage. }
  intros Hin. exact (proj1 (Forall_forall _ _) Hall _ Hin eq_refl).
Qed.

(** X21. When the member table has a success-like column, the script
    never shows the message "Columns `peakid` or success not found.": a
    member table without peakid stops the script at the percentage, before
    the Everest section and its guard. *)
Theorem everest_warning_needs_no_success_column :
  forall (t : Tables) (selected_year selected_country : value),
    success_cols (members t) <> [] ->
    ~ In everest_warning
         (page (snd (script selected_year selected_country (init_state t)))).
Proof.
  intros t y c Hsc.
  assert (Hall : Forall (fun w => w <> everest_warning)
                   (page (snd (script y c (init_state t))))).
  { pose proof (script_page t (fun w => w <> everest_warning)) as Hpage.
    specialize (Hpage (fun w Hw => plain_not_warning _ w Hw)).
    assert (Hmost : forall r, most_successful (members t) = Ok r ->
                      most_successful_widget r <> everest_warning).
    { intros [name | msg] Hr; [discriminate |].
      destruct (most_successful_messages _ _ Hr) as [-> | ->]; discriminate. }
    assert (Htrend : has_col "year" (exped t) = true ->
                     forall r, trend_data (exped t) = Ok r ->
                       trend_widget r <> everest_warning).
    { intros Hy r Hr. destruct (trend_data_with_year _ _ Hy Hr) as [long ->].
      discriminate. }
    assert (Hev : has_col "peakid" (members t) = true ->
                  forall r, everest_climbers (members t) (peaks t) = Ok r ->
                    everest_widget r <> everest_warning).
    { intros Hp [n | msg] Hr; [discriminate |].
      destruct (everest_skipped _ _ _ Hr) as [_ [H | H]]; [congruence | contradiction]. }
    specialize (Hpage Hmost Htrend Hev y c (init_state t) (settled_init t _)).
    destruct (script y c (init_state t)) as [[u | e] st']; cbn [snd].
    - destruct Hpage as (st'' & [_ Hp] & ->). apply Forall_app. split; [exact Hp |].
      constructor; [discriminate | constructor].
    - now destruct Hpage. }
  intros Hin. exact (proj1 (Forall_forall _ _) Hall _ Hin eq_refl).
Qed.

Lemma everest_warning_needs_no_success_column_witness :
  ~ In everest_warning
       (page (snd (script (VInt 2000) (VStr "UK") (init_state no_peak_tables)))).
Proof.
  apply (everest_warning_needs_no_success_column no_peak_tables (VInt 2000) (VStr "UK")).
  discriminate.
Defined.

(** X22. The banner "Dashboard loaded and analyses complete." is on the
    page exactly when the script ends without exception, and it is then
    the last widget and shown once. *)
Theorem banner_means_complete :
  forall (t : Tables) (selected_year selected_country : value),
    let run := script selected_year selected_country (init_state t) in
    (In success_banner (page (snd run)) <-> fst run = Ok tt)
    /\ (fst run = Ok tt ->
        exists before,
          page (snd run) = before ++ [success_banner] /\ ~ In success_banner before).
Proof.
  intros t y c run.
  pose proof (script_page t (fun w => w <> success_banner)) as Hpage.
  assert (Hplain : forall w, plain w -> w <> success_banner)
    by (intros w Hw; destruct w; cbn in Hw; try discriminate; destruct Hw).
  assert (Hmost : forall r, most_successful (members t) = Ok r ->
                    most_successful_widget r <> success_banner)
    by (intros [? | ?] _; discriminate).
  assert (Htrend : has_col "year" (exped t) = true ->
                   forall r, trend_data (exped t) = Ok r ->
                     trend_widget r <> success_banner)
    by (intros _ [? | ?] _; discriminate).
  assert (Hev : has_col "peakid" (members t) = true ->
                forall r, everest_climbers (members t) (peaks t) = Ok r ->
                  everest_widget r <> success_banner)
    by (intros _ [? | ?] _; discriminate).
  specialize (Hpage Hplain Hmost Htrend Hev y c (init_state t) (settled_init t _)).
  subst run. destruct (script y c (init_state t)) as [[[] | e] st']; cbn [fst snd].
  - destruct Hpage as (st'' & [_ Hp] & ->). split.
    + split; [reflexivity |]. intros _. apply in_or_app. right. now left.
    + intros _. exists (page st''). split; [reflexivity |].
      intros Hin. exact (proj1 (Forall_forall _ _) Hp _ Hin eq_refl).
  - destruct Hpage as [_ Hp]. split.
    + split; [| discriminate].
      intros Hin. exfalso. exact (proj1 (Forall_forall _ _) Hp _ Hin eq_refl).
    + discriminate.
Qed.

(** ** The options of the select boxes *)








(** ** A complete run *)

Lemma filter_section_run (t : Tables) (y c : value) (ys cs copts : Series) :
  years (exped t) = Ok ys ->
  countries (members t) = Ok cs ->
  sorted false cs = Some copts ->
  exists fe fm,
    filtered_exped (exped t) y = Ok fe
    /\ filtered_members (members t) c = Ok fm
    /\ filter_section y c (init_state t)
       = (Ok tt,
          {| heap := [exped t; members t; peaks t; refer t; data_dict t; fe; fm];
             page := [WDataFrame (head 5 fe); WDataFrame (head 5 fm);
                      WDataFrame (head 5 (peaks t)); WDataFrame (head 5 (refer t));
                      WDataFrame (head 5 (data_dict t))] |}).
Proof.
  intros Hys Hcs Hopts.
  unfold filter_section, bind, deref, lift, ret, alloc, emit.
  cbn [init_state heap page nth_error a_exped a_members a_peaks a_refer a_data_dict].
  rewrite Hys, Hcs, Hopts. cbn [or_type_error].
  unfold years, getitem in Hys. unfold countries, getitem in Hcs.
  unfold filtered_exped, filtered_members.
  destruct (col_index "year" (columns (exped t))); [| discriminate].
  destruct (col_index "citizen" (columns (members t))); [| discriminate].
  eexists. eexists. split; [reflexivity |]. split; [reflexivity |].
  reflexivity.
Qed.

Lemma script_type_error (t : Tables) (y c : value) (ys cs : Series) :
  years (exped t) = Ok ys ->
  countries (members t) = Ok cs ->
  sorted false cs = None ->
  script y c (init_state t) = (Err TypeError, init_state t).
Proof.
  intros Hys Hcs Hnone.
  unfold script, filter_section, bind, deref, lift, ret.
  cbn [init_state heap nth_error a_exped a_members].
  now rewrite Hys, Hcs, Hnone.
Qed.

(** X24. With the year and nationality columns present, a run in which
    [sorted] cannot order the nationalities (the filled "UNKNOWN" next to
    numbers) stops at line 57 with [TypeError] and an empty page.  A run
    in which neither the two [sorted] calls nor any of the five analytical
    computations raises ends without exception, and its page is, in this
    order: the five previews (the first five rows of the two filtered
    views and of the peak, reference and dictionary tables), the top-5
    chart and frame or the top-5 message, the four dimension metrics, the
    percentage, the most successful climber or its message, the trend
    chart or its message, the Everest count or its message, and the
    banner. *)
Theorem script_completes :
  forall (t : Tables) (selected_year selected_country : value) (ys cs : Series),
    years (exped t) = Ok ys ->
    countries (members t) = Ok cs ->
    (sorted false cs = None ->
     script selected_year selected_country (init_state t)
     = (Err TypeError, init_state t))
    /\ forall (yopts copts : Series) (r5 : soft DataFrame) (q : Q)
              (r1 : soft value) (r2 : soft DataFrame) (r3 : soft nat),
    sorted true ys = Some yopts ->
    sorted false cs = Some copts ->
    top5 (members t) (peaks t) = Ok r5 ->
    climbed_pct (members t) (peaks t) = Ok q ->
    most_successful (members t) = Ok r1 ->
    trend_data (exped t) = Ok r2 ->
    everest_climbers (members t) (peaks t) = Ok r3 ->
    exists fe fm,
      filtered_exped (exped t) selected_year = Ok fe
      /\ filtered_members (members t) selected_country = Ok fm
      /\ fst (script selected_year selected_country (init_state t)) = Ok tt
      /\ page (snd (script selected_year selected_country (init_state t)))
         = [WDataFrame (head 5 fe); WDataFrame (head 5 fm);
            WDataFrame (head 5 (peaks t)); WDataFrame (head 5 (refer t));
            WDataFrame (head 5 (data_dict t))]
           ++ top5_widgets (Ok r5)
           ++ [WMetric "Expeditions"
                 (MShape (nrows (exped t)) (length (columns (exped t))));
               WMetric "Members"
                 (MShape (nrows (members t)) (length (columns (members t))));
               WMetric "Peaks"
                 (MShape (nrows (peaks t)) (length (columns (peaks t))));
               WMetric "References"
                 (MShape (nrows (refer t)) (length (columns (refer t))));
               WMetric "% of Peaks Climbed" (MPct q);
               most_successful_widget r1;
               trend_widget r2;
               everest_widget r3;
               success_banner].
Proof.
  intros t y c ys cs Hys Hcs. split.
  { intros Hnone. now apply (script_type_error t y c ys cs). }
  intros yopts copts r5 q r1 r2 r3 _ Hopts H5 Hq H1 H2 H3.
  destruct (filter_section_run t y c ys cs copts Hys Hcs Hopts)
    as (fe & fm & Hfe & Hfm & Hrun1).
  exists fe, fm. split; [exact Hfe |]. split; [exact Hfm |].
  set (st1 := {| heap := [exped t; members t; peaks t; refer t; data_dict t; fe; fm];
                 page := [WDataFrame (head 5 fe); WDataFrame (head 5 fm);
                          WDataFrame (head 5 (peaks t)); WDataFrame (head 5 (refer t));
                          WDataFrame (head 5 (data_dict t))] |}) in *.
  destruct (top5_section_top5 st1 (members t) (peaks t) eq_refl eq_refl)
    as [Hfst2 Hpage2].
  rewrite H5 in Hfst2, Hpage2.
  assert (Hlen1 : (5 <= length (heap st1))%nat) by (cbn; lia).
  destruct (frame_top5_section st1 Hlen1) as (Hfirst2 & _ & _).
  destruct (top5_section st1) as [r st2] eqn:Hrun2. cbn [fst snd] in *. subst r.
  unfold st1 in Hfirst2. cbn [heap firstn] in Hfirst2.
  destruct (firstn5_lookup _ _ _ _ _ _ Hfirst2) as (He & Hm & Hp & Hr & _).
  pose proof (dimensions_section_run st2 _ _ _ _ He Hm Hp Hr) as Hrun3.
  set (st3 := {| heap := heap st2;
                 page := page st2
                         ++ [WMetric "Expeditions"
                               (MShape (nrows (exped t)) (length (columns (exped t))));
                             WMetric "Members"
                               (MShape (nrows (members t)) (length (columns (members t))));
                             WMetric "Peaks"
                               (MShape (nrows (peaks t)) (length (columns (peaks t))));
                             WMetric "References"
                               (MShape (nrows (refer t)) (length (columns (refer t))))] |})
    in *.
  pose proof (analysis_section_runs st3 _ _ _ q r1 r2 r3 He Hm Hp Hq H1 H2 H3) as Hrun4.
  unfold script.
  rewrite (bind_ok _ _ _ _ _ Hrun1), (bind_ok _ _ _ _ _ Hrun2),
    (bind_ok _ _ _ _ _ Hrun3), (bind_ok _ _ _ _ _ Hrun4).
  unfold emit, st3. cbn [fst snd page heap]. split; [reflexivity |].
  rewrite Hpage2. unfold st1, success_banner. cbn [page].
  rewrite <- !app_assoc. reflexivity.
Qed.

Lemma script_completes_witness :
  exists fe fm,
    filtered_exped (exped (load_data raw_tables)) (VInt 2000) = Ok fe
    /\ filtered_members (members (load_data raw_tables)) (VStr "UK") = Ok fm
    /\ fst (script (VInt 2000) (VStr "UK") (init_state (load_data raw_tables))) = Ok tt
    /\ page (snd (script (VInt 2000) (VStr "UK") (init_state (load_data raw_tables))))
       = [WDataFrame (head 5 fe); WDataFrame (head 5 fm);
          WDataFrame (head 5 (peaks (load_data raw_tables)));
          WDataFrame (head 5 (refer (load_data raw_tables)));
          WDataFrame (head 5 (data_dict (load_data raw_tables)))]
         ++ top5_widgets (top5 (members (load_data raw_tables))
                               (peaks (load_data raw_tables)))
         ++ [WMetric "Expeditions" (MShape 3 3);
             WMetric "Members" (MShape 3 4);
             WMetric "Peaks" (MShape 1 2);
             WMetric "References" (MShape 0 1);
             WMetric "% of Peaks Climbed" (MPct (inject_Z 2 / inject_Z 1 * inject_Z 100));
             most_successful_widget (Computed (VStr "Alice"));
             trend_widget
               (Computed
                  {| columns := ["year"; "Metric"; "Count"];
                     rows := [[VInt 2000; VStr "total_expeditions"; VInt 2];
                              [VInt 2001; VStr "total_expeditions"; VInt 1];
                              [VInt 2000; VStr "successful_expeditions"; VInt 1];
                              [VInt 2001; VStr "successful_expeditions"; VInt 1]] |});
             everest_widget (Computed 0%nat);
             success_banner].
Proof.
  destruct (proj2 (script_completes (load_data raw_tables) (VInt 2000) (VStr "UK")
                     [VInt 2000; VInt 2001] [VStr "Nepal"; VStr "UNKNOWN"; VStr "UK"]
                     eq_refl eq_refl)
              [VInt 2001; VInt 2000] [VStr "Nepal"; VStr "UK"; VStr "UNKNOWN"]
              (Computed
                 {| columns := ["peakid"; "num_climbers"; "pkname"];
                    rows := [[VStr "UNKNOWN"; VInt 2; VNull];
                             [VStr "EVER"; VInt 1; VStr "Everest"]] |})
              (inject_Z 2 / inject_Z 1 * inject_Z 100)%Q
              (Computed (VStr "Alice"))
              (Computed
                 {| columns := ["year"; "Metric"; "Count"];
                    rows := [[VInt 2000; VStr "total_expeditions"; VInt 2];
                             [VInt 2001; VStr "total_expeditions"; VInt 1];
                             [VInt 2000; VStr "successful_expeditions"; VInt 1];
                             [VInt 2001; VStr "successful_expeditions"; VInt 1]] |})
              (Computed 0%nat)
              eq_refl eq_refl eq_refl eq_refl eq_refl eq_refl eq_refl)
    as (fe & fm & H1 & H2 & H3 & H4).
  exists fe, fm. repeat split; assumption.
Defined.



(** ** The sentinel next to numbers (lines 36, 57 and 78) *)

Lemma dtype_of_with_null (s : Series) :
  In VNull s ->
  (forall v, In v s -> v = VNull \/ exists z, v = VInt z) ->
  dtype_of s = Float64.
Proof.
  intros Hnull Hkind. destruct s as [| v s]; [destruct Hnull |]. unfold dtype_of.
  rewrite (forallb_refuted is_int _ _ Hnull eq_refl).
  assert (H : forallb (fun v => is_int v || negb (notna v)) (v :: s) = true).
  { apply forallb_forall. intros w Hw.
    destruct (Hkind w Hw) as [-> | [z ->]]; reflexivity. }
  now rewrite H.
Qed.

Lemma load_data_member_citizens (raw : Tables) (i : nat) :
  rectangular (members raw) ->
  col_index "citizen" (map strip (columns (members raw))) = Some i ->
  getitem (members (load_data raw)) "citizen"
  = Ok (map fill_unknown (map (cell i) (rows (members raw)))).
Proof.
  intros Hrect Hi. unfold getitem, load_data.
  cbn [members fillna strip_columns columns rows]. rewrite Hi. f_equal.
  rewrite !map_map. apply map_ext_in. intros r Hr.
  now apply load_data_member_citizen.
Qed.

(** X26. The sentinel breaks the ranking on numeric identifiers.  Let the
    raw member table hold whole numbers as peak identifiers, one of them
    missing, and let the Peak table identify its peaks by whole numbers.
    On the raw tables the merge of line 78 would accept the key columns
    (float64 against int64); after [load_data] the member column holds the
    string "UNKNOWN", the merge refuses it against the numbers and the
    top-5 computation raises [ValueError], while the numerator of the
    percentage is still computed. *)
Theorem sentinel_refuses_numeric_peaks :
  forall (raw : Tables) (i : nat) (col pp : Series),
    rectangular (members raw) ->
    col_index "peakid" (map strip (columns (members raw))) = Some i ->
    col = map (cell i) (rows (members raw)) ->
    In VNull col ->
    (forall v, In v col -> v = VNull \/ exists z, v = VInt z) ->
    getitem (peaks (load_data raw)) "peakid" = Ok pp ->
    has_col "pkname" (peaks (load_data raw)) = true ->
    all_integers pp ->
    pp <> [] ->
    keys_clash col pp = false
    /\ keys_clash (map fill_unknown col) pp = true
    /\ top5 (members (load_data raw)) (peaks (load_data raw)) = Err ValueError
    /\ peaks_climbed (members (load_data raw))
       = Ok (S (nunique (filter (fun v => negb (value_eqb v unknown)) col))).
Proof.
  intros raw i col pp Hrect Hi Hcol Hnull Hkind Hp Hn Hall Hne.
  pose proof (load_data_member_peakid raw i Hrect Hi) as Hget.
  rewrite <- Hcol in Hget.
  assert (Hclash : keys_clash (map fill_unknown col) pp = true).
  { apply (keys_clash_string_numbers _ _ "UNKNOWN"); [| exact Hall | exact Hne].
    apply in_map_iff. exists VNull. now split. }
  split; [| split; [exact Hclash | split]].
  - unfold keys_clash, incompatible_keys.
    rewrite (dtype_of_with_null _ Hnull Hkind), (dtype_of_integers _ Hall Hne).
    destruct (map fst (value_counts col)); destruct pp; reflexivity.
  - destruct (top5_cases _ _ _ _ Hget Hp) as (jp & _ & _ & ->).
    destruct (has_col_index _ _ Hn) as [jn ->]. now rewrite Hclash.
  - unfold peaks_climbed. rewrite Hget. cbn [rbind].
    rewrite nunique_dropna. now rewrite nunique_fill_unknown.
Qed.

Lemma sentinel_refuses_numeric_peaks_witness :
  keys_clash [VInt 1; VNull] [VInt 1] = false
  /\ keys_clash (map fill_unknown [VInt 1; VNull]) [VInt 1] = true
  /\ top5 (members (load_data numbered_tables)) (peaks (load_data numbered_tables))
     = Err ValueError
  /\ peaks_climbed (members (load_data numbered_tables))
     = Ok (S (nunique (filter (fun v => negb (value_eqb v unknown)) [VInt 1; VNull]))).
Proof.
  apply (sentinel_refuses_numeric_peaks numbered_tables 0 [VInt 1; VNull] [VInt 1]).
  - repeat constructor.
  - reflexivity.
  - reflexivity.
  - right. now left.
  - intros v [<- | [<- | []]]; [right; now exists 1%Z | now left].
  - reflexivity.
  - reflexivity.
  - repeat constructor. now exists 1%Z.
  - discriminate.
Defined.

(** X27. The sentinel breaks the nationality select box on numeric codes.
    Let the raw nationality column hold whole numbers and a missing cell.
    After [load_data] the column holds "UNKNOWN" next to the numbers,
    [sorted] cannot order the countries, and the script stops at line 57
    with [TypeError] before anything is shown, whatever is selected;
    without the fill the same values could be ordered. *)
Theorem sentinel_unsortable_countries :
  forall (raw : Tables) (i : nat) (col ys : Series),
    rectangular (members raw) ->
    col_index "citizen" (map strip (columns (members raw))) = Some i ->
    col = map (cell i) (rows (members raw)) ->
    In VNull col ->
    (exists z, In (VInt z) col) ->
    (forall v, In v col -> v = VNull \/ exists z, v = VInt z) ->
    years (exped (load_data raw)) = Ok ys ->
    country_options (members (load_data raw)) = Ok None
    /\ (forall selected_year selected_country : value,
          script selected_year selected_country (init_state (load_data raw))
          = (Err TypeError, init_state (load_data raw)))
    /\ exists opts, sorted false (unique (dropna col)) = Some opts.
Proof.
  intros raw i col ys Hrect Hi Hcol Hnull [z Hz] Hkind Hys.
  pose proof (load_data_member_citizens raw i Hrect Hi) as Hget.
  rewrite <- Hcol in Hget.
  set (cs := unique (dropna (map fill_unknown col))).
  assert (Hcs : countries (members (load_data raw)) = Ok cs)
    by (unfold countries; now rewrite Hget).
  assert (Hnone : sorted false cs = None).
  { unfold sorted, comparable.
    assert (Hu : In unknown cs).
    { subst cs. apply unique_In, dropna_In. split; [| discriminate].
      apply in_map_iff. exists VNull. now split. }
    assert (Hv : In (VInt z) cs).
    { subst cs. apply unique_In, dropna_In. split; [| discriminate].
      apply in_map_iff. exists (VInt z). now split. }
    rewrite (forallb_refuted is_num _ _ Hu eq_refl).
    now rewrite (forallb_refuted is_str _ _ Hv eq_refl). }
  split; [| split].
  - unfold country_options. rewrite Hcs. cbn [rbind]. now rewrite Hnone.
  - intros y c. now apply (script_type_error _ y c ys cs).
  - unfold sorted, comparable.
    assert (Hnum : forallb is_num (unique (dropna col)) = true).
    { apply forallb_forall. intros v Hv. apply unique_In, dropna_In in Hv.
      destruct Hv as [Hv Hnn]. destruct (Hkind v Hv) as [-> | [w ->]];
        [contradiction | reflexivity]. }
    rewrite Hnum. cbn [orb]. eexists. reflexivity.
Qed.

Lemma sentinel_unsortable_countries_witness :
  country_options (members (load_data numbered_tables)) = Ok None
  /\ (forall selected_year selected_country : value,
        script selected_year selected_country (init_state (load_data numbered_tables))
        = (Err TypeError, init_state (load_data numbered_tables)))
  /\ exists opts, sorted false (unique (dropna [VInt 977; VNull])) = Some opts.
Proof.
  apply (sentinel_unsortable_countries numbered_tables 2 [VInt 977; VNull]
           [VInt 2000; VInt 2001]).
  - repeat constructor.
  - reflexivity.
  - reflexivity.
  - right. now left.
  - exists 977%Z. now left.
  - intros v [<- | [<- | []]]; [right; now exists 977%Z | now left].
  - reflexivity.
Defined.
